(** * Intent-to-configuration compiler (BIG_automatique/config_script.py)

    A shallow embedding of the generator script: address allocation,
    adjacency, IGP stanzas, BGP policy generation, the per-router assembly and
    the driver that writes one file per router.

    Conventions of the embedding.
    - A Python [str] is a [string] of UTF-8 bytes.  Python orders [str] by
      code point, which is the lexicographic order of the UTF-8 bytes, so
      [String.le] is the order [sorted] uses.
    - A JSON object whose iteration order matters ([ases], [routers]) is an
      association list in document order, with pairwise distinct keys as
      [json.load] builds it; the tables the script builds and only reads by
      key ([out], [adj], [rel]) are [gmap]s.
    - A Python [set] is the sequence of its [add] calls together with an
      arbitrary enumeration of its members ([SetOrder]), so that nothing
      proved here leans on the order in which a set is walked.
    - A key read with [d.get(k, default)] is an [option] field; a key read
      with [d[k]] is a plain field, except where the script reads the same key
      both ways.
    - [raise SystemExit] and uncaught Python exceptions are the [Err] results
      of an error monad.

    The deployment script [deploy_telnet.py], which types the generated
    files into the consoles of the routers, is embedded after the compiler,
    with conventions of its own. *)

From Stdlib Require Import ZArith NArith Ascii List Lia.
From stdpp Require Import gmap strings list sorting pretty.

Local Open Scope N_scope.

(** ** Results and exceptions *)

(** The [ensure] failures of the script, named as the design document names
    them, and the Python exceptions an ill-formed document can raise. *)
Inductive failure :=
| InvalidPrefixLength
| EmptyRouterSet
| MissingSubnet
| EndpointCountMismatch
| DuplicateInterfaceUse
| RouterNotOnLink
| UnsupportedIGPType.

Inductive exc :=
| SystemExit (kind : failure) (msg : string)
| KeyError
| IndexError
| ValueError
| AddressValueError.

Inductive result (A : Type) :=
| Ok (a : A)
| Err (e : exc).
Arguments Ok {A} a.
Arguments Err {A} e.

Definition bind {A B} (m : result A) (k : A -> result B) : result B :=
  match m with
  | Ok a => k a
  | Err e => Err e
  end.

Notation "'let*' x ':=' m 'in' k" := (bind m (fun x => k))
  (at level 10, x pattern, m at level 100, k at level 200).

(** [def ensure(cond, msg)] *)
Definition ensure (cond : bool) (kind : failure) (msg : string) : result unit :=
  if cond then Ok tt else Err (SystemExit kind ("[ERROR] " +:+ msg)).

(** [d[k]] on a key that may be absent. *)
Definition key {A} (o : option A) : result A :=
  match o with
  | Some a => Ok a
  | None => Err KeyError
  end.

(** [l[i]] on a list. *)
Definition index {A} (l : list A) (i : nat) : result A :=
  match l !! i with
  | Some a => Ok a
  | None => Err IndexError
  end.

(** [for x in l: acc = body(acc, x)], leaving at the first exception. *)
Fixpoint for_each {A S} (body : S -> A -> result S) (l : list A) (acc : S)
  : result S :=
  match l with
  | [] => Ok acc
  | x :: rest => let* acc' := body acc x in for_each body rest acc'
  end.

(** ** JSON scalars *)

(** The scalars the script interpolates or converts: a JSON number without
    fraction, or a JSON string. *)
Inductive jscalar :=
| JInt (z : Z)
| JStr (s : string).

(** [str(v)] *)
Definition py_str (v : jscalar) : string :=
  match v with
  | JInt z => pretty z
  | JStr s => s
  end.

(** [str(d.get(k))], where an absent key gives [None]. *)
Definition py_str_opt (v : option jscalar) : string :=
  match v with
  | Some v => py_str v
  | None => "None"
  end.

(** ** The Python library behind the script *)

(** An [ipaddress.IPv6Network]: its network address as a 128-bit integer and
    its prefix length. *)
Record network := { network_address : N; prefixlen : N }.

(** The library functions the script calls and does not define.  [IPv6Network]
    parses in strict mode, so the host bits of what it returns are zero. *)
Class PyLib := {
  (** [ipaddress.IPv6Network(s)]; [None] is the [ValueError] it raises *)
  IPv6Network : string -> option network;
  (** [str(a)] of an [ipaddress.IPv6Address] *)
  str_addr : N -> string;
  (** [int(s)] of a [str]; [None] is the [ValueError] it raises *)
  int_of_str : string -> option Z;
  (** [s.strip()] *)
  strip : string -> string;
  IPv6Network_wf : forall s n, IPv6Network s = Some n ->
    prefixlen n <= 128 /\
    network_address n < 2 ^ 128 /\
    network_address n mod 2 ^ (128 - prefixlen n) = 0;
}.

(** [IPv6Address.__add__]: the sum has to fit 128 bits. *)
Definition addr_add (a k : N) : result N :=
  if a + k <? 2 ^ 128 then Ok (a + k) else Err AddressValueError.

(** The iteration order of a Python [set] of [str]: some enumeration of its
    distinct elements, fixed by the hash seed of the run. *)
Record SetOrder := {
  set_iter : list string -> list string;
  set_iter_perm : forall l, set_iter l ≡ₚ remove_dups l;
}.

(** ** The intent document *)

Record Endpoint := { ep_router : string; ep_interface : string }.

Record Link := {
  l_name : option string;
  l_type : option string;
  l_as : option jscalar;
  l_subnet_v6 : option string;
  l_endpoints : option (list Endpoint);
  l_relationship : option string;
  l_ospf_cost : option jscalar;
}.

Record IGP := {
  igp_type : string;
  igp_process_id : option jscalar;
  igp_area : option jscalar;
  igp_process_name : option jscalar;
}.

Record ASData := {
  as_loopbacks_pool : string;           (* asdata["ip_pools"]["loopbacks"] *)
  as_routers : option (list string);    (* None: absent, or not a list *)
  as_igp : IGP;
}.

Record Router := { r_as : jscalar; r_router_id : jscalar }.

Record BGP := {
  bgp_required : bool;                  (* truth value of bgp.get("required", False) *)
  bgp_ibgp_mode : option string;        (* bgp.get("ibgp", {}).get("mode") *)
}.

Record Intent := {
  ases : list (string * ASData);
  routers : list (string * Router);
  links : list Link;
  bgp : option BGP;
}.

(** [d[k]] on a JSON object. *)
Definition dict_get {A} (d : list (string * A)) (k : string) : result A :=
  key (snd <$> List.find (fun p => bool_decide (p.1 = k)) d).

(** [d[k]] where [k] was itself read from the document: the keys of a JSON
    object are [str], so a number finds nothing. *)
Definition dict_get_scalar {A} (d : list (string * A)) (k : jscalar) : result A :=
  match k with
  | JStr s => dict_get d s
  | JInt _ => Err KeyError
  end.

Section Compiler.
Context `{PyLib}.

(** [ipaddress.IPv6Network(s)] *)
Definition parse_network (s : string) : result network :=
  match IPv6Network s with
  | Some n => Ok n
  | None => Err ValueError
  end.

(** [int(v)] *)
Definition py_int (v : jscalar) : result Z :=
  match v with
  | JInt z => Ok z
  | JStr s => match int_of_str s with Some z => Ok z | None => Err ValueError end
  end.

(** [addr.split("/")[0]]: the text before the first slash. *)
Fixpoint before_slash (s : string) : string :=
  match s with
  | EmptyString => EmptyString
  | String c rest => if bool_decide (c = "/"%char) then EmptyString
                     else String c (before_slash rest)
  end.

(** [def ip_no_prefix(addr)] *)
Definition ip_no_prefix (addr : string) : string := strip (before_slash addr).

(** ** Address allocation *)

(** The inner loop of [allocate_loopbacks]:
    [for idx, rname in enumerate(routers, start=1): out[rname] = f"{base + idx}/128"] *)
Fixpoint allocate_as_routers (base idx : N) (rs : list string)
    (out : gmap string string) : result (gmap string string) :=
  match rs with
  | [] => Ok out
  | rname :: rest =>
      let* a := addr_add base idx in
      allocate_as_routers base (idx + 1) rest (<[rname := str_addr a +:+ "/128"]> out)
  end.

(** The body of the outer loop of [allocate_loopbacks]. *)
Definition allocate_as (out : gmap string string) (item : string * ASData)
  : result (gmap string string) :=
  let '(asn, asdata) := item in
  let* pool := parse_network (as_loopbacks_pool asdata) in
  let* _ := ensure (bool_decide (prefixlen pool = 64)) InvalidPrefixLength
              ("AS " +:+ asn +:+ " loopback pool must be /64, got /" +:+ pretty (prefixlen pool)) in
  let base := network_address pool in
  let routers := default [] (as_routers asdata) in
  let* _ := ensure (bool_decide (routers <> [])) EmptyRouterSet
              ("AS " +:+ asn +:+ " must define a non-empty routers list") in
  allocate_as_routers base 1 routers out.

(** [def allocate_loopbacks(intent)] *)
Definition allocate_loopbacks (intent : Intent) : result (gmap string string) :=
  for_each allocate_as (ases intent) ∅.

(** The body of the loop of [allocate_link_ips]. *)
Definition allocate_link (out : gmap (string * string) string) (link : Link)
  : result (gmap (string * string) string) :=
  let name := default "<unnamed>" (l_name link) in
  let subnet_str := default "" (l_subnet_v6 link) in
  let* _ := ensure (bool_decide (subnet_str <> "")) MissingSubnet
              ("Link " +:+ name +:+ " missing subnet_v6") in
  let* net := parse_network subnet_str in
  let* _ := ensure (bool_decide (prefixlen net = 64)) InvalidPrefixLength
              ("Link " +:+ name +:+ " subnet must be /64, got /" +:+ pretty (prefixlen net)) in
  let eps := default [] (l_endpoints link) in
  let* _ := ensure (bool_decide (length eps = 2%nat)) EndpointCountMismatch
              ("Link " +:+ name +:+ " must have exactly 2 endpoints") in
  let* e0 := index eps 0 in
  let* e1 := index eps 1 in
  let '(r0, i0) := (ep_router e0, ep_interface e0) in
  let '(r1, i1) := (ep_router e1, ep_interface e1) in
  let* _ := ensure (bool_decide (out !! (r0, i0) = None)) DuplicateInterfaceUse
              ("Interface reused: " +:+ r0 +:+ ":" +:+ i0) in
  let* _ := ensure (bool_decide (out !! (r1, i1) = None)) DuplicateInterfaceUse
              ("Interface reused: " +:+ r1 +:+ ":" +:+ i1) in
  let* a0 := addr_add (network_address net) 1 in
  let out := <[(r0, i0) := str_addr a0 +:+ "/64"]> out in
  let* a1 := addr_add (network_address net) 2 in
  let out := <[(r1, i1) := str_addr a1 +:+ "/64"]> out in
  Ok out.

(** [def allocate_link_ips(intent)] *)
Definition allocate_link_ips (intent : Intent) : result (gmap (string * string) string) :=
  for_each allocate_link (links intent) ∅.

(** ** Adjacency *)

(** [adj.setdefault(ep["router"], []).append(link)] for every endpoint. *)
Definition adjacency_add (link : Link) (adj : gmap string (list Link)) (ep : Endpoint)
  : gmap string (list Link) :=
  <[ep_router ep := default [] (adj !! ep_router ep) ++ [link]]> adj.

Definition adjacency_link (adj : gmap string (list Link)) (link : Link)
  : result (gmap string (list Link)) :=
  let* eps := key (l_endpoints link) in
  Ok (foldl (adjacency_add link) adj eps).

(** [def adjacency(intent)] *)
Definition adjacency (intent : Intent) : result (gmap string (list Link)) :=
  for_each adjacency_link (links intent) ∅.

(** [adj.get(rname, [])] *)
Definition adj_get (adj : gmap string (list Link)) (rname : string) : list Link :=
  default [] (adj !! rname).

Definition not_on_link (link : Link) (rname : string) : exc :=
  SystemExit RouterNotOnLink
    ("[ERROR] Router " +:+ rname +:+ " not in " +:+ default "<unnamed>" (l_name link)).

(** [def get_endpoint_for_router(link, rname)] *)
Definition get_endpoint_for_router (link : Link) (rname : string) : result Endpoint :=
  let* eps := key (l_endpoints link) in
  let* e0 := index eps 0 in
  if bool_decide (ep_router e0 = rname) then Ok e0 else
  let* e1 := index eps 1 in
  if bool_decide (ep_router e1 = rname) then Ok e1 else
  Err (not_on_link link rname).

(** [def other_endpoint(link, rname)] *)
Definition other_endpoint (link : Link) (rname : string) : result Endpoint :=
  let* eps := key (l_endpoints link) in
  let* e0 := index eps 0 in
  if bool_decide (ep_router e0 = rname) then index eps 1 else
  let* e1 := index eps 1 in
  if bool_decide (ep_router e1 = rname) then Ok e0 else
  Err (not_on_link link rname).

(** ** IGP stanzas *)

Definition unsupported_igp (t : string) : exc :=
  SystemExit UnsupportedIGPType ("[ERROR] Unsupported IGP type: " +:+ t).

(** [igp.get("process_name", "RIPNG")] *)
Definition rip_process (igp : IGP) : string :=
  match igp_process_name igp with
  | Some v => py_str v
  | None => "RIPNG"
  end.

(** [def igp_global(asdata, router_id)] *)
Definition igp_global (asdata : ASData) (router_id : jscalar) : result (list string) :=
  let igp := as_igp asdata in
  let t := igp_type igp in
  if bool_decide (t = "none") then Ok ["!"] else
  if bool_decide (t = "ospfv3") then
    let* pid := key (igp_process_id igp) in
    Ok ["ipv6 router ospf " +:+ py_str pid;
        " router-id " +:+ py_str router_id;
        "exit";
        "!"]
  else
  if bool_decide (t = "ripng") then
    Ok ["ipv6 router rip " +:+ rip_process igp;
        "exit";
        "!"]
  else Err (unsupported_igp t).

(** [def igp_iface_lines(asdata, link)] *)
Definition igp_iface_lines (asdata : ASData) (link : Link) : result (list string) :=
  let igp := as_igp asdata in
  let t := igp_type igp in
  if bool_decide (t = "none") then Ok [] else
  if bool_decide (t = "ospfv3") then
    let* pid := key (igp_process_id igp) in
    let* area := key (igp_area igp) in
    let lines := [" ipv6 ospf " +:+ py_str pid +:+ " area " +:+ py_str area] in
    match l_ospf_cost link with
    | Some c =>
        let* cost := py_int c in
        Ok (lines ++ [" ipv6 ospf cost " +:+ pretty cost])
    | None => Ok lines
    end
  else
  if bool_decide (t = "ripng") then
    Ok [" ipv6 rip " +:+ rip_process igp +:+ " enable"]
  else Err (unsupported_igp t).

(** ** BGP helpers *)

(** [def has_ebgp_neighbor(intent, rname)], as a loop over the links that
    returns at the first inter-AS link with [rname] at one end. *)
Fixpoint has_ebgp_neighbor_in (ls : list Link) (rname : string) : result bool :=
  match ls with
  | [] => Ok false
  | link :: rest =>
      if bool_decide (l_type link <> Some "inter_as") then has_ebgp_neighbor_in rest rname
      else
        let* eps := key (l_endpoints link) in
        let* e0 := index eps 0 in
        if bool_decide (ep_router e0 = rname) then Ok true else
        let* e1 := index eps 1 in
        if bool_decide (ep_router e1 = rname) then Ok true else
        has_ebgp_neighbor_in rest rname
  end.

Definition has_ebgp_neighbor (intent : Intent) (rname : string) : result bool :=
  has_ebgp_neighbor_in (links intent) rname.

(** A Python [set] of [str] is kept as the sequence of its [add] calls; its
    members are the elements of that sequence and a [SetOrder] enumerates
    them. *)
Definition set_add (x : string) (s : list string) : list string := s ++ [x].

(** The body of the loop of [intra_as_prefixes_for_as]. *)
Definition intra_as_prefix_step (asn_str : string) (prefs : list string) (link : Link)
  : list string :=
  if bool_decide (l_type link <> Some "intra_as") then prefs else
  if bool_decide (py_str_opt (l_as link) <> asn_str) then prefs else
  match l_subnet_v6 link with
  | Some subnet => if bool_decide (subnet <> "") then set_add subnet prefs else prefs
  | None => prefs
  end.

(** [def intra_as_prefixes_for_as(intent, asn_str)] *)
Definition intra_as_prefixes_for_as (intent : Intent) (asn_str : string) : list string :=
  foldl (intra_as_prefix_step asn_str) [] (links intent).

(** [def loopbacks_for_as(intent, loopbacks, asn_str)] *)
Definition loopbacks_for_as (intent : Intent) (loopbacks : gmap string string)
    (asn_str : string) : result (list string) :=
  let* asdata := dict_get (ases intent) asn_str in
  let* rs := key (as_routers asdata) in
  for_each (fun out r => let* lb := key (loopbacks !! r) in Ok (out ++ [lb])) rs [].

(** The body of the loop of [get_interas_relationship_for_router]. *)
Definition relationship_step (rname : string) (rel : gmap string string) (link : Link)
  : result (gmap string string) :=
  if bool_decide (l_type link <> Some "inter_as") then Ok rel else
  let* other := other_endpoint link rname in
  let peer := ep_router other in
  Ok (<[peer := default "peer" (l_relationship link)]> rel).

(** [def get_interas_relationship_for_router(intent, rname, adj)] *)
Definition get_interas_relationship_for_router (intent : Intent) (rname : string)
    (adj : gmap string (list Link)) : result (gmap string string) :=
  for_each (relationship_step rname) (adj_get adj rname) ∅.

(** [sorted(xs)] on [str]s. *)
Definition sorted (xs : list string) : list string := merge_sort String.le xs.

(** ** BGP and policies *)

(** [intent.get("bgp", {}).get("required", False)] *)
Definition bgp_is_required (intent : Intent) : bool :=
  match bgp intent with
  | Some b => bgp_required b
  | None => false
  end.

(** [bgp.get("ibgp", {}).get("mode", "full_mesh") == "full_mesh"] *)
Definition ibgp_full_mesh (b : BGP) : bool :=
  bool_decide (default "full_mesh" (bgp_ibgp_mode b) = "full_mesh").

(** The body of the iBGP loop: the state is [(ibgp_peers, lines)]. *)
Definition ibgp_step (rname : string) (my_asn : Z) (loopbacks : gmap string string)
    (st : list string * list string) (peer : string)
  : result (list string * list string) :=
  let '(ibgp_peers, lines) := st in
  if bool_decide (peer = rname) then Ok st else
  let* lb := key (loopbacks !! peer) in
  let peer_lb := ip_no_prefix lb in
  Ok (ibgp_peers ++ [peer_lb],
      lines ++ [" neighbor " +:+ peer_lb +:+ " remote-as " +:+ pretty my_asn;
                " neighbor " +:+ peer_lb +:+ " update-source Loopback0"]).

(** The body of the eBGP loop: the state is [(ebgp_peers, lines)], a peer
    being [(peer_ip, peer_asn, peer_router)]. *)
Definition ebgp_step (intent : Intent) (rname : string)
    (link_ips : gmap (string * string) string)
    (st : list (string * Z * string) * list string) (link : Link)
  : result (list (string * Z * string) * list string) :=
  let '(ebgp_peers, lines) := st in
  if bool_decide (l_type link <> Some "inter_as") then Ok st else
  let* other := other_endpoint link rname in
  let peer_router := ep_router other in
  let* pr := dict_get (routers intent) peer_router in
  let* peer_asn := py_int (r_as pr) in
  let* ip := key (link_ips !! (peer_router, ep_interface other)) in
  let peer_ip := ip_no_prefix ip in
  if bool_decide (peer_ip ∈ map (fun p => p.1.1) ebgp_peers) then Ok st else
  Ok (ebgp_peers ++ [(peer_ip, peer_asn, peer_router)],
      lines ++ [" neighbor " +:+ peer_ip +:+ " remote-as " +:+ pretty peer_asn]).

(** Activation of one iBGP peer in the address family. *)
Definition ibgp_activate (border : bool) (peer_lb : string) : list string :=
  ["  neighbor " +:+ peer_lb +:+ " activate"]
  ++ (if border then ["  neighbor " +:+ peer_lb +:+ " next-hop-self"] else [])
  ++ ["  neighbor " +:+ peer_lb +:+ " send-community"].

(** Activation of one eBGP peer in the address family. *)
Definition ebgp_activate (p : string * Z * string) : list string :=
  ["  neighbor " +:+ p.1.1 +:+ " activate";
   "  neighbor " +:+ p.1.1 +:+ " send-community"].

(** (B) the subnets of the inter-AS links of the router, in adjacency order. *)
Definition interas_network_step (lines : list string) (link : Link)
  : result (list string) :=
  if bool_decide (l_type link = Some "inter_as") then
    let* subnet := key (l_subnet_v6 link) in
    Ok (lines ++ ["  network " +:+ subnet])
  else Ok lines.

(** The prefix-list loop: the state is [(seq, lines)]. *)
Definition prefix_list_step (st : N * list string) (pfx : string) : N * list string :=
  let '(seq, lines) := st in
  (seq + 10, lines ++ ["ipv6 prefix-list PL-SELF seq " +:+ pretty seq +:+ " permit " +:+ pfx]).

(** The route-maps attached to one exterior neighbor. *)
Definition attach_route_maps (relmap : gmap string string) (p : string * Z * string)
  : list string :=
  let '(peer_ip, _, peer_router) := p in
  let rel := default "peer" (relmap !! peer_router) in
  if bool_decide (rel = "client") then
    ["  neighbor " +:+ peer_ip +:+ " route-map RM-OUT-CLIENT out";
     "  neighbor " +:+ peer_ip +:+ " route-map RM-IN-CLIENT in"]
  else if bool_decide (rel = "provider") then
    ["  neighbor " +:+ peer_ip +:+ " route-map RM-OUT-PEERPROV out";
     "  neighbor " +:+ peer_ip +:+ " route-map RM-IN-PROV in"]
  else
    ["  neighbor " +:+ peer_ip +:+ " route-map RM-OUT-PEERPROV out";
     "  neighbor " +:+ peer_ip +:+ " route-map RM-IN-PEER in"].

(** The fixed route-map declarations of a border router. *)
Definition route_map_lines (my_asn : Z) : list string :=
  let comm_self := pretty my_asn +:+ ":50" in
  let comm_client := pretty my_asn +:+ ":100" in
  let comm_peer := pretty my_asn +:+ ":200" in
  let comm_prov := pretty my_asn +:+ ":300" in
  ["route-map RM-IN-CLIENT permit 10";
   " set community " +:+ comm_client +:+ " additive";
   " set local-preference 200";
   "!";
   "route-map RM-IN-PEER permit 10";
   " set community " +:+ comm_peer +:+ " additive";
   " set local-preference 150";
   "!";
   "route-map RM-IN-PROV permit 10";
   " set community " +:+ comm_prov +:+ " additive";
   " set local-preference 50";
   "!";
   "route-map RM-OUT-PEERPROV permit 10";
   " match ipv6 address prefix-list PL-SELF";
   " set community " +:+ comm_self +:+ " additive";
   "!";
   "route-map RM-OUT-PEERPROV permit 20";
   " match community COMM-CLIENT";
   "!";
   "route-map RM-OUT-PEERPROV deny 100";
   "!";
   "route-map RM-OUT-CLIENT permit 10";
   "!";
   "router bgp " +:+ pretty my_asn;
   " address-family ipv6 unicast"].

(** [def build_bgp(intent, rname, loopbacks, link_ips, adj)] *)
Definition build_bgp (o : SetOrder) (intent : Intent) (rname : string)
    (loopbacks : gmap string string) (link_ips : gmap (string * string) string)
    (adj : gmap string (list Link)) : result (list string) :=
  if negb (bgp_is_required intent) then Ok [] else
  let* bgp := key (bgp intent) in
  let* r := dict_get (routers intent) rname in
  let* my_asn := py_int (r_as r) in
  let rid := r_router_id r in
  let lines :=
    ["router bgp " +:+ pretty my_asn;
     " bgp router-id " +:+ py_str rid;
     " bgp log-neighbor-changes";
     " no bgp default ipv4-unicast"] in
  (* iBGP full mesh over the loopbacks *)
  let* (ibgp_peers, lines) :=
    (if ibgp_full_mesh bgp then
       let* asdata := dict_get (ases intent) (pretty my_asn) in
       let* rs := key (as_routers asdata) in
       for_each (ibgp_step rname my_asn loopbacks) rs ([], lines)
     else Ok ([], lines)) in
  (* eBGP peers on the inter-AS links of the router *)
  let* (ebgp_peers, lines) :=
    for_each (ebgp_step intent rname link_ips) (adj_get adj rname) ([], lines) in
  let lines := lines ++ [" !"; " address-family ipv6 unicast"] in
  let* border := has_ebgp_neighbor intent rname in
  let lines := lines ++ concat (map (ibgp_activate border) ibgp_peers) in
  let lines := lines ++ concat (map ebgp_activate ebgp_peers) in
  (* (A) the loopback of the router *)
  let* lb := key (loopbacks !! rname) in
  let lines := lines ++ ["  network " +:+ lb] in
  (* (B) the inter-AS subnets of the router *)
  let* lines := for_each interas_network_step (adj_get adj rname) lines in
  (* (C), (D) on a border router: the intra-AS subnets and the loopbacks of the AS *)
  let* lines :=
    (if border then
       let lines :=
         lines ++ map (fun pfx => "  network " +:+ pfx)
                      (sorted (set_iter o (intra_as_prefixes_for_as intent (pretty my_asn)))) in
       let* lbs := loopbacks_for_as intent loopbacks (pretty my_asn) in
       Ok (lines ++ map (fun lb => "  network " +:+ lb) (sorted lbs))
     else Ok lines) in
  if border then
    let comm_self := pretty my_asn +:+ ":50" in
    let comm_client := pretty my_asn +:+ ":100" in
    let* lbs := loopbacks_for_as intent loopbacks (pretty my_asn) in
    let self_pfx := foldl (fun s lb => set_add lb s) [] lbs in
    let self_pfx :=
      foldl (fun s pfx => set_add pfx s) self_pfx
            (set_iter o (intra_as_prefixes_for_as intent (pretty my_asn))) in
    let lines :=
      lines ++ [" exit-address-family"; "!";
                "ip community-list standard COMM-SELF permit " +:+ comm_self;
                "ip community-list standard COMM-CLIENT permit " +:+ comm_client;
                "!"] in
    let seq := 10 in
    let lines := lines ++ ["ipv6 prefix-list PL-SELF seq 5 deny ::/0"] in
    let '(seq, lines) := foldl prefix_list_step (seq, lines) (sorted (set_iter o self_pfx)) in
    let lines := lines ++ ["!"] in
    let lines := lines ++ route_map_lines my_asn in
    let* relmap := get_interas_relationship_for_router intent rname adj in
    let lines := lines ++ concat (map (attach_route_maps relmap) ebgp_peers) in
    Ok (lines ++ [" exit-address-family"; "exit"; "!"])
  else
    Ok (lines ++ [" exit-address-family"; "exit"; "!"]).

(** ** One router *)

(** The dictionary [{"type": "intra_as"}] passed for the loopback. *)
Definition Loopback0_link : Link :=
  {| l_name := None; l_type := Some "intra_as"; l_as := None; l_subnet_v6 := None;
     l_endpoints := None; l_relationship := None; l_ospf_cost := None |}.

(** The body of the loop over the physical interfaces. *)
Definition interface_step (rname : string) (asdata : ASData)
    (link_ips : gmap (string * string) string) (lines : list string) (link : Link)
  : result (list string) :=
  let* my_ep := get_endpoint_for_router link rname in
  let iface := ep_interface my_ep in
  let* ip := key (link_ips !! (rname, iface)) in
  let lines :=
    lines ++ ["interface " +:+ iface;
              " no ip address";
              " ipv6 enable";
              " ipv6 address " +:+ ip] in
  let* lines :=
    (if bool_decide (l_type link = Some "intra_as") then
       let* igp := igp_iface_lines asdata link in Ok (lines ++ igp)
     else Ok lines) in
  Ok (lines ++ [" no shutdown"; "exit"; "!"]).

(** The value of [lines] at the end of [build_router_config]. *)
Definition router_config_lines (o : SetOrder) (intent : Intent) (rname : string)
    (loopbacks : gmap string string) (link_ips : gmap (string * string) string)
    (adj : gmap string (list Link)) : result (list string) :=
  let* r := dict_get (routers intent) rname in
  let asn := r_as r in
  let* asdata := dict_get_scalar (ases intent) asn in
  let lines :=
    ["!";
     "hostname " +:+ rname;
     "!";
     "no ip domain-lookup";
     "ipv6 unicast-routing";
     "!"] in
  let* lb := key (loopbacks !! rname) in
  let lines :=
    lines ++ ["interface Loopback0";
              " no ip address";
              " ipv6 address " +:+ lb] in
  let* igp := igp_iface_lines asdata Loopback0_link in
  let lines := lines ++ igp in
  let lines := lines ++ [" no shutdown"; "exit"; "!"] in
  let* lines := for_each (interface_step rname asdata link_ips) (adj_get adj rname) lines in
  let* igp := igp_global asdata (r_router_id r) in
  let lines := lines ++ igp in
  let* bgp := build_bgp o intent rname loopbacks link_ips adj in
  let lines := lines ++ bgp in
  Ok (lines ++ ["!"]).

(** ["\n".join(lines)] *)
Definition newline : string := String (ascii_of_nat 10) "".

Fixpoint join (sep : string) (ls : list string) : string :=
  match ls with
  | [] => ""
  | [x] => x
  | x :: rest => x +:+ sep +:+ join sep rest
  end.

(** [def build_router_config(intent, rname, loopbacks, link_ips, adj)] *)
Definition build_router_config (o : SetOrder) (intent : Intent) (rname : string)
    (loopbacks : gmap string string) (link_ips : gmap (string * string) string)
    (adj : gmap string (list Link)) : result string :=
  let* lines := router_config_lines o intent rname loopbacks link_ips adj in
  Ok (join newline lines +:+ newline).

(** ** The driver *)

(** The files of the output directory written so far, oldest first: the file
    name and its content. *)
Definition files := list (string * string).

(** The loop of [main]: generate and write one file per router, in the order
    of [intent["routers"]]. *)
Fixpoint write_configs (o : SetOrder) (intent : Intent)
    (loopbacks : gmap string string) (link_ips : gmap (string * string) string)
    (adj : gmap string (list Link)) (rnames : list string) (fs : files)
  : files * result unit :=
  match rnames with
  | [] => (fs, Ok tt)
  | rname :: rest =>
      match build_router_config o intent rname loopbacks link_ips adj with
      | Err e => (fs, Err e)
      | Ok cfg => write_configs o intent loopbacks link_ips adj rest
                                (fs ++ [(rname +:+ ".cfg", cfg)])
      end
  end.

(** [def main()] on the intent document [json.load] returned: the files
    written and how the run ended. *)
Definition main (o : SetOrder) (intent : Intent) : files * result unit :=
  match allocate_loopbacks intent with
  | Err e => ([], Err e)
  | Ok loopbacks =>
      match allocate_link_ips intent with
      | Err e => ([], Err e)
      | Ok link_ips =>
          match adjacency intent with
          | Err e => ([], Err e)
          | Ok adj =>
              write_configs o intent loopbacks link_ips adj (map fst (routers intent)) []
          end
      end
  end.

End Compiler.

(** * Deployment over Telnet (deploy_telnet.py)

    The script that pushes the generated files to the routers: for every
    router of its port table it reads [configs_gen/<router>.cfg], keeps the
    lines worth typing, and types them into the console of the router.

    Conventions of the embedding.
    - What the script does to the outside is a trace of [event]s, oldest
      first: what it prints, the connection it opens, what it writes on it,
      the pauses it makes and the closing of the connection.
    - The outside is a [World]: the regular files that read as UTF-8 text,
      by path, each with the text [f.read()] returns for it; and the ports of
      [HOST] on which a Telnet server answers.  Writing on an open
      connection is taken to succeed.
    - [telnetlib.Telnet.write] doubles the byte 255, which UTF-8 text never
      holds, so what is written is what is sent. *)

Module DeployTelnet.

(** The [str] methods the script calls besides [strip]. *)
Class PyText := {
  (** [s.splitlines()] *)
  splitlines : string -> list string;
  (** [s.rstrip()] *)
  rstrip : string -> string;
}.

Inductive event :=
| Print (text : string)               (* print(text) *)
| Connect (host : string) (port : Z)  (* telnetlib.Telnet(host, port, timeout=10) *)
| Sleep (ms : N)                      (* time.sleep, in milliseconds *)
| Send (data : string)                (* tn.write(data) *)
| Close.                              (* tn.close() *)

Record World := {
  files : gmap string string;
  accepts : Z -> bool;
}.

(** How a call ends: it returns, or it raises the [KeyError] of a router
    missing from the port table, or the [OSError] of a connection that
    cannot be opened. *)
Inductive outcome :=
| Returned
| RaisedKeyError
| RaisedOSError.

Definition HOST : string := "localhost".

Definition ROUTER_TELNET_PORTS : list (string * Z) :=
  [("R1", 5005); ("R2", 5006); ("R3", 5007); ("R4", 5008); ("R5", 5001);
   ("R6", 5009); ("R7", 5010); ("R8", 5011); ("R9", 5012); ("R10", 5013);
   ("R11", 5000); ("R12", 5002); ("R13", 5003)]%Z.

Definition CONFIG_DIR : string := "configs_gen".

(** [s.startswith(p)] *)
Fixpoint startswith (s p : string) : bool :=
  match p with
  | EmptyString => true
  | String a p' =>
      match s with
      | EmptyString => false
      | String b s' => Ascii.eqb a b && startswith s' p'
      end
  end.

(** [s.endswith(p)] *)
Definition endswith (s p : string) : bool := startswith (String.rev s) (String.rev p).

(** [needle in s] *)
Fixpoint contains (needle s : string) : bool :=
  startswith s needle ||
  match s with
  | EmptyString => false
  | String _ rest => contains needle rest
  end.

(** [os.path.join(a, b)] on POSIX paths. *)
Definition path_join (a b : string) : string :=
  if startswith b "/" then b
  else if bool_decide (a = "") || endswith a "/" then a +:+ b
  else a +:+ "/" +:+ b.

(** ["\r\n"] *)
Definition crlf : string := String (ascii_of_nat 13) (String (ascii_of_nat 10) "").

Section Script.
Context `{PyLib} `{PyText}.

(** The body of the loop of [clean_lines_for_cli]: each test leaves the
    iteration with [continue]. *)
Definition clean_step (lines : list string) (raw : string) : list string :=
  let line := rstrip raw in
  if bool_decide (strip line = "") then lines else
  if startswith (strip line) "!" then lines else
  if contains "boot-start-marker" line || contains "boot-end-marker" line then lines else
  if bool_decide (strip line = "end") then lines else
  if bool_decide (strip line = "conf terminal")
     || bool_decide (strip line = "configure terminal") then lines else
  lines ++ [line].

(** [def clean_lines_for_cli(cfg_text)] *)
Definition clean_lines_for_cli (cfg_text : string) : list string :=
  foldl clean_step [] (splitlines cfg_text).

(** The body of the loop that types the lines. *)
Definition send_step (t : list event) (line : string) : list event :=
  t ++ [Send (line +:+ crlf); Sleep 50].

(** [def deploy_router(router_name)], from the trace [t] so far. *)
Definition deploy_router (w : World) (router_name : string) (t : list event)
  : list event * outcome :=
  match snd <$> List.find (fun p => bool_decide (p.1 = router_name)) ROUTER_TELNET_PORTS with
  | None => (t, RaisedKeyError)
  | Some port =>
      let cfg_path := path_join CONFIG_DIR (router_name +:+ ".cfg") in
      match files w !! cfg_path with
      | None => (t ++ [Print ("[SKIP] Fichier manquant: " +:+ cfg_path)], Returned)
      | Some cfg_text =>
          let cfg_lines := clean_lines_for_cli cfg_text in
          let t := t ++ [Print ("[INFO] Connexion Telnet à " +:+ router_name +:+ " sur "
                                +:+ HOST +:+ ":" +:+ pretty port +:+ " ...")] in
          if negb (accepts w port) then (t, RaisedOSError) else
          let t := t ++ [Connect HOST port] in
          let t := t ++ [Sleep 1000] in
          let t := t ++ [Send crlf] in
          let t := t ++ [Send ("enable" +:+ crlf)] in
          let t := t ++ [Sleep 500] in
          let t := t ++ [Send ("conf t" +:+ crlf)] in
          let t := t ++ [Sleep 500] in
          let t := foldl send_step t cfg_lines in
          let t := t ++ [Send crlf] in
          let t := t ++ [Sleep 300] in
          let t := t ++ [Send ("end" +:+ crlf)] in
          let t := t ++ [Sleep 1000] in
          let t := t ++ [Send ("wr mem" +:+ crlf)] in
          let t := t ++ [Sleep 2000] in
          let t := t ++ [Send crlf] in
          let t := t ++ [Close] in
          (t ++ [Print ("[OK] " +:+ router_name +:+ " déployé via Telnet.")], Returned)
      end
  end.

(** The loop of [main]: an exception leaves it. *)
Fixpoint deploy_routers (w : World) (names : list string) (t : list event)
  : list event * outcome :=
  match names with
  | [] => (t, Returned)
  | r :: rest =>
      match deploy_router w r t with
      | (t', Returned) => deploy_routers w rest t'
      | stopped => stopped
      end
  end.

(** [def main()]: [for r in ROUTER_TELNET_PORTS.keys(): deploy_router(r)] *)
Definition main (w : World) : list event * outcome :=
  deploy_routers w (map fst ROUTER_TELNET_PORTS) [].

End Script.

End DeployTelnet.

(** * The vocabulary of the specification *)

Section Vocabulary.
Context `{PyLib}.

(** ** Loopback allocation *)

(** [asdata.get("routers", [])] *)
Definition as_routers_list (asd : ASData) : list string := default [] (as_routers asd).

(** An AS the allocator accepts: a /64 pool and a non-empty router list
    (of fewer than 2^64 names, as any list in memory is). *)
Definition valid_as (asd : ASData) : Prop :=
  exists pool, IPv6Network (as_loopbacks_pool asd) = Some pool /\
               prefixlen pool = 64 /\
               as_routers_list asd <> [] /\
               N.of_nat (length (as_routers_list asd)) < 2 ^ 64.

(** The router names of the whole document, AS by AS. *)
Definition document_routers (l : list (string * ASData)) : list string :=
  concat (map (fun item => as_routers_list item.2) l).

(** What strict parsing guarantees of a network. *)
Definition IPv6Network_ok (n : network) : Prop :=
  prefixlen n <= 128 /\
  network_address n < 2 ^ 128 /\
  network_address n mod 2 ^ (128 - prefixlen n) = 0.

(** ** Link address allocation *)

(** The (router, interface) pairs a link claims. *)
Definition endpoint_pair (ep : Endpoint) : string * string :=
  (ep_router ep, ep_interface ep).

Definition endpoint_pairs (link : Link) : list (string * string) :=
  map endpoint_pair (default [] (l_endpoints link)).

(** A link that is well formed on its own: a /64 subnet and two endpoints. *)
Definition valid_link (link : Link) : Prop :=
  exists s net e0 e1,
    l_subnet_v6 link = Some s /\ s <> "" /\ IPv6Network s = Some net /\
    prefixlen net = 64 /\ l_endpoints link = Some [e0; e1].

(** No (router, interface) pair is claimed by two links of the list. *)
Fixpoint no_shared_interface (l : list Link) : Prop :=
  match l with
  | [] => True
  | link :: rest =>
      (forall p, p ∈ endpoint_pairs link -> p ∉ concat (map endpoint_pairs rest))
      /\ no_shared_interface rest
  end.

(** ** The shape of the BGP block *)

(** The lines of the block, by kind. *)
Definition bgp_head (my_asn : Z) (rid : jscalar) : list string :=
  ["router bgp " +:+ pretty my_asn;
   " bgp router-id " +:+ py_str rid;
   " bgp log-neighbor-changes";
   " no bgp default ipv4-unicast"].

Definition ibgp_neighbor (my_asn : Z) (peer_lb : string) : list string :=
  [" neighbor " +:+ peer_lb +:+ " remote-as " +:+ pretty my_asn;
   " neighbor " +:+ peer_lb +:+ " update-source Loopback0"].

Definition ebgp_neighbor (p : string * Z * string) : string :=
  " neighbor " +:+ p.1.1 +:+ " remote-as " +:+ pretty p.1.2.

Definition network_line (pfx : string) : string := "  network " +:+ pfx.

Definition pl_self_entry (seq : N) (pfx : string) : string :=
  "ipv6 prefix-list PL-SELF seq " +:+ pretty seq +:+ " permit " +:+ pfx.

Definition pl_self_baseline : string := "ipv6 prefix-list PL-SELF seq 5 deny ::/0".

Definition community_lines (my_asn : Z) : list string :=
  [" exit-address-family"; "!";
   "ip community-list standard COMM-SELF permit " +:+ (pretty my_asn +:+ ":50");
   "ip community-list standard COMM-CLIENT permit " +:+ (pretty my_asn +:+ ":100");
   "!"].

Definition closing : list string := [" exit-address-family"; "exit"; "!"].

(** The entries of the prefix list, numbered from [seq] in steps of 10. *)
Fixpoint pl_self_entries (seq : N) (pfxs : list string) : list string :=
  match pfxs with
  | [] => []
  | pfx :: rest => pl_self_entry seq pfx :: pl_self_entries (seq + 10) rest
  end.

(** The SELF set as the script accumulates it: the loopbacks of the AS, then
    its intra-AS subnets as the set enumerates them. *)
Definition self_prefixes (o : SetOrder) (intent : Intent) (asn_str : string)
    (lbs : list string) : list string :=
  lbs ++ set_iter o (intra_as_prefixes_for_as intent asn_str).

(** What follows the inter-AS [network] lines of the block. *)
Definition bgp_tail (o : SetOrder) (intent : Intent) (my_asn : Z) (border : bool)
    (lbs : list string) (relmap : gmap string string)
    (ebgp_peers : list (string * Z * string)) : list string :=
  if border then
    map network_line (sorted (set_iter o (intra_as_prefixes_for_as intent (pretty my_asn))))
    ++ map network_line (sorted lbs)
    ++ community_lines my_asn
    ++ [pl_self_baseline]
    ++ pl_self_entries 10 (sorted (set_iter o (self_prefixes o intent (pretty my_asn) lbs)))
    ++ ["!"]
    ++ route_map_lines my_asn
    ++ concat (map (attach_route_maps relmap) ebgp_peers)
    ++ closing
  else closing.

(** The whole block. *)
Definition bgp_block (o : SetOrder) (intent : Intent) (r : Router) (my_asn : Z)
    (border : bool) (ibgp_peers : list string) (ebgp_peers : list (string * Z * string))
    (lb : string) (subnets lbs : list string) (relmap : gmap string string) : list string :=
  bgp_head my_asn (r_router_id r)
  ++ concat (map (ibgp_neighbor my_asn) ibgp_peers)
  ++ map ebgp_neighbor ebgp_peers
  ++ [" !"; " address-family ipv6 unicast"]
  ++ concat (map (ibgp_activate border) ibgp_peers)
  ++ concat (map ebgp_activate ebgp_peers)
  ++ [network_line lb]
  ++ map network_line subnets
  ++ bgp_tail o intent my_asn border lbs relmap ebgp_peers.

(** The inter-AS links among a list of links. *)
Definition inter_as_links (ls : list Link) : list Link :=
  filter (fun link => l_type link = Some "inter_as") ls.

(** [link] is an inter-AS link that joins [rname] to the router [peer]. *)
Definition peer_link (rname peer : string) (link : Link) : Prop :=
  l_type link = Some "inter_as" /\
  exists other, other_endpoint link rname = Ok other /\ ep_router other = peer.

#[export] Instance peer_link_dec rname peer link : Decision (peer_link rname peer link).
Proof.
  unfold peer_link. destruct (other_endpoint link rname) as [other|e].
  - destruct (decide (l_type link = Some "inter_as")) as [Ht|Ht];
      [|right; intros [? _]; done].
    destruct (decide (ep_router other = peer)) as [Hp|Hp].
    + left. eauto.
    + right. intros (_ & other' & [= <-] & ?). done.
  - right. intros (_ & other' & ? & _). done.
Defined.

(** An exterior peer and the link it comes from. *)
Definition ebgp_peer_of (intent : Intent) (rname : string)
    (link_ips : gmap (string * string) string) (link : Link)
    (p : string * Z * string) : Prop :=
  l_type link = Some "inter_as" /\
  exists other pr ip,
    other_endpoint link rname = Ok other /\
    dict_get (routers intent) (ep_router other) = Ok pr /\
    py_int (r_as pr) = Ok p.1.2 /\
    link_ips !! endpoint_pair other = Some ip /\
    p = (ip_no_prefix ip, p.1.2, ep_router other).

(** The iBGP peers of a router: the loopback addresses of the other routers
    of its AS, in the order of the AS's router list. *)
Definition ibgp_peers_of (intent : Intent) (rname : string) (my_asn : Z)
    (loopbacks : gmap string string) (ibgp_peers : list string) : Prop :=
  exists b, bgp intent = Some b /\
    if ibgp_full_mesh b then
      exists asdata rs,
        dict_get (ases intent) (pretty my_asn) = Ok asdata /\
        as_routers asdata = Some rs /\
        Forall2 (fun peer ip => exists lb, loopbacks !! peer = Some lb /\ ip = ip_no_prefix lb)
                (filter (fun peer => peer <> rname) rs) ibgp_peers
    else ibgp_peers = [].

(** ** Reading a configuration back *)

(** The statements of a generated configuration are recognised by their
    keywords, whatever the addresses and names in them. *)

Fixpoint starts_with (p s : string) : bool :=
  match p with
  | EmptyString => true
  | String a p' =>
      match s with
      | EmptyString => false
      | String b s' => Ascii.eqb a b && starts_with p' s'
      end
  end.

Definition ends_with (suf s : string) : bool :=
  starts_with (String.rev suf) (String.rev s).

(** A [network] statement of the address family. *)
Definition is_network_line (l : string) : bool := starts_with "  network " l.

(** An entry of the prefix list PL-SELF. *)
Definition is_pl_self (l : string) : bool := starts_with "ipv6 prefix-list PL-SELF " l.

(** The first line of an interface block. *)
Definition is_interface (l : string) : bool := starts_with "interface " l.

(** [neighbor ... next-hop-self] in the address family. *)
Definition is_next_hop_self (l : string) : bool :=
  starts_with "  neighbor " l && ends_with " next-hop-self" l.

(** [neighbor ... route-map ... out] or [... in] in the address family. *)
Definition is_route_map_attachment (l : string) : bool :=
  starts_with "  neighbor " l && (ends_with " out" l || ends_with " in" l).


(** ** The data behind the block *)

(** An intra-AS subnet of the AS [asn_str]: the subnet of a link of kind
    [intra_as] whose [as] field reads [asn_str]. *)
Definition intra_as_subnet (intent : Intent) (asn_str : string) (p : string) : Prop :=
  exists link, link ∈ links intent /\ l_type link = Some "intra_as" /\
               py_str_opt (l_as link) = asn_str /\ l_subnet_v6 link = Some p /\ p <> "".

(** The loopbacks of an AS: the table entries of its routers, in the order
    of its router list. *)
Definition as_loopbacks (intent : Intent) (loopbacks : gmap string string)
    (asn_str : string) (lbs : list string) : Prop :=
  exists asdata rs,
    dict_get (ases intent) asn_str = Ok asdata /\ as_routers asdata = Some rs /\
    Forall2 (fun r lb => loopbacks !! r = Some lb) rs lbs.

(** ** Border routers *)

(** [rname] is the router of one of the endpoints of [link]. *)
Definition on_link (rname : string) (link : Link) : Prop :=
  rname ∈ map ep_router (default [] (l_endpoints link)).

(** [rname] is an endpoint of at least one inter-AS link of the document. *)
Definition has_inter_as_link (intent : Intent) (rname : string) : Prop :=
  exists link, link ∈ links intent /\ l_type link = Some "inter_as" /\ on_link rname link.

(** ** Route-map attachment *)


(** The selection the design document gives: the outbound and the inbound
    route-map of a relationship. *)
Definition route_maps_of (rel : string) : string * string :=
  if bool_decide (rel = "client") then ("RM-OUT-CLIENT", "RM-IN-CLIENT")
  else if bool_decide (rel = "provider") then ("RM-OUT-PEERPROV", "RM-IN-PROV")
  else ("RM-OUT-PEERPROV", "RM-IN-PEER").

Definition route_map_lines_for (peer_ip rel : string) : list string :=
  ["  neighbor " +:+ peer_ip +:+ " route-map " +:+ (route_maps_of rel).1 +:+ " out";
   "  neighbor " +:+ peer_ip +:+ " route-map " +:+ (route_maps_of rel).2 +:+ " in"].



(** ** Interface blocks *)

(** The interface blocks of a configuration: a block opens at a line
    [interface ...] and runs to the line before the next [exit]. *)
Fixpoint interface_blocks_from (cur : option (list string)) (lines : list string)
  : list (list string) :=
  match lines with
  | [] => match cur with Some blk => [blk] | None => [] end
  | l :: rest =>
      match cur with
      | None =>
          if is_interface l then interface_blocks_from (Some [l]) rest
          else interface_blocks_from None rest
      | Some blk =>
          if bool_decide (l = "exit") then blk :: interface_blocks_from None rest
          else if is_interface l then blk :: interface_blocks_from (Some [l]) rest
          else interface_blocks_from (Some (blk ++ [l])) rest
      end
  end.

Definition interface_blocks (lines : list string) : list (list string) :=
  interface_blocks_from None lines.

(** A line of the body of a block: it is indented. *)
Definition indented (l : string) : Prop := starts_with " " l = true.

(** The block of a physical interface: its first line names the interface
    of the router on the link, its body is indented and ends with
    [no shutdown]. *)
Definition physical_block (rname : string) (link : Link) (blk : list string) : Prop :=
  exists ep body,
    get_endpoint_for_router link rname = Ok ep /\
    blk = ("interface " +:+ ep_interface ep) :: body ++ [" no shutdown"] /\
    Forall indented body.

(** ** Adjacency lists *)

(** The occurrences of a link in the adjacency list of [rname]: one per
    endpoint of the link on [rname]. *)
Definition incident (rname : string) (link : Link) : list Link :=
  flat_map (fun ep => if bool_decide (ep_router ep = rname) then [link] else [])
           (default [] (l_endpoints link)).

(** ** The files of a run *)

(** The file written for a router. *)
Definition config_file (rname cfg : string) : string * string := (rname +:+ ".cfg", cfg).

(** ** Tables and runs as a whole *)

(** An AS the script took: its pool parsed as a /64 and its router list is
    not empty. *)
Definition accepted_as (asd : ASData) : Prop :=
  exists pool, IPv6Network (as_loopbacks_pool asd) = Some pool /\ prefixlen pool = 64 /\
               as_routers_list asd <> [].

(** ** Neighbor statements *)

(** The address of an exterior peer [(peer_ip, peer_asn, peer_router)]. *)
Definition peer_address (p : string * Z * string) : string := p.1.1.

(** A [neighbor] statement at the level of [router bgp]. *)
Definition is_neighbor_statement (l : string) : bool := starts_with " neighbor " l.

(** [neighbor ... activate] in the address family. *)
Definition is_activate (l : string) : bool :=
  starts_with "  neighbor " l && ends_with " activate" l.

(** [neighbor ... send-community] in the address family. *)
Definition is_send_community (l : string) : bool :=
  starts_with "  neighbor " l && ends_with " send-community" l.

Definition activate_line (ip : string) : string := "  neighbor " +:+ ip +:+ " activate".

Definition send_community_line (ip : string) : string :=
  "  neighbor " +:+ ip +:+ " send-community".

(** ** The content of an interface block *)

(** The block of a physical interface, without its [exit]: the address of
    the interface, then the IGP lines, then [no shutdown]. *)
Definition interface_block (iface ip : string) (igp : list string) : list string :=
  ["interface " +:+ iface; " no ip address"; " ipv6 enable"; " ipv6 address " +:+ ip]
  ++ igp ++ [" no shutdown"].

(** The block of Loopback0. *)
Definition loopback_block (lb : string) (igp : list string) : list string :=
  ["interface Loopback0"; " no ip address"; " ipv6 address " +:+ lb]
  ++ igp ++ [" no shutdown"].

(** The block of the interface of [rname] on [link]: it carries the address
    the link table holds for the interface, and the IGP lines of the AS when
    the link is intra-AS and none otherwise. *)
Definition block_of_link (rname : string) (asdata : ASData)
    (link_ips : gmap (string * string) string) (link : Link) (blk : list string) : Prop :=
  exists ep ip igp,
    get_endpoint_for_router link rname = Ok ep /\
    link_ips !! (rname, ep_interface ep) = Some ip /\
    (if bool_decide (l_type link = Some "intra_as")
     then igp_iface_lines asdata link = Ok igp else igp = []) /\
    blk = interface_block (ep_interface ep) ip igp.

(** ** Addresses without their length *)

(** The text holds a slash. *)
Fixpoint has_slash (s : string) : bool :=
  match s with
  | EmptyString => false
  | String c rest => bool_decide (c = "/"%char) || has_slash rest
  end.

(** ** Documents on which the run completes *)

(** An IGP description both generators accept. *)
Definition supported_igp (igp : IGP) : Prop :=
  igp_type igp = "none" \/ igp_type igp = "ripng" \/
  (igp_type igp = "ospfv3" /\ is_Some (igp_process_id igp) /\ is_Some (igp_area igp)).

(** The OSPF cost of the link, when it has one, converts to an integer. *)
Definition cost_ok (link : Link) : Prop :=
  forall c, l_ospf_cost link = Some c -> exists z, py_int c = Ok z.

(** A router entry the generator can serve: its AS is a key of the
    document, written as a string, with an IGP the generators accept; an AS
    lists the router; and, when BGP is required, its AS number converts to
    an integer whose decimal writing is again the key of an AS with a router
    list. *)
Definition router_ok (intent : Intent) (rname : string) : Prop :=
  exists r asdata,
    dict_get (routers intent) rname = Ok r /\
    dict_get_scalar (ases intent) (r_as r) = Ok asdata /\
    supported_igp (as_igp asdata) /\
    rname ∈ document_routers (ases intent) /\
    (bgp_is_required intent = true ->
       exists my_asn asdata',
         py_int (r_as r) = Ok my_asn /\
         dict_get (ases intent) (pretty my_asn) = Ok asdata' /\
         is_Some (as_routers asdata')).

(** A document the script compiles: every AS and every link is accepted by
    the allocators, no interface is claimed twice, the costs are integers,
    the endpoints name routers of the document, and every router entry can
    be served. *)
Definition well_formed (intent : Intent) : Prop :=
  Forall (fun item => valid_as item.2) (ases intent) /\
  Forall valid_link (links intent) /\
  no_shared_interface (links intent) /\
  Forall cost_ok (links intent) /\
  (forall link ep, link ∈ links intent -> ep ∈ default [] (l_endpoints link) ->
                   ep_router ep ∈ map fst (routers intent)) /\
  Forall (router_ok intent) (map fst (routers intent)).

(** ** Statements of the design document that the script does not meet *)

(** C2 as the design document states it: a run that aborts has written no
    file. *)
Definition writes_nothing_on_abort (o : SetOrder) (intent : Intent) : Prop :=
  forall fs e, main o intent = (fs, Err e) -> fs = [].



End Vocabulary.

(** ** The vocabulary of the deployment *)

Section DeployVocabulary.
Import DeployTelnet.
Context `{PyLib} `{PyText}.

(** A line worth typing: not blank, not a comment, not a boot marker, and
    none of the commands the session types itself. *)
Definition sendable (line : string) : bool :=
  negb (bool_decide (strip line = ""))
  && negb (startswith (strip line) "!")
  && negb (contains "boot-start-marker" line)
  && negb (contains "boot-end-marker" line)
  && negb (bool_decide (strip line = "end"))
  && negb (bool_decide (strip line = "conf terminal"))
  && negb (bool_decide (strip line = "configure terminal")).

(** What a trace wrote on its connections. *)
Definition sent (t : list event) : list string :=
  flat_map (fun e => match e with Send data => [data] | _ => [] end) t.

(** The connections a trace opened. *)
Definition connections (t : list event) : list (string * Z) :=
  flat_map (fun e => match e with Connect host port => [(host, port)] | _ => [] end) t.

(** The port of a router in the table. *)
Definition port_of (router_name : string) : option Z :=
  snd <$> List.find (fun p => bool_decide (p.1 = router_name)) ROUTER_TELNET_PORTS.

(** The file read for a router. *)
Definition config_path (router_name : string) : string :=
  "configs_gen/" +:+ router_name +:+ ".cfg".

Definition has_file (w : World) (router_name : string) : bool :=
  bool_decide (is_Some (files w !! config_path router_name)).

(** A Telnet server answers on the port of the router. *)
Definition answers (w : World) (router_name : string) : bool :=
  match port_of router_name with
  | Some port => accepts w port
  | None => false
  end.

(** What a session types: the way into configuration mode, the lines kept
    of the file, and the way out with the saving of the configuration. *)
Definition session_data (cfg_text : string) : list string :=
  [crlf; "enable" +:+ crlf; "conf t" +:+ crlf]
  ++ map (fun line => line +:+ crlf) (clean_lines_for_cli cfg_text)
  ++ [crlf; "end" +:+ crlf; "wr mem" +:+ crlf; crlf].

(** What the session of a router types, and to whom. *)
Definition session_of (w : World) (router_name : string) : list string :=
  session_data (default "" (files w !! config_path router_name)).

Definition endpoint_of (router_name : string) : string * Z :=
  (HOST, default 0%Z (port_of router_name)).

(** The trace of a session: the announcement, the connection, the way into
    configuration mode, the lines with a pause after each, the way out, and
    the closing with its report. *)
Definition session_events (router_name : string) (port : Z) (cfg_text : string)
  : list event :=
  [Print ("[INFO] Connexion Telnet à " +:+ router_name +:+ " sur "
          +:+ HOST +:+ ":" +:+ pretty port +:+ " ...");
   Connect HOST port; Sleep 1000; Send crlf;
   Send ("enable" +:+ crlf); Sleep 500; Send ("conf t" +:+ crlf); Sleep 500]
  ++ flat_map (fun line => [Send (line +:+ crlf); Sleep 50]) (clean_lines_for_cli cfg_text)
  ++ [Send crlf; Sleep 300; Send ("end" +:+ crlf); Sleep 1000;
      Send ("wr mem" +:+ crlf); Sleep 2000; Send crlf; Close;
      Print ("[OK] " +:+ router_name +:+ " déployé via Telnet.")].

End DeployVocabulary.

(** ** A reference Python library

    An executable instance of [PyLib] and of [SetOrder] for running the
    compiler on concrete documents.  It follows CPython's [ipaddress] on the
    colon-hexadecimal forms (no embedded IPv4 tail, no zone index), [int] on
    plain decimal literals and [strip] on ASCII white space. *)
Module Reference.

(** [s.split(c)] *)
Fixpoint split_on (c : ascii) (s : string) : list string :=
  match s with
  | EmptyString => [""]
  | String a rest =>
      let r := split_on c rest in
      if bool_decide (a = c) then "" :: r
      else match r with
           | x :: xs => String a x :: xs
           | [] => [String a ""]
           end
  end.

Definition hex_value (c : ascii) : option N :=
  let n := N_of_ascii c in
  if (48 <=? n) && (n <=? 57) then Some (n - 48)
  else if (97 <=? n) && (n <=? 102) then Some (n - 87)
  else if (65 <=? n) && (n <=? 70) then Some (n - 55)
  else None.

Definition dec_value (c : ascii) : option N :=
  let n := N_of_ascii c in
  if (48 <=? n) && (n <=? 57) then Some (n - 48) else None.

Fixpoint parse_digits (digit : ascii -> option N) (radix : N) (s : string) (acc : N)
  : option N :=
  match s with
  | EmptyString => Some acc
  | String c rest =>
      match digit c with
      | Some d => parse_digits digit radix rest (acc * radix + d)
      | None => None
      end
  end.

(** [_parse_hextet]: one to four hexadecimal digits. *)
Definition parse_hextet (s : string) : option N :=
  if bool_decide (1 <= String.length s <= 4)%nat then parse_digits hex_value 16 s 0 else None.

Fixpoint parse_hextets (ps : list string) : option (list N) :=
  match ps with
  | [] => Some []
  | p :: rest =>
      match parse_hextet p, parse_hextets rest with
      | Some h, Some hs => Some (h :: hs)
      | _, _ => None
      end
  end.

Definition hextets_to_int (hs : list N) : N :=
  foldl (fun acc h => acc * 65536 + h) 0 hs.

(** The positions of the empty parts strictly inside [parts]. *)
Definition inner_empty (parts : list string) : list nat :=
  filter (fun i => bool_decide (parts !! i = Some "")) (seq 1 (length parts - 2)).

(** [_ip_int_from_string] *)
Definition ip_int_from_string (s : string) : option N :=
  let parts := split_on ":" s in
  let n := length parts in
  if bool_decide (n < 3 \/ 9 < n)%nat then None else
  match inner_empty parts with
  | [] =>
      if bool_decide (n = 8%nat) then hextets_to_int <$> parse_hextets parts else None
  | [k] =>
      let hi := take k parts in
      let lo := drop (S k) parts in
      (* a leading or trailing colon is only permitted as part of the "::" *)
      let hi := if bool_decide (hi = [""]) then [] else hi in
      let lo := if bool_decide (lo = [""]) then [] else lo in
      if bool_decide (length hi + length lo <= 7)%nat then
        match parse_hextets hi, parse_hextets lo with
        | Some his, Some los =>
            Some (hextets_to_int
                    (his ++ replicate (8 - (length hi + length lo)) 0 ++ los))
        | _, _ => None
        end
      else None
  | _ => None
  end.

(** [ipaddress.IPv6Network(s)], strict. *)
Definition IPv6Network (s : string) : option network :=
  match split_on "/" s with
  | [a] =>
      match ip_int_from_string a with
      | Some x => if x <? 2 ^ 128 then Some {| network_address := x; prefixlen := 128 |} else None
      | None => None
      end
  | [a; p] =>
      match ip_int_from_string a, parse_digits dec_value 10 p 0 with
      | Some x, Some len =>
          if bool_decide (p <> "") && (len <=? 128) && (x <? 2 ^ 128)
             && (x mod 2 ^ (128 - len) =? 0)
          then Some {| network_address := x; prefixlen := len |}
          else None
      | _, _ => None
      end
  | _ => None
  end.

Fixpoint drop_zeros (ds : list N) : list N :=
  match ds with
  | [] => []
  | d :: rest => if bool_decide (d = 0) then drop_zeros rest else ds
  end.

Definition hex_char (d : N) : ascii :=
  ascii_of_N (if d <? 10 then 48 + d else 87 + d).

(** ['%x' % h] for a hextet. *)
Definition hex_of_hextet (h : N) : string :=
  let ds := [h / 4096; h / 256 mod 16; h / 16 mod 16; h mod 16] in
  match drop_zeros ds with
  | [] => "0"
  | ds' => String.string_of_list_ascii (map hex_char ds')
  end.

Definition hextets_of_int (a : N) : list N :=
  map (fun i => a / 65536 ^ N.of_nat (7 - i) mod 65536) (seq 0 8).

(** The scan of [_compress_hextets]: the leftmost longest run of zero
    hextets, as [(start, length)]. *)
Fixpoint best_zero_run (hs : list N) (i : nat) (cur best : nat * nat) : nat * nat :=
  match hs with
  | [] => best
  | h :: rest =>
      if bool_decide (h = 0) then
        let cur' := (if bool_decide (cur.2 = 0%nat) then i else cur.1, S cur.2) in
        let best' := if bool_decide (best.2 < cur'.2)%nat then cur' else best in
        best_zero_run rest (S i) cur' best'
      else best_zero_run rest (S i) (0%nat, 0%nat) best
  end.

Fixpoint join_colon (ls : list string) : string :=
  match ls with
  | [] => ""
  | [x] => x
  | x :: rest => x +:+ ":" +:+ join_colon rest
  end.

(** [str(IPv6Address(a))]: the compressed form. *)
Definition str_addr (a : N) : string :=
  let hs := hextets_of_int a in
  let texts := map hex_of_hextet hs in
  let '(start, len) := best_zero_run hs 0 (0%nat, 0%nat) (0%nat, 0%nat) in
  if bool_decide (1 < len)%nat then
    let texts' :=
      take start texts ++ [""] ++ drop (start + len) texts
      ++ (if bool_decide (start + len = 8)%nat then [""] else []) in
    join_colon ((if bool_decide (start = 0%nat) then [""] else []) ++ texts')
  else join_colon texts.

(** [int(s)] on an optionally signed decimal literal. *)
Definition int_of_str (s : string) : option Z :=
  match s with
  | EmptyString => None
  | String c rest =>
      if bool_decide (c = "-"%char) then
        if bool_decide (rest = "") then None
        else (fun n => (- Z.of_N n)%Z) <$> parse_digits dec_value 10 rest 0
      else if bool_decide (c = "+"%char) then
        if bool_decide (rest = "") then None
        else Z.of_N <$> parse_digits dec_value 10 rest 0
      else Z.of_N <$> parse_digits dec_value 10 s 0
  end.

Definition is_space (c : ascii) : bool :=
  let n := N_of_ascii c in
  ((9 <=? n) && (n <=? 13)) || ((28 <=? n) && (n <=? 32)).

Fixpoint lstrip (s : string) : string :=
  match s with
  | EmptyString => EmptyString
  | String c rest => if is_space c then lstrip rest else s
  end.

(** [s.strip()] *)
Definition strip (s : string) : string :=
  String.rev (lstrip (String.rev (lstrip s))).

Lemma IPv6Network_wf s n :
  IPv6Network s = Some n ->
  prefixlen n <= 128 /\
  network_address n < 2 ^ 128 /\
  network_address n mod 2 ^ (128 - prefixlen n) = 0.
Proof.
  unfold IPv6Network.
  destruct (split_on "/" s) as [|a [|p [|? ?]]]; try discriminate.
  - destruct (ip_int_from_string a) as [x|]; try discriminate.
    destruct (N.ltb_spec x (2 ^ 128)); try discriminate.
    intros [= <-]; simpl. repeat split; [lia | assumption |].
    apply N.mod_1_r.
  - destruct (ip_int_from_string a) as [x|]; try discriminate.
    destruct (parse_digits dec_value 10 p 0) as [len|]; try discriminate.
    destruct (bool_decide (p <> "") && (len <=? 128) && (x <? 2 ^ 128)
              && (x mod 2 ^ (128 - len) =? 0)) eqn:E; try discriminate.
    intros [= <-]; simpl.
    repeat (apply andb_prop in E as [E ?]).
    repeat split.
    + by apply N.leb_le.
    + by apply N.ltb_lt.
    + by apply N.eqb_eq.
Qed.

(** Sets enumerate their members in first-insertion order. *)
Definition set_iter (l : list string) : list string := remove_dups l.

End Reference.

#[export] Instance reference_lib : PyLib := {|
  IPv6Network := Reference.IPv6Network;
  str_addr := Reference.str_addr;
  int_of_str := Reference.int_of_str;
  strip := Reference.strip;
  IPv6Network_wf := Reference.IPv6Network_wf;
|}.

Definition insertion_order : SetOrder := {|
  set_iter := Reference.set_iter;
  set_iter_perm := fun l => reflexivity (remove_dups l);
|}.

(** A second enumeration: the members in reverse insertion order. *)
Definition reverse_order : SetOrder := {|
  set_iter := fun l => reverse (remove_dups l);
  set_iter_perm := fun l => reverse_Permutation (remove_dups l);
|}.


(** ** Sample documents *)

Module Sample.

Definition ospf : IGP :=
  {| igp_type := "ospfv3"; igp_process_id := Some (JInt 1); igp_area := Some (JInt 0);
     igp_process_name := None |}.

Definition link (ty : string) (asn : option jscalar) (subnet : string)
    (r0 i0 r1 i1 : string) (rel : option string) : Link :=
  {| l_name := None; l_type := Some ty; l_as := asn; l_subnet_v6 := Some subnet;
     l_endpoints := Some [ {| ep_router := r0; ep_interface := i0 |};
                           {| ep_router := r1; ep_interface := i1 |} ];
     l_relationship := rel; l_ospf_cost := None |}.

Definition as_data (pool : string) (rs : list string) (igp : IGP) : ASData :=
  {| as_loopbacks_pool := pool; as_routers := Some rs; as_igp := igp |}.

Definition router (asn rid : string) : Router :=
  {| r_as := JStr asn; r_router_id := JStr rid |}.

Definition bgp_on : option BGP := Some {| bgp_required := true; bgp_ibgp_mode := None |}.

(** The tables a run builds before it generates anything. *)
Definition loopbacks_of (intent : Intent) : gmap string string :=
  match allocate_loopbacks intent with Ok t => t | Err _ => ∅ end.

Definition link_ips_of (intent : Intent) : gmap (string * string) string :=
  match allocate_link_ips intent with Ok t => t | Err _ => ∅ end.

Definition adj_of (intent : Intent) : gmap string (list Link) :=
  match adjacency intent with Ok t => t | Err _ => ∅ end.

End Sample.

(** The scenario of the design document: AS100 = {R1, R2} with an intra-AS
    link R1-R2, and an inter-AS link from R2 to R3 of AS200, which is a
    provider of AS100. *)
Module Scenario.
Import Sample.

Definition intent : Intent :=
  {| ases := [("100", as_data "2001:100::/64" ["R1"; "R2"] ospf);
              ("200", as_data "2001:200::/64" ["R3"] ospf)];
     routers := [("R1", router "100" "1.1.1.1");
                 ("R2", router "100" "2.2.2.2");
                 ("R3", router "200" "3.3.3.3")];
     links :=
       [link "intra_as" (Some (JInt 100)) "2001:100:1::/64" "R1" "Gi1/0" "R2" "Gi1/0" None;
        link "inter_as" None "2001:ffff:1::/64" "R2" "Gi2/0" "R3" "Gi2/0" (Some "provider")];
     bgp := bgp_on |}.

Definition loopbacks := loopbacks_of intent.
Definition link_ips := link_ips_of intent.
Definition adj := adj_of intent.

Definition bgp_R2 : list string :=
  match build_bgp insertion_order intent "R2" loopbacks link_ips adj with
  | Ok ls => ls
  | Err _ => []
  end.

Definition lines_R2 : list string :=
  match router_config_lines insertion_order intent "R2" loopbacks link_ips adj with
  | Ok ls => ls
  | Err _ => []
  end.

End Scenario.

(** Two inter-AS links between R2 (AS100) and R3 (AS200): the first declares
    R3 a client, the second declares it a provider. *)
Module Parallel.
Import Sample.

Definition link_a : Link :=
  link "inter_as" None "2001:ffff:1::/64" "R2" "Gi1/0" "R3" "Gi1/0" (Some "client").

Definition link_b : Link :=
  link "inter_as" None "2001:ffff:2::/64" "R2" "Gi2/0" "R3" "Gi2/0" (Some "provider").

Definition intent : Intent :=
  {| ases := [("100", as_data "2001:100::/64" ["R2"] ospf);
              ("200", as_data "2001:200::/64" ["R3"] ospf)];
     routers := [("R2", router "100" "2.2.2.2"); ("R3", router "200" "3.3.3.3")];
     links := [link_a; link_b];
     bgp := bgp_on |}.

Definition loopbacks := loopbacks_of intent.
Definition link_ips := link_ips_of intent.
Definition adj := adj_of intent.

Definition bgp_R2 : list string :=
  match build_bgp insertion_order intent "R2" loopbacks link_ips adj with
  | Ok ls => ls
  | Err _ => []
  end.

End Parallel.

(** R1 is in an AS that runs OSPFv3, R2 in an AS whose IGP type the script
    does not know. *)
Module Partial.
Import Sample.

Definition isis : IGP :=
  {| igp_type := "isis"; igp_process_id := None; igp_area := None;
     igp_process_name := None |}.

Definition intent : Intent :=
  {| ases := [("100", as_data "2001:100::/64" ["R1"] ospf);
              ("200", as_data "2001:200::/64" ["R2"] isis)];
     routers := [("R1", router "100" "1.1.1.1"); ("R2", router "200" "2.2.2.2")];
     links := [];
     bgp := None |}.

Definition cfg_R1 : string :=
  match build_router_config insertion_order intent "R1"
          (loopbacks_of intent) (link_ips_of intent) (adj_of intent) with
  | Ok cfg => cfg
  | Err _ => ""
  end.

End Partial.

(** The loopback pool of the second AS is a /48. *)
Module BadPool.
Import Sample.

Definition intent : Intent :=
  {| ases := [("100", as_data "2001:100::/64" ["R1"] ospf);
              ("200", as_data "2001:200::/48" ["R2"] ospf)];
     routers := [("R1", router "100" "1.1.1.1"); ("R2", router "200" "2.2.2.2")];
     links := [];
     bgp := None |}.

End BadPool.

(** Two links that both claim the interface Gi1/0 of R1. *)
Module SharedInterface.
Import Sample.

Definition intent : Intent :=
  {| ases := [("100", as_data "2001:100::/64" ["R1"; "R2"; "R3"] ospf)];
     routers := [("R1", router "100" "1.1.1.1"); ("R2", router "100" "2.2.2.2");
                 ("R3", router "100" "3.3.3.3")];
     links :=
       [link "intra_as" (Some (JInt 100)) "2001:100:1::/64" "R1" "Gi1/0" "R2" "Gi1/0" None;
        link "intra_as" (Some (JInt 100)) "2001:100:2::/64" "R3" "Gi1/0" "R1" "Gi1/0" None];
     bgp := None |}.

End SharedInterface.

(** A link that names the same interface of R1 at both ends. *)
Module SelfLoop.
Import Sample.

Definition loop : Link :=
  link "intra_as" (Some (JInt 100)) "2001:100:1::/64" "R1" "Gi1/0" "R1" "Gi1/0" None.

Definition intent : Intent :=
  {| ases := [("100", as_data "2001:100::/64" ["R1"] ospf)];
     routers := [("R1", router "100" "1.1.1.1")];
     links := [loop];
     bgp := None |}.

(** The same link after an ordinary link between R1 and R2. *)
Definition intent2 : Intent :=
  {| ases := [("100", as_data "2001:100::/64" ["R1"; "R2"] ospf)];
     routers := [("R1", router "100" "1.1.1.1"); ("R2", router "100" "2.2.2.2")];
     links := [link "intra_as" (Some (JInt 100)) "2001:100:2::/64" "R1" "Gi2/0" "R2" "Gi2/0" None;
               loop];
     bgp := None |}.

End SelfLoop.

(** The BGP block and the configuration of R1 in the scenario of the design
    document. *)
Module ScenarioR1.

Definition bgp_R1 : list string :=
  match build_bgp insertion_order Scenario.intent "R1" Scenario.loopbacks
          Scenario.link_ips Scenario.adj with
  | Ok ls => ls
  | Err _ => []
  end.

Definition cfg_R1 : string :=
  match build_router_config insertion_order Scenario.intent "R1" Scenario.loopbacks
          Scenario.link_ips Scenario.adj with
  | Ok cfg => cfg
  | Err _ => ""
  end.

End ScenarioR1.

(** ** Reference [str] methods for the deployment

    [splitlines] and [rstrip] on UTF-8 text: the line boundaries are LF, CR,
    CR LF, VT, FF, FS, GS, RS, NEL (C2 85), LS (E2 80 A8) and PS (E2 80 A9);
    [rstrip] removes the ASCII white space [Reference.strip] removes. *)
Module ReferenceText.

Definition is_boundary (c : ascii) : bool :=
  let n := N_of_ascii c in
  ((10 <=? n) && (n <=? 13)) || ((28 <=? n) && (n <=? 30)).

(** The lines of [s], [cur] being the current line read backwards and
    [open] telling whether a line is begun. *)
Fixpoint splitlines_from (cur : string) (open : bool) (s : string) : list string :=
  match s with
  | EmptyString => if open then [String.rev cur] else []
  | String c rest =>
      let n := N_of_ascii c in
      if n =? 13 then
        match rest with
        | String d rest' =>
            if N_of_ascii d =? 10 then String.rev cur :: splitlines_from "" false rest'
            else String.rev cur :: splitlines_from "" false rest
        | EmptyString => [String.rev cur]
        end
      else if is_boundary c then String.rev cur :: splitlines_from "" false rest
      else
        match rest with
        | String d rest' =>
            if (n =? 194) && (N_of_ascii d =? 133) then
              String.rev cur :: splitlines_from "" false rest'
            else
              match rest' with
              | String e rest'' =>
                  if (n =? 226) && (N_of_ascii d =? 128)
                     && ((N_of_ascii e =? 168) || (N_of_ascii e =? 169)) then
                    String.rev cur :: splitlines_from "" false rest''
                  else splitlines_from (String c cur) true rest
              | EmptyString => splitlines_from (String c cur) true rest
              end
        | EmptyString => splitlines_from (String c cur) true rest
        end
  end.

Definition splitlines (s : string) : list string := splitlines_from "" false s.

Definition rstrip (s : string) : string :=
  String.rev (Reference.lstrip (String.rev s)).

End ReferenceText.

#[export] Instance reference_text : DeployTelnet.PyText := {|
  DeployTelnet.splitlines := ReferenceText.splitlines;
  DeployTelnet.rstrip := ReferenceText.rstrip;
|}.

(** A workstation that holds the generated file of R1 only, every console
    port answering; and the same with the console of R1 down. *)
Module Workstation.

Definition world : DeployTelnet.World :=
  {| DeployTelnet.files := {["configs_gen/R1.cfg" := ScenarioR1.cfg_R1]};
     DeployTelnet.accepts := fun _ => true |}.

Definition world_down : DeployTelnet.World :=
  {| DeployTelnet.files := {["configs_gen/R1.cfg" := ScenarioR1.cfg_R1]};
     DeployTelnet.accepts := fun port => negb (port =? 5005)%Z |}.

End Workstation.

(** * Properties *)

(** ** The error monad *)

Lemma bind_Ok {A B} (m : result A) (k : A -> result B) (b : B) :
  bind m k = Ok b -> exists a, m = Ok a /\ k a = Ok b.
Proof. destruct m as [a|e]; simpl; [eauto | discriminate]. Qed.

Lemma ensure_Ok c kind msg u : ensure c kind msg = Ok u -> c = true.
Proof. by destruct c. Qed.

Lemma key_Ok {A} (o : option A) a : key o = Ok a -> o = Some a.
Proof. destruct o; simpl; congruence. Qed.

Lemma for_each_cons {A S} (body : S -> A -> result S) x l acc :
  for_each body (x :: l) acc = let* acc' := body acc x in for_each body l acc'.
Proof. reflexivity. Qed.

Lemma for_each_app {A S} (body : S -> A -> result S) l1 l2 acc :
  for_each body (l1 ++ l2) acc =
  let* acc' := for_each body l1 acc in for_each body l2 acc'.
Proof.
  revert acc. induction l1 as [|x l1 IH]; intros acc; simpl; [done|].
  destruct (body acc x); simpl; auto.
Qed.

Section Properties.
Context `{PyLib}.

(** ** Loopback allocation *)

Lemma pool_room (n : network) (k : N) :
  prefixlen n <= 128 -> network_address n < 2 ^ 128 ->
  network_address n mod 2 ^ (128 - prefixlen n) = 0 ->
  prefixlen n = 64 -> k < 2 ^ 64 -> network_address n + k < 2 ^ 128.
Proof.
  intros _ Hlt Hmod H64 Hk. rewrite H64 in Hmod. change (128 - 64) with 64 in Hmod.
  pose proof (N.div_mod' (network_address n) (2 ^ 64)) as Hdm.
  rewrite Hmod, N.add_0_r in Hdm.
  set (q := network_address n / 2 ^ 64) in *.
  assert (q < 2 ^ 64) by (change (2 ^ 128) with (2 ^ 64 * 2 ^ 64) in Hlt; nia).
  change (2 ^ 128) with (2 ^ 64 * 2 ^ 64). nia.
Qed.

(** The inner loop: a name keeps the address of its last position. *)
Lemma allocate_as_routers_spec base rs : forall idx out,
  base + idx + N.of_nat (length rs) <= 2 ^ 128 ->
  exists out', allocate_as_routers base idx rs out = Ok out' /\
    (forall r, r ∉ rs -> out' !! r = out !! r) /\
    (forall i r, rs !! i = Some r -> r ∉ drop (S i) rs ->
       out' !! r = Some (str_addr (base + idx + N.of_nat i) +:+ "/128")).
Proof.
  induction rs as [|r0 rs IH]; intros idx out Hroom; simpl in *.
  - exists out. split; [done|]. split; [done|]. intros i r Hi. by destruct i.
  - unfold addr_add. destruct (N.ltb_spec (base + idx) (2 ^ 128)); [simpl|lia].
    destruct (IH (idx + 1) (<[r0 := str_addr (base + idx) +:+ "/128"]> out))
      as (out' & -> & Hout & Hin); [lia|].
    exists out'. split; [done|]. split.
    + intros r Hr. apply not_elem_of_cons in Hr as [? ?].
      rewrite Hout by done. by rewrite lookup_insert_ne.
    + intros i r Hi Hlast. destruct i as [|i]; simpl in Hi, Hlast.
      * injection Hi as <-. rewrite Hout by done.
        rewrite lookup_insert_eq. by rewrite N.add_0_r.
      * rewrite (Hin i r Hi Hlast). do 3 f_equal. lia.
Qed.

Lemma allocate_as_valid out asn asd :
  valid_as asd ->
  exists pool out', IPv6Network (as_loopbacks_pool asd) = Some pool /\
    allocate_as out (asn, asd) = Ok out' /\
    (forall r, r ∉ as_routers_list asd -> out' !! r = out !! r) /\
    (forall i r, as_routers_list asd !! i = Some r -> r ∉ drop (S i) (as_routers_list asd) ->
       out' !! r = Some (str_addr (network_address pool + N.of_nat (S i)) +:+ "/128")).
Proof.
  intros (pool & Hpool & H64 & Hne & Hlen).
  destruct (IPv6Network_wf _ _ Hpool) as (Hp & Hlt & Hmod).
  destruct (allocate_as_routers_spec (network_address pool) (as_routers_list asd) 1 out)
    as (out' & Halloc & Hout & Hin).
  { pose proof (pool_room pool (N.of_nat (length (as_routers_list asd))) Hp Hlt Hmod H64 Hlen).
    lia. }
  exists pool, out'. split; [done|]. split.
  - unfold allocate_as, parse_network. rewrite Hpool. simpl.
    rewrite bool_decide_eq_true_2 by done. simpl.
    fold (as_routers_list asd). rewrite bool_decide_eq_true_2 by done. simpl. done.
  - split; [done|]. intros i r Hi Hlast. rewrite (Hin i r Hi Hlast). do 3 f_equal. lia.
Qed.


Lemma allocate_ases_ok (l : list (string * ASData)) : forall out,
  Forall (fun item => valid_as item.2) l ->
  exists out', for_each allocate_as l out = Ok out'.
Proof.
  induction l as [|[asn0 asd0] l IH]; intros out Hval; [by exists out|].
  apply Forall_cons in Hval as [Hv0 Hval].
  destruct (allocate_as_valid out asn0 asd0 Hv0) as (? & out0 & _ & Ha0 & _).
  destruct (IH out0 Hval) as (out' & Hl).
  exists out'. by rewrite for_each_cons, Ha0.
Qed.



(** ** Link address allocation *)

Lemma subnet_room net k :
  IPv6Network_ok net -> prefixlen net = 64 -> k < 2 ^ 64 ->
  addr_add (network_address net) k = Ok (network_address net + k).
Proof.
  intros (Hp & Hlt & Hmod) H64 Hk. unfold addr_add.
  pose proof (pool_room net k Hp Hlt Hmod H64 Hk).
  destruct (N.ltb_spec (network_address net + k) (2 ^ 128)); [done|lia].
Qed.

(** One iteration on a well-formed link whose two pairs are free: both checks
    pass, then endpoint 0 is assigned, then endpoint 1. *)
Lemma allocate_link_valid out link s net e0 e1 :
  l_subnet_v6 link = Some s -> s <> "" -> IPv6Network s = Some net ->
  prefixlen net = 64 -> l_endpoints link = Some [e0; e1] ->
  out !! endpoint_pair e0 = None -> out !! endpoint_pair e1 = None ->
  allocate_link out link =
  Ok (<[endpoint_pair e1 := str_addr (network_address net + 2) +:+ "/64"]>
        (<[endpoint_pair e0 := str_addr (network_address net + 1) +:+ "/64"]> out)).
Proof.
  intros Hs Hne Hnet H64 Heps H0 H1. unfold allocate_link, parse_network.
  rewrite Hs, Heps. simpl. rewrite bool_decide_eq_true_2 by done. simpl.
  rewrite Hnet. simpl. rewrite bool_decide_eq_true_2 by done. simpl.
  unfold endpoint_pair in *.
  rewrite (bool_decide_eq_true_2 _ H0), (bool_decide_eq_true_2 _ H1). simpl.
  pose proof (IPv6Network_wf _ _ Hnet) as Hwf.
  rewrite (subnet_room net 1 Hwf H64) by done. simpl.
  rewrite (subnet_room net 2 Hwf H64) by done. done.
Qed.

Lemma endpoint_pairs_two link e0 e1 :
  l_endpoints link = Some [e0; e1] ->
  endpoint_pairs link = [endpoint_pair e0; endpoint_pair e1].
Proof. unfold endpoint_pairs. by intros ->. Qed.

Lemma allocate_links_valid (l : list Link) : forall out,
  Forall valid_link l -> no_shared_interface l ->
  (forall p, p ∈ concat (map endpoint_pairs l) -> out !! p = None) ->
  exists out', for_each allocate_link l out = Ok out' /\
    (forall p, p ∉ concat (map endpoint_pairs l) -> out' !! p = out !! p) /\
    (forall p, p ∈ concat (map endpoint_pairs l) -> is_Some (out' !! p)) /\
    (forall link s net e0 e1,
       link ∈ l -> l_subnet_v6 link = Some s -> IPv6Network s = Some net ->
       l_endpoints link = Some [e0; e1] ->
       out' !! endpoint_pair e1 = Some (str_addr (network_address net + 2) +:+ "/64") /\
       (endpoint_pair e0 <> endpoint_pair e1 ->
        out' !! endpoint_pair e0 = Some (str_addr (network_address net + 1) +:+ "/64"))).
Proof.
  induction l as [|link0 l IH]; intros out Hval Hsh Hfree.
  - exists out. split; [done|]. split; [done|].
    split; [intros p Hp; by apply elem_of_nil in Hp|].
    intros ????? Hin. by apply elem_of_nil in Hin.
  - apply Forall_cons in Hval as [(s0 & net0 & a0 & a1 & Hs0 & Hne0 & Hnet0 & H64 & Heps0) Hval].
    destruct Hsh as [Hsh0 Hsh]. simpl in Hfree.
    rewrite (endpoint_pairs_two _ _ _ Heps0) in Hsh0, Hfree.
    assert (He0 : endpoint_pair a0 ∈ [endpoint_pair a0; endpoint_pair a1])
      by (apply elem_of_cons; by left).
    assert (He1 : endpoint_pair a1 ∈ [endpoint_pair a0; endpoint_pair a1])
      by (apply elem_of_cons; right; apply elem_of_cons; by left).
    assert (Hf0 : out !! endpoint_pair a0 = None) by (apply Hfree, elem_of_app; by left).
    assert (Hf1 : out !! endpoint_pair a1 = None) by (apply Hfree, elem_of_app; by left).
    pose proof (allocate_link_valid out link0 s0 net0 a0 a1 Hs0 Hne0 Hnet0 H64 Heps0 Hf0 Hf1)
      as Hstep.
    set (out0 := <[endpoint_pair a1 := _]> _) in Hstep.
    pose proof (Hsh0 _ He0) as Hn0. pose proof (Hsh0 _ He1) as Hn1.
    destruct (IH out0 Hval Hsh) as (out' & Hl & Hout & Hdom & Hin).
    { intros p Hp. unfold out0.
      rewrite !lookup_insert_ne by (intros <-; contradiction).
      apply Hfree, elem_of_app. by right. }
    exists out'. rewrite for_each_cons, Hstep. simpl. split; [done|].
    simpl. rewrite (endpoint_pairs_two _ _ _ Heps0). split; [|split].
    + intros p Hp. apply not_elem_of_app in Hp as [Hp0 Hp].
      apply not_elem_of_cons in Hp0 as [? Hp0]. apply not_elem_of_cons in Hp0 as [? _].
      rewrite Hout by done. unfold out0. by rewrite !lookup_insert_ne.
    + intros p Hp. destruct (decide (p ∈ concat (map endpoint_pairs l))) as [?|Hnot]; [by apply Hdom|].
      rewrite (Hout _ Hnot). unfold out0.
      destruct (decide (p = endpoint_pair a1)) as [->|?]; [rewrite lookup_insert_eq; eauto|].
      rewrite lookup_insert_ne by done.
      assert (p = endpoint_pair a0) as ->.
      { apply elem_of_app in Hp as [Hp|Hp]; [|done].
        apply elem_of_cons in Hp as [->|Hp]; [done|].
        by apply list_elem_of_singleton in Hp. }
      rewrite lookup_insert_eq; eauto.
    + intros link s net e0 e1 Hmem Hs Hnet Heps.
      apply elem_of_cons in Hmem as [->|Hmem]; [|by eapply Hin].
      rewrite Hs0 in Hs. injection Hs as <-. rewrite Hnet0 in Hnet. injection Hnet as <-.
      rewrite Heps0 in Heps. injection Heps as <- <-. split.
      * rewrite (Hout _ Hn1). unfold out0. by rewrite lookup_insert_eq.
      * intros Hdiff. rewrite (Hout _ Hn0). unfold out0.
        rewrite lookup_insert_ne by done. by rewrite lookup_insert_eq.
Qed.

(** A pair already claimed by an earlier link stops the run with
    [DuplicateInterfaceUse]. *)
Lemma allocate_link_ips_duplicate intent pre link post p :
  links intent = pre ++ link :: post ->
  Forall valid_link pre -> no_shared_interface pre -> valid_link link ->
  p ∈ endpoint_pairs link -> p ∈ concat (map endpoint_pairs pre) ->
  exists msg, allocate_link_ips intent = Err (SystemExit DuplicateInterfaceUse msg).
Proof.
  intros Hl Hpre Hsh (s & net & e0 & e1 & Hs & Hne & Hnet & H64 & Heps) Hp Hused.
  unfold allocate_link_ips. rewrite Hl, for_each_app.
  destruct (allocate_links_valid pre ∅ Hpre Hsh) as (out & -> & _ & Hdom & _); [done|].
  simpl. unfold allocate_link, parse_network.
  rewrite Hs, Heps. simpl. rewrite bool_decide_eq_true_2 by done. simpl.
  rewrite Hnet. simpl. rewrite bool_decide_eq_true_2 by done. simpl.
  rewrite (endpoint_pairs_two _ _ _ Heps) in Hp.
  destruct (out !! (ep_router e0, ep_interface e0)) eqn:E0.
  { rewrite bool_decide_eq_false_2 by done. simpl. eauto. }
  rewrite bool_decide_eq_true_2 by done. simpl.
  assert (p = endpoint_pair e1) as ->.
  { apply elem_of_cons in Hp as [->|Hp].
    - destruct (Hdom _ Hused) as [y Hy]. unfold endpoint_pair in Hy. congruence.
    - by apply list_elem_of_singleton in Hp. }
  destruct (Hdom _ Hused) as [y Hy]. unfold endpoint_pair in Hy. rewrite Hy.
  rewrite bool_decide_eq_false_2 by done. simpl. eauto.
Qed.

Lemma no_shared_interface_app l1 l2 :
  no_shared_interface (l1 ++ l2) ->
  no_shared_interface l1 /\ no_shared_interface l2 /\
  forall p, p ∈ concat (map endpoint_pairs l1) -> p ∉ concat (map endpoint_pairs l2).
Proof.
  induction l1 as [|x l1 IH]; simpl.
  - intros Hsh. split; [done|]. split; [done|]. intros p Hp. by apply elem_of_nil in Hp.
  - intros [Hx Hsh]. destruct (IH Hsh) as (H1 & H2 & H12).
    rewrite map_app, concat_app in Hx. split; [split; [|done]|split; [done|]].
    + intros p Hp Hin. apply (Hx p Hp). apply elem_of_app. by left.
    + intros p Hp Hin. apply elem_of_app in Hp as [Hp|Hp].
      * apply (Hx p Hp). apply elem_of_app. by right.
      * by apply (H12 p Hp).
Qed.

(** C10.  A link whose two endpoints are the same (router, interface) pair,
    that pair being claimed by no other link (and the other links being well
    formed and sharing no pair), raises no [DuplicateInterfaceUse]: the pair
    is free when the link is reached, both checks pass before either
    assignment, the second assignment overwrites the first, and the table the
    allocation returns maps the pair to [subnet base + 2] as a /64. *)
Theorem allocate_link_ips_same_endpoint intent pre link post s net ep :
  links intent = pre ++ link :: post ->
  l_subnet_v6 link = Some s -> s <> "" -> IPv6Network s = Some net ->
  prefixlen net = 64 ->
  l_endpoints link = Some [ep; ep] ->
  Forall valid_link (pre ++ post) ->
  no_shared_interface (pre ++ link :: post) ->
  exists out_pre out,
    for_each allocate_link pre ∅ = Ok out_pre /\
    out_pre !! endpoint_pair ep = None /\
    allocate_link out_pre link =
      Ok (<[endpoint_pair ep := str_addr (network_address net + 2) +:+ "/64"]>
            (<[endpoint_pair ep := str_addr (network_address net + 1) +:+ "/64"]> out_pre)) /\
    allocate_link_ips intent = Ok out /\
    out !! endpoint_pair ep = Some (str_addr (network_address net + 2) +:+ "/64").
Proof.
  intros Hl Hs Hne Hnet H64 Heps Hval Hsh.
  apply Forall_app in Hval as [Hpre Hpost].
  assert (Hlink : valid_link link) by (exists s, net, ep, ep; done).
  destruct (no_shared_interface_app _ _ Hsh) as (Hshpre & _ & Hcross).
  destruct (allocate_links_valid pre ∅ Hpre Hshpre) as (out_pre & Hrun & Hout & Hdom & _); [done|].
  assert (Hfree : out_pre !! endpoint_pair ep = None).
  { rewrite Hout; [done|]. intros Hin. apply (Hcross _ Hin). simpl.
    rewrite (endpoint_pairs_two _ _ _ Heps). apply elem_of_app. left.
    apply elem_of_cons. by left. }
  destruct (allocate_links_valid (pre ++ link :: post) ∅) as (out & Hall & _ & _ & Hin);
    [by apply Forall_app; split; [|apply Forall_cons] | done | done |].
  exists out_pre, out. split; [done|]. split; [done|]. split.
  - by apply allocate_link_valid with (s := s).
  - unfold allocate_link_ips. rewrite Hl. split; [done|].
    eapply (Hin link s net ep ep); eauto.
    apply elem_of_app. right. apply elem_of_cons. by left.
Qed.

(** ** The shape of the BGP block *)

Lemma ibgp_loop rname my_asn loopbacks rs : forall peers0 lines0 peers lines,
  for_each (ibgp_step rname my_asn loopbacks) rs (peers0, lines0) = Ok (peers, lines) ->
  exists new,
    peers = peers0 ++ new /\
    lines = lines0 ++ concat (map (ibgp_neighbor my_asn) new) /\
    Forall2 (fun peer ip => exists lb, loopbacks !! peer = Some lb /\ ip = ip_no_prefix lb)
            (filter (fun peer => peer <> rname) rs) new.
Proof.
  induction rs as [|peer rs IH]; intros peers0 lines0 peers lines Hrun.
  - injection Hrun as <- <-. exists []. by rewrite !app_nil_r.
  - rewrite for_each_cons in Hrun. apply bind_Ok in Hrun as ([peers1 lines1] & Hstep & Hrun).
    apply IH in Hrun as (new & -> & -> & Hnew).
    unfold ibgp_step in Hstep. rewrite filter_cons.
    destruct (decide (peer = rname)) as [->|Hne].
    + rewrite bool_decide_eq_true_2 in Hstep by done. injection Hstep as <- <-.
      exists new. rewrite decide_False by (intros ?; done). done.
    + rewrite bool_decide_eq_false_2 in Hstep by done.
      apply bind_Ok in Hstep as (lb & Hlb%key_Ok & Hstep). injection Hstep as <- <-.
      exists (ip_no_prefix lb :: new). rewrite decide_True by done.
      rewrite <- !app_assoc. simpl. split; [done|]. split; [done|].
      constructor; eauto.
Qed.

Lemma ebgp_loop intent rname link_ips ls : forall peers0 lines0 peers lines,
  for_each (ebgp_step intent rname link_ips) ls (peers0, lines0) = Ok (peers, lines) ->
  exists new,
    peers = peers0 ++ new /\
    lines = lines0 ++ map ebgp_neighbor new /\
    Forall (fun p => exists link, link ∈ ls /\ ebgp_peer_of intent rname link_ips link p) new.
Proof.
  induction ls as [|link ls IH]; intros peers0 lines0 peers lines Hrun.
  - injection Hrun as <- <-. exists []. by rewrite !app_nil_r.
  - rewrite for_each_cons in Hrun. apply bind_Ok in Hrun as ([peers1 lines1] & Hstep & Hrun).
    apply IH in Hrun as (new & -> & -> & Hnew).
    assert (Hnew' : Forall (fun p => exists link0, link0 ∈ link :: ls /\
                              ebgp_peer_of intent rname link_ips link0 p) new).
    { eapply Forall_impl; [exact Hnew|]. intros p (l0 & ? & ?). exists l0.
      split; [by apply elem_of_cons; right|done]. }
    unfold ebgp_step in Hstep.
    destruct (bool_decide (l_type link <> Some "inter_as")) eqn:Ht.
    { injection Hstep as <- <-. by exists new. }
    apply bool_decide_eq_false in Ht. apply dec_stable in Ht.
    apply bind_Ok in Hstep as (other & Hother & Hstep).
    apply bind_Ok in Hstep as (pr & Hpr & Hstep).
    apply bind_Ok in Hstep as (peer_asn & Hasn & Hstep).
    apply bind_Ok in Hstep as (ip & Hip%key_Ok & Hstep).
    destruct (bool_decide _) in Hstep.
    { injection Hstep as <- <-. by exists new. }
    injection Hstep as <- <-.
    exists ((ip_no_prefix ip, peer_asn, ep_router other) :: new).
    rewrite <- !app_assoc. split; [done|]. split; [done|].
    constructor; [|done]. exists link. split; [by apply elem_of_cons; left|].
    split; [done|]. exists other, pr, ip. done.
Qed.

Lemma interas_network_loop ls : forall lines0 lines,
  for_each interas_network_step ls lines0 = Ok lines ->
  exists subnets,
    lines = lines0 ++ map network_line subnets /\
    Forall2 (fun link s => l_subnet_v6 link = Some s) (inter_as_links ls) subnets.
Proof.
  induction ls as [|link ls IH]; intros lines0 lines Hrun.
  - injection Hrun as <-. exists []. rewrite app_nil_r. split; [done|]. constructor.
  - rewrite for_each_cons in Hrun. apply bind_Ok in Hrun as (lines1 & Hstep & Hrun).
    apply IH in Hrun as (subnets & -> & Hsub).
    unfold interas_network_step in Hstep. unfold inter_as_links. rewrite filter_cons.
    destruct (decide (l_type link = Some "inter_as")) as [Ht|Ht].
    + rewrite bool_decide_eq_true_2 in Hstep by done.
      apply bind_Ok in Hstep as (subnet & Hs%key_Ok & Hstep). injection Hstep as <-.
      exists (subnet :: subnets). rewrite <- app_assoc. split; [done|]. by constructor.
    + rewrite bool_decide_eq_false_2 in Hstep by done. injection Hstep as <-.
      by exists subnets.
Qed.

Lemma prefix_list_loop pfxs : forall seq lines,
  foldl prefix_list_step (seq, lines) pfxs =
  (seq + 10 * N.of_nat (length pfxs), lines ++ pl_self_entries seq pfxs).
Proof.
  induction pfxs as [|pfx pfxs IH]; intros seq lines; simpl.
  - by rewrite N.add_0_r, app_nil_r.
  - rewrite IH. rewrite <- app_assoc. f_equal. lia.
Qed.

Lemma foldl_set_add (l : list string) : forall s,
  foldl (fun s x => set_add x s) s l = s ++ l.
Proof.
  induction l as [|x l IH]; intros s; simpl; [by rewrite app_nil_r|].
  rewrite IH. unfold set_add. by rewrite <- app_assoc.
Qed.

(** A successful [build_bgp] with BGP required returns the block laid out as
    [bgp_block], from the data the script read on the way. *)
Lemma build_bgp_inv o intent rname loopbacks link_ips adj lines :
  bgp_is_required intent = true ->
  build_bgp o intent rname loopbacks link_ips adj = Ok lines ->
  exists r my_asn border ibgp_peers ebgp_peers lb subnets lbs relmap,
    dict_get (routers intent) rname = Ok r /\
    py_int (r_as r) = Ok my_asn /\
    has_ebgp_neighbor intent rname = Ok border /\
    loopbacks !! rname = Some lb /\
    ibgp_peers_of intent rname my_asn loopbacks ibgp_peers /\
    Forall (fun p => exists link, link ∈ adj_get adj rname /\
                       ebgp_peer_of intent rname link_ips link p) ebgp_peers /\
    Forall2 (fun link s => l_subnet_v6 link = Some s)
            (inter_as_links (adj_get adj rname)) subnets /\
    (border = true ->
       loopbacks_for_as intent loopbacks (pretty my_asn) = Ok lbs /\
       get_interas_relationship_for_router intent rname adj = Ok relmap) /\
    lines = bgp_block o intent r my_asn border ibgp_peers ebgp_peers lb subnets lbs relmap.
Proof.
  intros Hreq Hrun. unfold build_bgp in Hrun. rewrite Hreq in Hrun. simpl in Hrun.
  apply bind_Ok in Hrun as (b & Hb%key_Ok & Hrun).
  apply bind_Ok in Hrun as (r & Hr & Hrun).
  apply bind_Ok in Hrun as (my_asn & Hasn & Hrun).
  apply bind_Ok in Hrun as ([ibgp_peers lines1] & Hibgp & Hrun).
  apply bind_Ok in Hrun as ([ebgp_peers lines2] & Hebgp & Hrun).
  apply bind_Ok in Hrun as (border & Hborder & Hrun).
  apply bind_Ok in Hrun as (lb & Hlb%key_Ok & Hrun).
  apply bind_Ok in Hrun as (lines3 & Hnet & Hrun).
  apply bind_Ok in Hrun as (lines4 & Hcd & Hrun).
  assert (Hi : ibgp_peers_of intent rname my_asn loopbacks ibgp_peers /\
               lines1 = bgp_head my_asn (r_router_id r)
                        ++ concat (map (ibgp_neighbor my_asn) ibgp_peers)).
  { unfold ibgp_peers_of. destruct (ibgp_full_mesh b) eqn:Hmode.
    - apply bind_Ok in Hibgp as (asdata & Hasd & Hibgp).
      apply bind_Ok in Hibgp as (rs & Hrs%key_Ok & Hibgp).
      apply ibgp_loop in Hibgp as (new & -> & -> & Hnew). simpl.
      split; [|done]. exists b. rewrite Hmode. split; [done|]. by exists asdata, rs.
    - injection Hibgp as <- <-. split; [|done]. exists b. by rewrite Hmode. }
  destruct Hi as [Hi ->].
  apply ebgp_loop in Hebgp as (new & -> & -> & Hnew). simpl in Hnew.
  apply interas_network_loop in Hnet as (subnets & -> & Hsub).
  destruct border.
  - apply bind_Ok in Hcd as (lbs & Hlbs & Hcd). injection Hcd as <-.
    apply bind_Ok in Hrun as (lbs' & Hlbs' & Hrun).
    rewrite Hlbs in Hlbs'. injection Hlbs' as <-.
    rewrite !foldl_set_add in Hrun. simpl in Hrun.
    rewrite prefix_list_loop in Hrun.
    apply bind_Ok in Hrun as (relmap & Hrel & Hrun). injection Hrun as <-.
    exists r, my_asn, true, ibgp_peers, new, lb, subnets, lbs, relmap.
    repeat (split; [done|]).
    unfold bgp_block, bgp_tail, self_prefixes, community_lines, pl_self_baseline, closing.
    rewrite <- !app_assoc. reflexivity.
  - injection Hcd as <-. injection Hrun as <-.
    exists r, my_asn, false, ibgp_peers, new, lb, subnets, [], ∅.
    repeat (split; [done|]).
    unfold bgp_block, bgp_tail, closing.
    rewrite <- !app_assoc. reflexivity.
Qed.

(** ** Reading a configuration back *)

Lemma rev_app_append a : forall b c,
  String.rev_app (a +:+ b) c = String.rev_app b (String.rev_app a c).
Proof. induction a as [|x a IH]; intros b c; simpl; [done|]. apply IH. Qed.

Lemma append_assoc a b c : (a +:+ b) +:+ c = a +:+ (b +:+ c).
Proof.
  induction a as [|x a IH]; [done|].
  change (String x ((a +:+ b) +:+ c) = String x (a +:+ (b +:+ c))). by rewrite IH.
Qed.

Lemma rev_app_acc a : forall c, String.rev_app a c = String.rev_app a "" +:+ c.
Proof.
  induction a as [|x a IH]; intros c; [done|].
  change (String.rev_app a (String x c) = String.rev_app a (String x "") +:+ c).
  rewrite IH, (IH (String x "")). by rewrite append_assoc.
Qed.

Lemma rev_append a b : String.rev (a +:+ b) = String.rev b +:+ String.rev a.
Proof. unfold String.rev. rewrite rev_app_append. apply rev_app_acc. Qed.

Lemma filter_none {A} (P : A -> bool) l :
  Forall (fun x => P x = false) l -> List.filter P l = [].
Proof. induction 1 as [|x l Hx _ IH]; simpl; [done|]. by rewrite Hx. Qed.

Lemma filter_all {A} (P : A -> bool) l :
  Forall (fun x => P x = true) l -> List.filter P l = l.
Proof. induction 1 as [|x l Hx _ IH]; simpl; [done|]. by rewrite Hx, IH. Qed.

Lemma Forall_concat_map {A B} (P : B -> Prop) (f : A -> list B) l :
  (forall x, Forall P (f x)) -> Forall P (concat (map f l)).
Proof. intros Hf. induction l; simpl; [constructor|]. apply Forall_app_2; auto. Qed.

Lemma Forall_map_all {A B} (P : B -> Prop) (f : A -> B) l :
  (forall x, P (f x)) -> Forall P (map f l).
Proof. intros Hf. induction l; simpl; constructor; auto. Qed.

Lemma Forall_pl_self_entries (P : string -> Prop) pfxs : forall seq,
  (forall seq pfx, P (pl_self_entry seq pfx)) -> Forall P (pl_self_entries seq pfxs).
Proof. induction pfxs; intros seq Hf; simpl; constructor; auto. Qed.

(** Decide a keyword test on a line whose variable parts are unknown. *)
Ltac line_test :=
  unfold is_network_line, is_pl_self, is_interface, is_next_hop_self,
    is_route_map_attachment, ends_with,
    network_line, pl_self_entry, pl_self_baseline, ebgp_neighbor;
  rewrite ?rev_append; reflexivity.

Ltac lines_test :=
  repeat first
    [ apply Forall_nil_2
    | apply Forall_cons_2
    | apply Forall_app_2
    | apply Forall_concat_map; intros ?
    | apply Forall_map_all; intros ?
    | apply Forall_pl_self_entries; intros ? ?
    | line_test ].

Lemma attach_route_maps_cases relmap p :
  exists out_map in_map,
    attach_route_maps relmap p =
    ["  neighbor " +:+ p.1.1 +:+ " route-map " +:+ out_map +:+ " out";
     "  neighbor " +:+ p.1.1 +:+ " route-map " +:+ in_map +:+ " in"].
Proof.
  destruct p as [[ip asn] pr]. unfold attach_route_maps.
  destruct (bool_decide _); [by exists "RM-OUT-CLIENT", "RM-IN-CLIENT"|].
  destruct (bool_decide _); [by exists "RM-OUT-PEERPROV", "RM-IN-PROV"|].
  by exists "RM-OUT-PEERPROV", "RM-IN-PEER".
Qed.

Lemma attach_route_maps_kept relmap p :
  Forall (fun l => is_route_map_attachment l = true) (attach_route_maps relmap p).
Proof. destruct (attach_route_maps_cases relmap p) as (om & im & ->). lines_test. Qed.

Lemma attach_route_maps_dropped (P : string -> bool) relmap p :
  (forall ip m, P ("  neighbor " +:+ ip +:+ " route-map " +:+ m +:+ " out") = false) ->
  (forall ip m, P ("  neighbor " +:+ ip +:+ " route-map " +:+ m +:+ " in") = false) ->
  Forall (fun l => P l = false) (attach_route_maps relmap p).
Proof.
  intros Hout Hin. destruct (attach_route_maps_cases relmap p) as (om & im & ->).
  repeat constructor; [apply Hout | apply Hin].
Qed.

(** Settle [List.filter P part] for the parts of the block that a keyword
    test keeps whole or drops whole. *)
Ltac lines_part :=
  unfold bgp_head, ibgp_neighbor, ibgp_activate, ebgp_activate, community_lines,
    route_map_lines, closing;
  first [ lines_test; fail
        | apply Forall_concat_map; intros ?; apply attach_route_maps_kept
        | apply Forall_concat_map; intros ?; apply attach_route_maps_dropped;
          intros ? ?; line_test ].

Ltac filter_parts :=
  repeat match goal with
  | |- context [List.filter ?P ?part] =>
      first [ rewrite (filter_none P part) by lines_part
            | rewrite (filter_all P part) by lines_part ]
  end.

Lemma network_lines_of_block o intent r my_asn border ibgp_peers ebgp_peers lb subnets lbs relmap :
  List.filter is_network_line
    (bgp_block o intent r my_asn border ibgp_peers ebgp_peers lb subnets lbs relmap) =
  map network_line
    ([lb] ++ subnets ++
     (if border then
        sorted (set_iter o (intra_as_prefixes_for_as intent (pretty my_asn))) ++ sorted lbs
      else [])).
Proof.
  unfold bgp_block, bgp_tail. destruct border; rewrite !List.filter_app; filter_parts;
    by rewrite ?app_nil_l, ?app_nil_r, ?map_app.
Qed.

Lemma pl_self_of_block o intent r my_asn ibgp_peers ebgp_peers lb subnets lbs relmap :
  List.filter is_pl_self
    (bgp_block o intent r my_asn true ibgp_peers ebgp_peers lb subnets lbs relmap) =
  pl_self_baseline
  :: pl_self_entries 10 (sorted (set_iter o (self_prefixes o intent (pretty my_asn) lbs))).
Proof.
  unfold bgp_block, bgp_tail. rewrite !List.filter_app; filter_parts.
  by rewrite ?app_nil_l, ?app_nil_r.
Qed.

Lemma route_maps_of_block o intent r my_asn ibgp_peers ebgp_peers lb subnets lbs relmap :
  List.filter is_route_map_attachment
    (bgp_block o intent r my_asn true ibgp_peers ebgp_peers lb subnets lbs relmap) =
  concat (map (attach_route_maps relmap) ebgp_peers).
Proof.
  unfold bgp_block, bgp_tail. rewrite !List.filter_app; filter_parts.
  by rewrite ?app_nil_l, ?app_nil_r.
Qed.



Lemma no_interface_in_block o intent r my_asn border ibgp_peers ebgp_peers lb subnets lbs relmap :
  List.filter is_interface
    (bgp_block o intent r my_asn border ibgp_peers ebgp_peers lb subnets lbs relmap) = [].
Proof.
  unfold bgp_block, bgp_tail. destruct border; rewrite !List.filter_app; filter_parts;
    by rewrite ?app_nil_l, ?app_nil_r.
Qed.

(** ** Sets, sorting and the data behind the block *)

Lemma sorted_Sorted l : Sorted String.le (sorted l).
Proof. apply Sorted_merge_sort; apply _. Qed.

Lemma sorted_Permutation l : sorted l ≡ₚ l.
Proof. apply merge_sort_Permutation. Qed.

(** [sorted] only depends on the members and their multiplicity. *)
Lemma sorted_unique l1 l2 : l1 ≡ₚ l2 -> sorted l1 = sorted l2.
Proof.
  intros Hp. apply (Sorted_unique String.le); try apply sorted_Sorted.
  by rewrite !sorted_Permutation.
Qed.

Lemma elem_of_sorted l x : x ∈ sorted l <-> x ∈ l.
Proof. by rewrite sorted_Permutation. Qed.

Lemma elem_of_set_iter o l x : x ∈ set_iter o l <-> x ∈ l.
Proof. by rewrite set_iter_perm, elem_of_remove_dups. Qed.

Lemma NoDup_set_iter o l : NoDup (set_iter o l).
Proof. rewrite set_iter_perm. apply NoDup_remove_dups. Qed.

(** Two enumerations of sets with the same members sort to the same list. *)
Lemma sorted_set_iter o1 o2 l1 l2 :
  (forall x, x ∈ l1 <-> x ∈ l2) ->
  sorted (set_iter o1 l1) = sorted (set_iter o2 l2).
Proof.
  intros Hmem. apply sorted_unique.
  apply NoDup_Permutation; try apply NoDup_set_iter.
  intros x. by rewrite !elem_of_set_iter.
Qed.

Lemma elem_of_intra_as_prefix_loop asn_str ls : forall prefs p,
  p ∈ foldl (intra_as_prefix_step asn_str) prefs ls <->
  p ∈ prefs \/
  exists link, link ∈ ls /\ l_type link = Some "intra_as" /\
               py_str_opt (l_as link) = asn_str /\ l_subnet_v6 link = Some p /\ p <> "".
Proof.
  induction ls as [|link ls IH]; intros prefs p; simpl.
  - split; [by left|]. intros [?|(? & Hin & _)]; [done|]. by apply elem_of_nil in Hin.
  - rewrite IH. unfold intra_as_prefix_step at 1.
    assert (Hskip : p ∈ prefs \/ (exists l0, l0 ∈ ls /\ l_type l0 = Some "intra_as" /\
                      py_str_opt (l_as l0) = asn_str /\ l_subnet_v6 l0 = Some p /\ p <> "") ->
                    p ∈ prefs \/ (exists l0, l0 ∈ link :: ls /\ l_type l0 = Some "intra_as" /\
                      py_str_opt (l_as l0) = asn_str /\ l_subnet_v6 l0 = Some p /\ p <> "")).
    { intros [?|(l0 & ? & ?)]; [by left|]. right. exists l0. split; [|done].
      apply elem_of_cons. by right. }
    assert (Hback : forall (Q : Prop),
              (l_type link = Some "intra_as" -> py_str_opt (l_as link) = asn_str ->
               l_subnet_v6 link = Some p -> p <> "" -> Q) ->
              (p ∈ prefs \/ (exists l0, l0 ∈ ls /\ l_type l0 = Some "intra_as" /\
                 py_str_opt (l_as l0) = asn_str /\ l_subnet_v6 l0 = Some p /\ p <> "") -> Q) ->
              p ∈ prefs \/ (exists l0, l0 ∈ link :: ls /\ l_type l0 = Some "intra_as" /\
                 py_str_opt (l_as l0) = asn_str /\ l_subnet_v6 l0 = Some p /\ p <> "") -> Q).
    { intros Q Hhere Hrest [?|(l0 & Hin & Ht & Has & Hs & Hne)]; [apply Hrest; by left|].
      apply elem_of_cons in Hin as [->|Hin]; [by apply Hhere|].
      apply Hrest. right. by exists l0. }
    destruct (decide (l_type link = Some "intra_as")) as [Ht|Ht].
    2:{ rewrite bool_decide_eq_true_2 by done. split; [done|].
        apply Hback; [intros; contradiction|done]. }
    rewrite bool_decide_eq_false_2 by (intros ?; done).
    destruct (decide (py_str_opt (l_as link) = asn_str)) as [Has|Has].
    2:{ rewrite bool_decide_eq_true_2 by done. split; [done|].
        apply Hback; [intros; contradiction|done]. }
    rewrite bool_decide_eq_false_2 by (intros ?; done).
    destruct (l_subnet_v6 link) as [subnet|] eqn:Hs.
    2:{ split; [done|]. apply Hback; [intros; discriminate|done]. }
    destruct (decide (subnet = "")) as [->|Hne].
    { rewrite bool_decide_eq_false_2 by (intros ?; done). split; [done|].
      apply Hback; [|done]. intros _ _ [= <-] ?. done. }
    rewrite bool_decide_eq_true_2 by done. unfold set_add. split.
    + intros [Hp|Hp]; [|by apply Hskip; right].
      apply elem_of_app in Hp as [Hp|Hp]; [by left|].
      apply list_elem_of_singleton in Hp as ->. right. exists link.
      split; [apply elem_of_cons; by left|done].
    + apply Hback.
      * intros _ _ [= <-] _. left. apply elem_of_app. right. by apply list_elem_of_singleton.
      * intros [?|?]; [left; apply elem_of_app; by left|by right].
Qed.

Lemma elem_of_intra_as_prefixes intent asn_str p :
  p ∈ intra_as_prefixes_for_as intent asn_str <-> intra_as_subnet intent asn_str p.
Proof.
  unfold intra_as_prefixes_for_as, intra_as_subnet.
  rewrite elem_of_intra_as_prefix_loop. split; [|by right].
  intros [Hin|?]; [|done]. by apply elem_of_nil in Hin.
Qed.

Lemma loopbacks_loop (loopbacks : gmap string string) rs : forall out0 out,
  for_each (fun out r => let* lb := key (loopbacks !! r) in Ok (out ++ [lb])) rs out0 = Ok out ->
  exists lbs, out = out0 ++ lbs /\ Forall2 (fun r lb => loopbacks !! r = Some lb) rs lbs.
Proof.
  induction rs as [|r rs IH]; intros out0 out Hrun.
  - injection Hrun as <-. exists []. rewrite app_nil_r. split; [done|]. constructor.
  - rewrite for_each_cons in Hrun. apply bind_Ok in Hrun as (out1 & Hstep & Hrun).
    apply bind_Ok in Hstep as (lb & Hlb%key_Ok & Hstep). injection Hstep as <-.
    apply IH in Hrun as (lbs & -> & Hlbs). exists (lb :: lbs).
    rewrite <- app_assoc. split; [done|]. by constructor.
Qed.

Lemma loopbacks_for_as_Ok intent loopbacks asn_str lbs :
  loopbacks_for_as intent loopbacks asn_str = Ok lbs ->
  as_loopbacks intent loopbacks asn_str lbs.
Proof.
  unfold loopbacks_for_as. intros Hrun.
  apply bind_Ok in Hrun as (asdata & Hasd & Hrun).
  apply bind_Ok in Hrun as (rs & Hrs%key_Ok & Hrun).
  apply loopbacks_loop in Hrun as (lbs' & -> & Hlbs). by exists asdata, rs.
Qed.

Lemma pl_self_entries_imap pfxs : forall seq,
  pl_self_entries seq pfxs =
  imap (fun k pfx => pl_self_entry (seq + 10 * N.of_nat k) pfx) pfxs.
Proof.
  induction pfxs as [|pfx pfxs IH]; intros seq; [done|].
  rewrite imap_cons. simpl. rewrite N.add_0_r. f_equal.
  rewrite IH. apply imap_ext. intros k x _. simpl. f_equal. lia.
Qed.

(** ** Prefix list, origination and next-hop rewriting *)

(** C1.  On a border router with BGP required, the PL-SELF entries of the
    block are the baseline [seq 5 deny ::/0] followed by one [permit] entry
    per prefix of a list [pfxs], numbered 10, 20, 30, ...; [pfxs] is sorted
    ascending as text, has no repetition, and its members are exactly the
    loopbacks of the routers of the router's AS and the subnets of the
    intra-AS links of that AS. *)
Theorem pl_self_enumerates_self_set o intent rname loopbacks link_ips adj lines :
  bgp_is_required intent = true ->
  has_ebgp_neighbor intent rname = Ok true ->
  build_bgp o intent rname loopbacks link_ips adj = Ok lines ->
  exists r my_asn lbs pfxs,
    dict_get (routers intent) rname = Ok r /\
    py_int (r_as r) = Ok my_asn /\
    as_loopbacks intent loopbacks (pretty my_asn) lbs /\
    List.filter is_pl_self lines =
      "ipv6 prefix-list PL-SELF seq 5 deny ::/0"
      :: imap (fun k pfx => "ipv6 prefix-list PL-SELF seq "
                            +:+ pretty (10 * (N.of_nat k + 1)) +:+ " permit " +:+ pfx) pfxs /\
    Sorted String.le pfxs /\ NoDup pfxs /\
    forall p, p ∈ pfxs <-> p ∈ lbs \/ intra_as_subnet intent (pretty my_asn) p.
Proof.
  intros Hreq Hborder Hrun.
  destruct (build_bgp_inv _ _ _ _ _ _ _ Hreq Hrun)
    as (r & my_asn & border & ibgp_peers & ebgp_peers & lb & subnets & lbs & relmap
        & Hr & Hasn & Hb & Hlb & _ & _ & _ & Hlbs & ->).
  rewrite Hborder in Hb. injection Hb as <-. destruct (Hlbs eq_refl) as [Hlbs' _].
  exists r, my_asn, lbs, (sorted (set_iter o (self_prefixes o intent (pretty my_asn) lbs))).
  split; [done|]. split; [done|]. split; [by apply loopbacks_for_as_Ok|]. split.
  - rewrite pl_self_of_block, pl_self_entries_imap. unfold pl_self_baseline. f_equal.
    apply imap_ext. intros k x _. simpl. unfold pl_self_entry. do 2 f_equal. f_equal. lia.
  - split; [apply sorted_Sorted|]. split.
    + rewrite sorted_Permutation. apply NoDup_set_iter.
    + intros p. rewrite elem_of_sorted, elem_of_set_iter. unfold self_prefixes.
      by rewrite elem_of_app, elem_of_set_iter, elem_of_intra_as_prefixes.
Qed.


(** A link the allocator went through is well formed. *)
Lemma allocate_link_Ok out link out' :
  allocate_link out link = Ok out' -> valid_link link.
Proof.
  unfold allocate_link, parse_network. intros Hrun.
  apply bind_Ok in Hrun as (? & Hs%ensure_Ok & Hrun).
  destruct (l_subnet_v6 link) as [s|] eqn:Es; [|done]. simpl in *.
  apply bool_decide_eq_true in Hs.
  destruct (IPv6Network s) as [net|] eqn:Enet; [|done]. simpl in Hrun.
  apply bind_Ok in Hrun as (? & H64%ensure_Ok & Hrun). apply bool_decide_eq_true in H64.
  apply bind_Ok in Hrun as (? & Hlen%ensure_Ok & Hrun). apply bool_decide_eq_true in Hlen.
  destruct (l_endpoints link) as [[|e0 [|e1 [|? ?]]]|] eqn:Eeps; try done.
  by exists s, net, e0, e1.
Qed.

Lemma allocate_links_Ok ls : forall out out',
  for_each allocate_link ls out = Ok out' -> Forall valid_link ls.
Proof.
  induction ls as [|link ls IH]; intros out out' Hrun; [constructor|].
  rewrite for_each_cons in Hrun. apply bind_Ok in Hrun as (out1 & Hstep & Hrun).
  constructor; [by eapply allocate_link_Ok | by eapply IH].
Qed.

Lemma allocate_link_ips_Ok intent link_ips :
  allocate_link_ips intent = Ok link_ips -> Forall valid_link (links intent).
Proof. apply allocate_links_Ok. Qed.

Lemma has_ebgp_neighbor_in_spec rname ls :
  Forall valid_link ls ->
  exists b, has_ebgp_neighbor_in ls rname = Ok b /\
    (b = true <->
     exists link, link ∈ ls /\ l_type link = Some "inter_as" /\ on_link rname link).
Proof.
  induction 1 as [|link ls (s & net & e0 & e1 & _ & _ & _ & _ & Heps) _ (b & Hb & Hiff)].
  - exists false. split; [done|]. split; [done|]. intros (? & Hin & _).
    by apply elem_of_nil in Hin.
  - assert (Hon : on_link rname link <-> ep_router e0 = rname \/ ep_router e1 = rname).
    { unfold on_link. rewrite Heps. simpl. rewrite !elem_of_cons.
      split; [intros [->| [->|Hin]]; auto; by apply elem_of_nil in Hin|].
      intros [<-|<-]; auto. }
    assert (Hhere : l_type link = Some "inter_as" -> on_link rname link ->
                    exists l0, l0 ∈ link :: ls /\ l_type l0 = Some "inter_as" /\ on_link rname l0).
    { intros. exists link. split; [apply elem_of_cons; by left|done]. }
    simpl. destruct (decide (l_type link = Some "inter_as")) as [Ht|Ht].
    + rewrite bool_decide_eq_false_2 by (intros ?; done). rewrite Heps. simpl.
      destruct (decide (ep_router e0 = rname)) as [H0|H0].
      { rewrite bool_decide_eq_true_2 by done. exists true. split; [done|].
        split; [|done]. intros _. apply Hhere; [done|]. apply Hon. by left. }
      rewrite bool_decide_eq_false_2 by done.
      destruct (decide (ep_router e1 = rname)) as [H1|H1].
      { rewrite bool_decide_eq_true_2 by done. exists true. split; [done|].
        split; [|done]. intros _. apply Hhere; [done|]. apply Hon. by right. }
      rewrite bool_decide_eq_false_2 by done. exists b. split; [done|].
      rewrite Hiff. split.
      * intros (l0 & ? & ?). exists l0. split; [apply elem_of_cons; by right|done].
      * intros (l0 & Hin & Ht0 & Hon0). apply elem_of_cons in Hin as [->|Hin]; [|by exists l0].
        apply Hon in Hon0 as [?|?]; contradiction.
    + rewrite bool_decide_eq_true_2 by done. exists b. split; [done|].
      rewrite Hiff. split.
      * intros (l0 & ? & ?). exists l0. split; [apply elem_of_cons; by right|done].
      * intros (l0 & Hin & Ht0 & Hon0). apply elem_of_cons in Hin as [->|Hin]; [|by exists l0].
        contradiction.
Qed.


(** ** Route-map attachment *)

Lemma attach_route_maps_eq relmap p :
  attach_route_maps relmap p =
  route_map_lines_for p.1.1 (default "peer" (relmap !! p.2)).
Proof.
  destruct p as [[ip asn] pr]. unfold attach_route_maps, route_map_lines_for, route_maps_of.
  simpl. by repeat destruct (bool_decide _).
Qed.






(** ** Interface blocks *)

Lemma indented_inv l : indented l -> l <> "exit" /\ is_interface l = false.
Proof.
  unfold indented. destruct l as [|a l]; [done|].
  change (starts_with " " (String a l)) with (Ascii.eqb " " a && true).
  destruct (Ascii.eqb_spec " " a) as [<-|]; [|done]. intros _. by split.
Qed.

Lemma scan_body body : forall acc rest,
  Forall indented body ->
  interface_blocks_from (Some acc) (body ++ rest) =
  interface_blocks_from (Some (acc ++ body)) rest.
Proof.
  induction body as [|l body IH]; intros acc rest Hbody; simpl.
  - by rewrite app_nil_r.
  - apply Forall_cons in Hbody as [Hl Hbody]. destruct (indented_inv l Hl) as [Hne ->].
    rewrite bool_decide_eq_false_2 by done. rewrite IH by done. by rewrite <- app_assoc.
Qed.

Lemma scan_outside ls : forall rest,
  Forall (fun l => is_interface l = false) ls ->
  interface_blocks_from None (ls ++ rest) = interface_blocks_from None rest.
Proof.
  induction ls as [|l ls IH]; intros rest Hls; simpl; [done|].
  apply Forall_cons in Hls as [-> Hls]. by apply IH.
Qed.

Lemma igp_iface_lines_indented asdata link igp :
  igp_iface_lines asdata link = Ok igp -> Forall indented igp.
Proof.
  unfold igp_iface_lines, indented. intros Hrun.
  destruct (bool_decide (igp_type (as_igp asdata) = "none")).
  { injection Hrun as <-. constructor. }
  destruct (bool_decide (igp_type (as_igp asdata) = "ospfv3")).
  { apply bind_Ok in Hrun as (pid & _ & Hrun). apply bind_Ok in Hrun as (area & _ & Hrun).
    destruct (l_ospf_cost link).
    - apply bind_Ok in Hrun as (cost & _ & Hrun). injection Hrun as <-.
      repeat constructor.
    - injection Hrun as <-. repeat constructor. }
  destruct (bool_decide (igp_type (as_igp asdata) = "ripng")); [|done].
  injection Hrun as <-. repeat constructor.
Qed.

Lemma interface_loop rname asdata link_ips ls : forall lines0 lines,
  for_each (interface_step rname asdata link_ips) ls lines0 = Ok lines ->
  exists blocks,
    lines = lines0 ++ concat (map (fun blk => blk ++ ["exit"; "!"]) blocks) /\
    Forall2 (physical_block rname) ls blocks.
Proof.
  induction ls as [|link ls IH]; intros lines0 lines Hrun.
  - injection Hrun as <-. exists []. rewrite app_nil_r. split; [done|]. constructor.
  - rewrite for_each_cons in Hrun. apply bind_Ok in Hrun as (lines1 & Hstep & Hrun).
    apply IH in Hrun as (blocks & -> & Hblocks).
    unfold interface_step in Hstep.
    apply bind_Ok in Hstep as (ep & Hep & Hstep).
    apply bind_Ok in Hstep as (ip & _ & Hstep).
    apply bind_Ok in Hstep as (lines2 & Higp & Hstep). injection Hstep as <-.
    assert (Hbody : exists igp, Forall indented igp /\
              lines2 = lines0 ++ ["interface " +:+ ep_interface ep; " no ip address";
                                  " ipv6 enable"; " ipv6 address " +:+ ip] ++ igp).
    { destruct (bool_decide (l_type link = Some "intra_as")).
      - apply bind_Ok in Higp as (igp & Higp & Hl). injection Hl as <-.
        exists igp. split; [by eapply igp_iface_lines_indented|].
        by rewrite <- app_assoc.
      - injection Higp as <-. exists []. split; [constructor|]. by rewrite app_nil_r. }
    destruct Hbody as (igp & Higp' & ->).
    exists ((("interface " +:+ ep_interface ep)
             :: [" no ip address"; " ipv6 enable"; " ipv6 address " +:+ ip] ++ igp
             ++ [" no shutdown"]) :: blocks).
    split.
    + simpl. rewrite <- ?app_assoc. simpl. rewrite <- ?app_assoc. done.
    + constructor; [|done].
      exists ep, ([" no ip address"; " ipv6 enable"; " ipv6 address " +:+ ip] ++ igp).
      split; [done|]. split; [by rewrite <- app_assoc|].
      apply Forall_app_2; [|done]. unfold indented. repeat constructor.
Qed.

Lemma scan_blocks (blocks : list (list string)) rest :
  Forall (fun blk => exists hd body, blk = hd :: body ++ [" no shutdown"] /\
                       is_interface hd = true /\ Forall indented body) blocks ->
  interface_blocks_from None (concat (map (fun blk => blk ++ ["exit"; "!"]) blocks) ++ rest) =
  blocks ++ interface_blocks_from None rest.
Proof.
  induction 1 as [|blk blocks (hd & body & -> & Hhd & Hbody) _ IH]; [done|].
  simpl. rewrite <- !app_assoc. rewrite Hhd, scan_body by done.
  simpl. by rewrite IH.
Qed.

Lemma filter_nil_Forall {A} (P : A -> bool) l :
  List.filter P l = [] -> Forall (fun x => P x = false) l.
Proof.
  induction l as [|x l IH]; simpl; [constructor|].
  destruct (P x) eqn:Hx; [done|]. intros Hl. constructor; auto.
Qed.

Lemma build_bgp_no_interface o intent rname loopbacks link_ips adj lines :
  build_bgp o intent rname loopbacks link_ips adj = Ok lines ->
  Forall (fun l => is_interface l = false) lines.
Proof.
  intros Hrun. destruct (bgp_is_required intent) eqn:Hreq.
  - destruct (build_bgp_inv _ _ _ _ _ _ _ Hreq Hrun)
      as (r & my_asn & border & ibgp_peers & ebgp_peers & lb & subnets & lbs & relmap
          & _ & _ & _ & _ & _ & _ & _ & _ & ->).
    apply filter_nil_Forall, no_interface_in_block.
  - unfold build_bgp in Hrun. rewrite Hreq in Hrun. injection Hrun as <-. constructor.
Qed.

Lemma igp_global_no_interface asdata rid lines :
  igp_global asdata rid = Ok lines -> Forall (fun l => is_interface l = false) lines.
Proof.
  unfold igp_global. intros Hrun.
  destruct (bool_decide (igp_type (as_igp asdata) = "none")).
  { injection Hrun as <-. repeat constructor. }
  destruct (bool_decide (igp_type (as_igp asdata) = "ospfv3")).
  { apply bind_Ok in Hrun as (pid & _ & Hrun). injection Hrun as <-. repeat constructor. }
  destruct (bool_decide (igp_type (as_igp asdata) = "ripng")); [|done].
  injection Hrun as <-. repeat constructor.
Qed.

(** C9.  The interface blocks of a generated configuration are the block of
    Loopback0 followed by one block per link of the router's adjacency list,
    in the order of that list, each opened by the router's interface on the
    link; and every one of these blocks contains the line [no shutdown],
    whatever the IGP variant and the kind of the link. *)
Theorem every_interface_block_no_shutdown o intent rname loopbacks link_ips adj lines :
  router_config_lines o intent rname loopbacks link_ips adj = Ok lines ->
  exists lo phys,
    interface_blocks lines = lo :: phys /\
    head lo = Some "interface Loopback0" /\
    Forall2 (fun link blk =>
               exists ep, get_endpoint_for_router link rname = Ok ep /\
                          head blk = Some ("interface " +:+ ep_interface ep))
            (adj_get adj rname) phys /\
    Forall (fun blk => " no shutdown" ∈ blk) (lo :: phys).
Proof.
  unfold router_config_lines. intros Hrun.
  apply bind_Ok in Hrun as (r & Hr & Hrun).
  apply bind_Ok in Hrun as (asdata & Hasd & Hrun).
  apply bind_Ok in Hrun as (lb & Hlb & Hrun).
  apply bind_Ok in Hrun as (igp & Higp & Hrun).
  apply bind_Ok in Hrun as (lines1 & Hifs & Hrun).
  apply bind_Ok in Hrun as (glob & Hglob & Hrun).
  apply bind_Ok in Hrun as (bgp & Hbgp & Hrun). injection Hrun as <-.
  apply interface_loop in Hifs as (phys & -> & Hphys).
  apply igp_iface_lines_indented in Higp.
  apply igp_global_no_interface in Hglob.
  apply build_bgp_no_interface in Hbgp.
  set (lo := "interface Loopback0" :: ([" no ip address"; " ipv6 address " +:+ lb] ++ igp)
                ++ [" no shutdown"]).
  exists lo, phys.
  assert (Hshape : Forall (fun blk => exists hd body, blk = hd :: body ++ [" no shutdown"] /\
                              is_interface hd = true /\ Forall indented body) (lo :: phys)).
  { constructor.
    - exists "interface Loopback0", ([" no ip address"; " ipv6 address " +:+ lb] ++ igp).
      split; [done|]. split; [done|]. apply Forall_app_2; [|done].
      unfold indented. repeat constructor.
    - clear -Hphys. induction Hphys as [|link blk ls blocks (ep & body & _ & -> & Hbody) _ IH];
        constructor; [|done].
      by exists ("interface " +:+ ep_interface ep), body. }
  split; [|split; [done|split]].
  - unfold interface_blocks.
    transitivity (interface_blocks_from None
      (["!"; "hostname " +:+ rname; "!"; "no ip domain-lookup"; "ipv6 unicast-routing"; "!"]
       ++ concat (map (fun blk => blk ++ ["exit"; "!"]) (lo :: phys))
       ++ (glob ++ bgp ++ ["!"]))).
    { f_equal. unfold lo. simpl. rewrite <- ?app_assoc. simpl. rewrite <- ?app_assoc. done. }
    rewrite scan_outside by (repeat constructor).
    rewrite scan_blocks by done.
    rewrite <- (app_nil_r (glob ++ bgp ++ ["!"])), scan_outside.
    + simpl. by rewrite app_nil_r.
    + repeat apply Forall_app_2; try done. repeat constructor.
  - clear -Hphys. induction Hphys as [|link blk ls blocks (ep & body & Hep & -> & _) _ IH];
      constructor; [|done]. by exists ep.
  - eapply Forall_impl; [exact Hshape|]. intros blk (hd & body & -> & _ & _).
    apply elem_of_cons. right. apply elem_of_app. right. by apply list_elem_of_singleton.
Qed.

(** ** Determinism *)

Lemma bind_ext {A B} (m : result A) (k1 k2 : A -> result B) :
  (forall a, k1 a = k2 a) -> bind m k1 = bind m k2.
Proof. intros Hk. destruct m; simpl; auto. Qed.

(** The sorted SELF set does not depend on how the sets enumerate their
    members. *)
Lemma self_set_order_irrelevant o1 o2 intent asn_str lbs :
  sorted (set_iter o1
            (foldl (fun s pfx => set_add pfx s) (foldl (fun s lb => set_add lb s) [] lbs)
                   (set_iter o1 (intra_as_prefixes_for_as intent asn_str)))) =
  sorted (set_iter o2
            (foldl (fun s pfx => set_add pfx s) (foldl (fun s lb => set_add lb s) [] lbs)
                   (set_iter o2 (intra_as_prefixes_for_as intent asn_str)))).
Proof.
  apply sorted_set_iter. intros x. rewrite !foldl_set_add, !elem_of_app.
  by rewrite !elem_of_set_iter.
Qed.

Lemma build_bgp_order_irrelevant o1 o2 intent rname loopbacks link_ips adj :
  build_bgp o1 intent rname loopbacks link_ips adj =
  build_bgp o2 intent rname loopbacks link_ips adj.
Proof.
  unfold build_bgp. destruct (negb (bgp_is_required intent)); [done|].
  do 3 (apply bind_ext; intros ?).
  apply bind_ext; intros [ibgp_peers lines1].
  apply bind_ext; intros [ebgp_peers lines2].
  apply bind_ext; intros border.
  do 2 (apply bind_ext; intros ?).
  rewrite (sorted_set_iter o1 o2 _ _ (fun x => reflexivity _)).
  apply bind_ext; intros lines4.
  destruct border; [|done].
  apply bind_ext; intros lbs.
  by rewrite (self_set_order_irrelevant o1 o2).
Qed.

Lemma build_router_config_order_irrelevant o1 o2 intent rname loopbacks link_ips adj :
  build_router_config o1 intent rname loopbacks link_ips adj =
  build_router_config o2 intent rname loopbacks link_ips adj.
Proof.
  unfold build_router_config, router_config_lines.
  by rewrite (build_bgp_order_irrelevant o1 o2).
Qed.

(** C8.  Two runs on the same document write the same files with the same
    text and end the same way, however each run enumerates its sets: the two
    places where the script walks a set sort what they read, and everything
    else follows the order of the document. *)
Theorem main_deterministic (o1 o2 : SetOrder) (intent : Intent) :
  main o1 intent = main o2 intent.
Proof.
  unfold main.
  destruct (allocate_loopbacks intent) as [loopbacks|]; [|done].
  destruct (allocate_link_ips intent) as [link_ips|]; [|done].
  destruct (adjacency intent) as [adj|]; [|done].
  generalize (@nil (string * string)).
  induction (map fst (routers intent)) as [|rname rest IH]; intros fs; simpl; [done|].
  rewrite (build_router_config_order_irrelevant o1 o2).
  destruct (build_router_config o2 intent rname loopbacks link_ips adj); [|done].
  apply IH.
Qed.

(** ** Adjacency *)

Lemma adj_get_add link adj ep rname :
  adj_get (adjacency_add link adj ep) rname =
  adj_get adj rname ++ (if bool_decide (ep_router ep = rname) then [link] else []).
Proof.
  unfold adj_get, adjacency_add. destruct (decide (ep_router ep = rname)) as [->|Hne].
  - rewrite bool_decide_eq_true_2 by done. by rewrite lookup_insert_eq.
  - rewrite bool_decide_eq_false_2 by done. rewrite lookup_insert_ne by done.
    by rewrite app_nil_r.
Qed.

Lemma adj_get_add_all link eps rname : forall adj,
  adj_get (foldl (adjacency_add link) adj eps) rname =
  adj_get adj rname
  ++ flat_map (fun ep => if bool_decide (ep_router ep = rname) then [link] else []) eps.
Proof.
  induction eps as [|ep eps IH]; intros adj; simpl; [by rewrite app_nil_r|].
  rewrite IH, adj_get_add. by rewrite <- app_assoc.
Qed.

Lemma adjacency_loop ls : forall adj0 adj,
  for_each adjacency_link ls adj0 = Ok adj ->
  forall rname, adj_get adj rname = adj_get adj0 rname ++ flat_map (incident rname) ls.
Proof.
  induction ls as [|link ls IH]; intros adj0 adj Hrun rname.
  - injection Hrun as <-. simpl. by rewrite app_nil_r.
  - rewrite for_each_cons in Hrun. apply bind_Ok in Hrun as (adj1 & Hstep & Hrun).
    rewrite (IH _ _ Hrun rname). unfold adjacency_link in Hstep.
    apply bind_Ok in Hstep as (eps & Heps%key_Ok & Hstep). injection Hstep as <-.
    rewrite adj_get_add_all. simpl. unfold incident at 2. rewrite Heps. simpl.
    by rewrite <- app_assoc.
Qed.

(** The adjacency list of a router holds the links of the document that
    have it at an end, in document order. *)
Lemma adjacency_spec intent adj rname :
  adjacency intent = Ok adj ->
  adj_get adj rname = flat_map (incident rname) (links intent).
Proof. intros Hrun. by rewrite (adjacency_loop _ _ _ Hrun rname). Qed.

Lemma adjacency_Ok intent :
  Forall valid_link (links intent) -> exists adj, adjacency intent = Ok adj.
Proof.
  unfold adjacency. intros Hval. generalize (∅ : gmap string (list Link)).
  induction Hval as [|link ls (s & net & e0 & e1 & _ & _ & _ & _ & Heps) _ IH]; intros adj0.
  - by exists adj0.
  - rewrite for_each_cons. unfold adjacency_link at 1. rewrite Heps. simpl. apply IH.
Qed.

(** In a run, a lookup of the router's end of a link of its adjacency list,
    or of the other end, succeeds. *)
Lemma adjacent_endpoints intent adj rname link :
  Forall valid_link (links intent) -> adjacency intent = Ok adj ->
  link ∈ adj_get adj rname ->
  (exists ep, get_endpoint_for_router link rname = Ok ep) /\
  (exists ep, other_endpoint link rname = Ok ep).
Proof.
  intros Hval Hadj Hin. rewrite (adjacency_spec _ _ _ Hadj) in Hin.
  apply list_elem_of_In, in_flat_map in Hin as (l0 & Hl0 & Hin).
  apply list_elem_of_In in Hl0. rewrite Forall_forall in Hval.
  destruct (Hval _ Hl0) as (s & net & e0 & e1 & _ & _ & _ & _ & Heps).
  unfold incident in Hin. rewrite Heps in Hin. simpl in Hin.
  unfold get_endpoint_for_router, other_endpoint.
  destruct (decide (ep_router e0 = rname)) as [H0|H0].
  - rewrite bool_decide_eq_true_2 in Hin by done. simpl in Hin.
    destruct Hin as [<-|Hin].
    + rewrite Heps. simpl. rewrite bool_decide_eq_true_2 by done. eauto.
    + destruct (bool_decide (ep_router e1 = rname)); simpl in Hin;
        [destruct Hin as [<-|[]]|destruct Hin].
      rewrite Heps. simpl. rewrite bool_decide_eq_true_2 by done. eauto.
  - rewrite bool_decide_eq_false_2 in Hin by done. simpl in Hin.
    destruct (decide (ep_router e1 = rname)) as [H1|H1].
    + rewrite bool_decide_eq_true_2 in Hin by done. destruct Hin as [<-|[]].
      rewrite Heps. simpl. rewrite bool_decide_eq_false_2 by done. simpl.
      rewrite bool_decide_eq_true_2 by done. eauto.
    + rewrite bool_decide_eq_false_2 in Hin by done. destruct Hin.
Qed.

(** ** The driver *)

Lemma write_configs_prefix o intent loopbacks link_ips adj pre : forall cfgs rname post e fs,
  Forall2 (fun r cfg => build_router_config o intent r loopbacks link_ips adj = Ok cfg)
          pre cfgs ->
  build_router_config o intent rname loopbacks link_ips adj = Err e ->
  write_configs o intent loopbacks link_ips adj (pre ++ rname :: post) fs =
  (fs ++ zip_with config_file pre cfgs, Err e).
Proof.
  induction pre as [|r pre IH]; intros cfgs rname post e fs Hpre Hfail.
  - apply Forall2_nil_inv_l in Hpre as ->. simpl. rewrite Hfail. by rewrite app_nil_r.
  - apply Forall2_cons_inv_l in Hpre as (cfg & cfgs' & Hcfg & Hpre & ->).
    simpl. rewrite Hcfg. rewrite (IH cfgs' rname post e _ Hpre Hfail).
    by rewrite <- app_assoc.
Qed.

Lemma unsupported_igp_fails o intent rname loopbacks link_ips adj r asdata lb :
  dict_get (routers intent) rname = Ok r ->
  dict_get_scalar (ases intent) (r_as r) = Ok asdata ->
  loopbacks !! rname = Some lb ->
  igp_type (as_igp asdata) <> "none" ->
  igp_type (as_igp asdata) <> "ospfv3" ->
  igp_type (as_igp asdata) <> "ripng" ->
  build_router_config o intent rname loopbacks link_ips adj =
  Err (unsupported_igp (igp_type (as_igp asdata))).
Proof.
  intros Hr Hasd Hlb Hn Ho Hp. unfold build_router_config, router_config_lines.
  rewrite Hr. simpl. rewrite Hasd. simpl. rewrite Hlb. simpl.
  unfold igp_iface_lines. by rewrite !bool_decide_eq_false_2.
Qed.

(** C2, as the script has it.  A failure of either allocation stage
    (invalid prefix length, empty router set, missing subnet, bad endpoint
    count, interface claimed by two links) ends the run with no file written.
    Once both allocations succeeded, the adjacency is built, no lookup of an
    endpoint on an adjacency list can fail with [RouterNotOnLink], and the
    files are written router by router: if the configuration of a router
    fails, the run ends there with the files of the routers before it
    written; an unsupported IGP type is such a failure, raised when the
    first router of that AS is generated. *)
Theorem abort_before_or_during_output o intent :
  (forall e, allocate_loopbacks intent = Err e -> main o intent = ([], Err e))
  /\ (forall loopbacks e,
        allocate_loopbacks intent = Ok loopbacks ->
        allocate_link_ips intent = Err e -> main o intent = ([], Err e))
  /\ (forall loopbacks link_ips,
        allocate_loopbacks intent = Ok loopbacks ->
        allocate_link_ips intent = Ok link_ips ->
        exists adj, adjacency intent = Ok adj /\
          (forall rname link, link ∈ adj_get adj rname ->
             (exists ep, get_endpoint_for_router link rname = Ok ep) /\
             (exists ep, other_endpoint link rname = Ok ep)) /\
          (forall pre cfgs rname post e,
             map fst (routers intent) = pre ++ rname :: post ->
             Forall2 (fun r cfg =>
                        build_router_config o intent r loopbacks link_ips adj = Ok cfg)
                     pre cfgs ->
             build_router_config o intent rname loopbacks link_ips adj = Err e ->
             main o intent = (zip_with config_file pre cfgs, Err e)) /\
          (forall rname r asdata lb,
             dict_get (routers intent) rname = Ok r ->
             dict_get_scalar (ases intent) (r_as r) = Ok asdata ->
             loopbacks !! rname = Some lb ->
             igp_type (as_igp asdata) <> "none" ->
             igp_type (as_igp asdata) <> "ospfv3" ->
             igp_type (as_igp asdata) <> "ripng" ->
             build_router_config o intent rname loopbacks link_ips adj =
             Err (unsupported_igp (igp_type (as_igp asdata))))).
Proof.
  split; [|split].
  - intros e He. unfold main. by rewrite He.
  - intros loopbacks e Hlb He. unfold main. by rewrite Hlb, He.
  - intros loopbacks link_ips Hlb Hips.
    pose proof (allocate_link_ips_Ok _ _ Hips) as Hval.
    destruct (adjacency_Ok intent Hval) as (adj & Hadj).
    exists adj. split; [done|]. split; [|split].
    + intros rname link Hin. by eapply adjacent_endpoints.
    + intros pre cfgs rname post e Hrs Hpre Hfail. unfold main.
      rewrite Hlb, Hips, Hadj, Hrs.
      by rewrite (write_configs_prefix _ _ _ _ _ _ _ _ _ _ _ Hpre Hfail).
    + intros. by eapply unsupported_igp_fails.
Qed.

(** ** The adjacency table as a whole *)

Lemma flat_map_nil_iff {A B} (f : A -> list B) (l : list A) :
  flat_map f l = [] <-> forall x, x ∈ l -> f x = [].
Proof.
  induction l as [|a l IH]; simpl.
  - split; [intros _ x Hx; by apply elem_of_nil in Hx|done].
  - split.
    + intros [Ha Hl]%app_eq_nil x [->|Hx]%elem_of_cons; [done|]. by apply IH.
    + intros Hall. rewrite (Hall a) by (apply elem_of_cons; by left). simpl.
      apply IH. intros x Hx. apply Hall, elem_of_cons. by right.
Qed.

Lemma incident_nil rname link : incident rname link = [] <-> ~ on_link rname link.
Proof.
  unfold incident, on_link.
  induction (default [] (l_endpoints link)) as [|ep eps IH]; simpl.
  - split; [intros _ Hin; by apply elem_of_nil in Hin|done].
  - rewrite elem_of_cons. destruct (decide (ep_router ep = rname)) as [Heq|Hne].
    + rewrite bool_decide_eq_true_2 by done. simpl. split; [done|].
      intros Hn. destruct Hn. by left.
    + rewrite bool_decide_eq_false_2 by done. simpl. rewrite IH. split.
      * intros Hn [Heq|Hin]; [congruence|done].
      * intros Hn Hin. apply Hn. by right.
Qed.

(** No entry of the table is an empty list: an entry is created by the
    [append] that follows [setdefault]. *)
Lemma adjacency_add_nonempty link adj ep :
  (forall r l, adj !! r = Some l -> l <> []) ->
  forall r l, adjacency_add link adj ep !! r = Some l -> l <> [].
Proof.
  intros Hne r l. unfold adjacency_add.
  destruct (decide (ep_router ep = r)) as [->|Hr].
  - rewrite lookup_insert_eq. intros [= <-] [_ ?]%app_eq_nil. done.
  - rewrite lookup_insert_ne by done. apply Hne.
Qed.

Lemma adjacency_add_all_nonempty link eps : forall adj,
  (forall r l, adj !! r = Some l -> l <> []) ->
  forall r l, foldl (adjacency_add link) adj eps !! r = Some l -> l <> [].
Proof.
  induction eps as [|ep eps IH]; intros adj Hne; simpl; [done|].
  apply IH. by apply adjacency_add_nonempty.
Qed.

Lemma adjacency_loop_nonempty ls : forall adj0 adj,
  for_each adjacency_link ls adj0 = Ok adj ->
  (forall r l, adj0 !! r = Some l -> l <> []) ->
  forall r l, adj !! r = Some l -> l <> [].
Proof.
  induction ls as [|link ls IH]; intros adj0 adj Hrun Hne.
  - by injection Hrun as <-.
  - rewrite for_each_cons in Hrun. apply bind_Ok in Hrun as (adj1 & Hstep & Hrun).
    apply (IH _ _ Hrun). unfold adjacency_link in Hstep.
    apply bind_Ok in Hstep as (eps & _ & Hstep). injection Hstep as <-.
    by apply adjacency_add_all_nonempty.
Qed.

(** X1.  The table [adjacency] returns maps every router name to the links
    of the document that have it at an end, in document order, a link with
    both ends on the router being listed twice; and a name has an entry in
    the table exactly when some link of the document has it at an end, so
    [adj.get(rname, [])] falls back to the empty list only for a router on no
    link. *)
Theorem adjacency_lists_incident_links intent adj :
  adjacency intent = Ok adj ->
  forall rname,
    adj_get adj rname = flat_map (incident rname) (links intent) /\
    (adj !! rname = None <-> forall link, link ∈ links intent -> ~ on_link rname link).
Proof.
  intros Hrun rname.
  assert (Hget : adj_get adj rname = flat_map (incident rname) (links intent))
    by (by rewrite (adjacency_loop _ _ _ Hrun rname)).
  split; [done|].
  assert (Hnil : adj !! rname = None <-> adj_get adj rname = []).
  { unfold adj_get. destruct (adj !! rname) as [l|] eqn:E; simpl; [|done].
    split; [done|]. intros ->.
    by destruct (adjacency_loop_nonempty _ _ _ Hrun (fun r l (H0 : ∅ !! r = Some l) =>
                   ltac:(by rewrite lookup_empty in H0)) rname [] E). }
  rewrite Hnil, Hget, flat_map_nil_iff.
  split; intros Hall link Hin; by apply incident_nil, Hall.
Qed.


(** ** The two ends of a link *)

(** X3.  On a link with two endpoints, [get_endpoint_for_router] and
    [other_endpoint] answer together: when the first endpoint is on [rname]
    they return the first and the second endpoint, otherwise when the second
    is on [rname] they return the second and the first, and otherwise both
    stop with [RouterNotOnLink].  So the endpoint the first returns is always
    on [rname], and when the two ends are on different routers the other
    endpoint of the other endpoint's router is the router's own endpoint. *)
Theorem endpoint_lookups_agree link rname e0 e1 :
  l_endpoints link = Some [e0; e1] ->
  (ep_router e0 = rname ->
     get_endpoint_for_router link rname = Ok e0 /\ other_endpoint link rname = Ok e1) /\
  (ep_router e0 <> rname -> ep_router e1 = rname ->
     get_endpoint_for_router link rname = Ok e1 /\ other_endpoint link rname = Ok e0) /\
  (ep_router e0 <> rname -> ep_router e1 <> rname ->
     get_endpoint_for_router link rname = Err (not_on_link link rname) /\
     other_endpoint link rname = Err (not_on_link link rname)) /\
  (forall mine, get_endpoint_for_router link rname = Ok mine -> ep_router mine = rname) /\
  (forall mine other,
     ep_router e0 <> ep_router e1 ->
     get_endpoint_for_router link rname = Ok mine ->
     other_endpoint link rname = Ok other ->
     ep_router other <> rname /\
     other_endpoint link (ep_router other) = Ok mine /\
     get_endpoint_for_router link (ep_router other) = Ok other).
Proof.
  intros Heps. unfold get_endpoint_for_router, other_endpoint. rewrite Heps. simpl.
  split; [|split; [|split; [|split]]].
  - intros H0. by rewrite !bool_decide_eq_true_2.
  - intros H0 H1. rewrite bool_decide_eq_false_2 by done. simpl.
    by rewrite !bool_decide_eq_true_2.
  - intros H0 H1. by rewrite !bool_decide_eq_false_2.
  - intros mine. destruct (decide (ep_router e0 = rname)) as [H0|H0].
    + rewrite bool_decide_eq_true_2 by done. by intros [= <-].
    + rewrite bool_decide_eq_false_2 by done. simpl.
      destruct (decide (ep_router e1 = rname)) as [H1|H1].
      * rewrite bool_decide_eq_true_2 by done. by intros [= <-].
      * by rewrite bool_decide_eq_false_2.
  - intros mine other Hdiff. destruct (decide (ep_router e0 = rname)) as [H0|H0].
    + rewrite !(bool_decide_eq_true_2 _ H0). intros [= <-] [= <-].
      split; [congruence|].
      rewrite !(bool_decide_eq_false_2 (ep_router e0 = ep_router e1)) by done. simpl.
      by rewrite !bool_decide_eq_true_2.
    + rewrite !(bool_decide_eq_false_2 _ H0). simpl.
      destruct (decide (ep_router e1 = rname)) as [H1|H1].
      * rewrite !(bool_decide_eq_true_2 _ H1). intros [= <-] [= <-].
        split; [done|]. by rewrite !bool_decide_eq_true_2.
      * by rewrite !(bool_decide_eq_false_2 _ H1).
Qed.

(** ** The link address table as a whole *)

(** What a successful iteration of [allocate_link_ips] found and left. *)
Lemma allocate_link_Ok_free out link out' e0 e1 :
  allocate_link out link = Ok out' -> l_endpoints link = Some [e0; e1] ->
  out !! endpoint_pair e0 = None /\ out !! endpoint_pair e1 = None /\
  is_Some (out' !! endpoint_pair e0) /\ is_Some (out' !! endpoint_pair e1) /\
  (forall p, is_Some (out !! p) -> is_Some (out' !! p)).
Proof.
  unfold allocate_link, parse_network. intros Hrun Heps. rewrite Heps in Hrun.
  apply bind_Ok in Hrun as (? & _ & Hrun).
  apply bind_Ok in Hrun as (net & _ & Hrun).
  apply bind_Ok in Hrun as (? & _ & Hrun).
  apply bind_Ok in Hrun as (? & _ & Hrun). simpl in Hrun.
  apply bind_Ok in Hrun as (? & H0%ensure_Ok%bool_decide_eq_true & Hrun).
  apply bind_Ok in Hrun as (? & H1%ensure_Ok%bool_decide_eq_true & Hrun).
  apply bind_Ok in Hrun as (a0 & _ & Hrun).
  apply bind_Ok in Hrun as (a1 & _ & Hrun). injection Hrun as <-.
  fold (endpoint_pair e0) (endpoint_pair e1) in *.
  split; [done|]. split; [done|]. split; [|split].
  - destruct (decide (endpoint_pair e1 = endpoint_pair e0)) as [->|Hne].
    + rewrite lookup_insert_eq. eauto.
    + rewrite lookup_insert_ne by done. rewrite lookup_insert_eq. eauto.
  - rewrite lookup_insert_eq. eauto.
  - intros p [v Hp].
    rewrite !lookup_insert_ne by (intros <-; congruence). eauto.
Qed.

(** A run of the loop that succeeds met no pair twice. *)
Lemma allocate_links_Ok_disjoint ls : forall out out',
  for_each allocate_link ls out = Ok out' ->
  no_shared_interface ls /\
  (forall p, p ∈ concat (map endpoint_pairs ls) -> out !! p = None) /\
  (forall p, is_Some (out !! p) -> is_Some (out' !! p)).
Proof.
  induction ls as [|link ls IH]; intros out out' Hrun.
  - injection Hrun as <-. split; [done|]. split; [|done].
    intros p Hp. by apply elem_of_nil in Hp.
  - rewrite for_each_cons in Hrun. apply bind_Ok in Hrun as (out1 & Hstep & Hrun).
    destruct (allocate_link_Ok _ _ _ Hstep) as (s & net & e0 & e1 & _ & _ & _ & _ & Heps).
    destruct (allocate_link_Ok_free _ _ _ _ _ Hstep Heps) as (Hf0 & Hf1 & Hs0 & Hs1 & Hmono).
    destruct (IH _ _ Hrun) as (Hsh & Hfree & Hmono').
    assert (Hlink : forall p, p ∈ endpoint_pairs link -> out !! p = None /\ is_Some (out1 !! p)).
    { intros p. rewrite (endpoint_pairs_two _ _ _ Heps).
      intros [->|[->|[]%elem_of_nil]%elem_of_cons]%elem_of_cons; done. }
    split; [split; [|done]|split].
    + intros p Hp Hin. destruct (Hlink p Hp) as [_ [v Hv]].
      rewrite (Hfree p Hin) in Hv. done.
    + intros p. simpl. intros [Hp|Hp]%elem_of_app; [by apply Hlink|].
      destruct (out !! p) as [v|] eqn:E; [|done].
      destruct (Hmono p) as [v' Hv']; [by rewrite E|].
      rewrite (Hfree p Hp) in Hv'. done.
    + intros p Hp. by apply Hmono', Hmono.
Qed.

(** X4.  [allocate_link_ips] returns a table exactly when every link of the
    document has a non-empty subnet that parses as a /64 and exactly two
    endpoints, and no (router, interface) pair is claimed by two links. *)
Theorem link_allocation_succeeds_iff intent :
  (exists out, allocate_link_ips intent = Ok out) <->
  Forall valid_link (links intent) /\ no_shared_interface (links intent).
Proof.
  unfold allocate_link_ips. split.
  - intros [out Hrun]. split; [by eapply allocate_links_Ok|].
    by destruct (allocate_links_Ok_disjoint _ _ _ Hrun).
  - intros [Hval Hsh].
    destruct (allocate_links_valid _ ∅ Hval Hsh) as (out & Hrun & _); [done|]. eauto.
Qed.

Lemma subnet_member net k :
  IPv6Network_ok net -> prefixlen net = 64 -> k < 2 ^ 64 ->
  network_address net + k < 2 ^ 128 /\
  (network_address net + k) / 2 ^ 64 = network_address net / 2 ^ 64.
Proof.
  intros (Hp & Hlt & Hmod) H64 Hk. split; [by apply pool_room|].
  rewrite H64 in Hmod. change (128 - 64) with 64 in Hmod.
  pose proof (N.div_mod' (network_address net) (2 ^ 64)) as Hdm.
  rewrite Hmod, N.add_0_r in Hdm.
  symmetry. apply (N.div_unique _ _ _ k); [done|]. lia.
Qed.

(** X5.  In the table [allocate_link_ips] returns, the keys are exactly the
    (router, interface) pairs the links of the document name, and the value
    at a key is an address of the subnet of a link that names it: the subnet
    base plus one for the first endpoint, plus two for the second, written as
    a /64.  That address fits 128 bits and shares its upper 64 bits with the
    subnet. *)
Theorem link_table_contents intent out :
  allocate_link_ips intent = Ok out ->
  (forall p, is_Some (out !! p) <-> p ∈ concat (map endpoint_pairs (links intent))) /\
  (forall p v, out !! p = Some v ->
     exists link s net e0 e1 k,
       link ∈ links intent /\ l_subnet_v6 link = Some s /\ IPv6Network s = Some net /\
       prefixlen net = 64 /\ l_endpoints link = Some [e0; e1] /\
       ((k = 1 /\ p = endpoint_pair e0 /\ p <> endpoint_pair e1) \/
        (k = 2 /\ p = endpoint_pair e1)) /\
       v = str_addr (network_address net + k) +:+ "/64" /\
       network_address net + k < 2 ^ 128 /\
       (network_address net + k) / 2 ^ 64 = network_address net / 2 ^ 64).
Proof.
  intros Hrun. pose proof (allocate_links_Ok _ _ _ Hrun) as Hval.
  destruct (allocate_links_Ok_disjoint _ _ _ Hrun) as (Hsh & _ & _).
  destruct (allocate_links_valid _ ∅ Hval Hsh) as (out' & Hrun' & Hout & Hdom & Hin); [done|].
  unfold allocate_link_ips in Hrun. rewrite Hrun in Hrun'. injection Hrun' as <-.
  assert (Hkeys : forall p, is_Some (out !! p) ->
                            p ∈ concat (map endpoint_pairs (links intent))).
  { intros p [v Hv]. destruct (decide (p ∈ concat (map endpoint_pairs (links intent))));
      [done|]. rewrite Hout in Hv by done. by rewrite lookup_empty in Hv. }
  split; [intros p; split; [apply Hkeys|apply Hdom]|].
  intros p v Hv. pose proof (Hkeys p (mk_is_Some _ _ Hv)) as Hp.
  apply list_elem_of_In, in_concat in Hp as (pairs & Hpairs%list_elem_of_In & Hp%list_elem_of_In).
  apply list_elem_of_fmap in Hpairs as (link & -> & Hlink).
  rewrite Forall_forall in Hval.
  destruct (Hval _ Hlink) as (s & net & e0 & e1 & Hs & Hne & Hnet & H64 & Heps).
  destruct (Hin link s net e0 e1 Hlink Hs Hnet Heps) as [H1 H0].
  pose proof (IPv6Network_wf _ _ Hnet) as Hwf.
  rewrite (endpoint_pairs_two _ _ _ Heps) in Hp.
  destruct (decide (p = endpoint_pair e1)) as [->|Hne1].
  - exists link, s, net, e0, e1, 2. rewrite H1 in Hv. injection Hv as <-.
    repeat (split; [done|]). split; [by right|]. split; [done|].
    by apply subnet_member.
  - assert (p = endpoint_pair e0) as ->.
    { apply elem_of_cons in Hp as [->|Hp]; [done|].
      by apply list_elem_of_singleton in Hp. }
    exists link, s, net, e0, e1, 1. rewrite H0 in Hv by done. injection Hv as <-.
    repeat (split; [done|]). split; [by left|]. split; [done|].
    by apply subnet_member.
Qed.

(** X6.  The checks of [allocate_link_ips] on the first link it refuses, the
    links before it being accepted, in the order the script makes them: a
    missing or empty subnet stops the run with [MissingSubnet], a subnet that
    does not parse with the [ValueError] of the library, a subnet that is not
    a /64 with [InvalidPrefixLength], an endpoint list that is missing or not
    of length two with [EndpointCountMismatch], and an endpoint whose pair an
    earlier link claimed with [DuplicateInterfaceUse], the first endpoint
    being reported before the second.  The message names the link, or
    [<unnamed>]. *)
Theorem link_allocation_first_refusal intent pre link post :
  links intent = pre ++ link :: post ->
  Forall valid_link pre -> no_shared_interface pre ->
  let name := default "<unnamed>" (l_name link) in
  let subnet := default "" (l_subnet_v6 link) in
  let eps := default [] (l_endpoints link) in
  let used := concat (map endpoint_pairs pre) in
  let reused ep :=
    Err (SystemExit DuplicateInterfaceUse
           ("[ERROR] " +:+ ("Interface reused: " +:+ ep_router ep +:+ ":" +:+ ep_interface ep))) in
  (subnet = "" ->
     allocate_link_ips intent =
     Err (SystemExit MissingSubnet ("[ERROR] " +:+ ("Link " +:+ name +:+ " missing subnet_v6")))) /\
  (subnet <> "" -> IPv6Network subnet = None -> allocate_link_ips intent = Err ValueError) /\
  (forall net, subnet <> "" -> IPv6Network subnet = Some net ->
     (prefixlen net <> 64 ->
        allocate_link_ips intent =
        Err (SystemExit InvalidPrefixLength
               ("[ERROR] " +:+ ("Link " +:+ name +:+ " subnet must be /64, got /"
                                +:+ pretty (prefixlen net))))) /\
     (prefixlen net = 64 -> length eps <> 2%nat ->
        allocate_link_ips intent =
        Err (SystemExit EndpointCountMismatch
               ("[ERROR] " +:+ ("Link " +:+ name +:+ " must have exactly 2 endpoints")))) /\
     (forall e0 e1, prefixlen net = 64 -> eps = [e0; e1] ->
        (endpoint_pair e0 ∈ used -> allocate_link_ips intent = reused e0) /\
        (endpoint_pair e0 ∉ used -> endpoint_pair e1 ∈ used ->
           allocate_link_ips intent = reused e1))).
Proof.
  intros Hl Hpre Hsh name subnet eps used reused.
  destruct (allocate_links_valid pre ∅ Hpre Hsh) as (out & Hrun & Hout & Hdom & _); [done|].
  assert (Hstep : forall e, allocate_link out link = Err e -> allocate_link_ips intent = Err e).
  { intros e He. unfold allocate_link_ips. rewrite Hl, for_each_app, Hrun. simpl.
    by rewrite He. }
  split; [|split].
  - intros Hs. apply Hstep. unfold allocate_link. fold name subnet. by rewrite Hs.
  - intros Hne Hnet. apply Hstep. unfold allocate_link, parse_network. fold name subnet.
    rewrite bool_decide_eq_true_2 by done. simpl. by rewrite Hnet.
  - intros net Hne Hnet. split; [|split].
    + intros H64. apply Hstep. unfold allocate_link, parse_network. fold name subnet.
      rewrite bool_decide_eq_true_2 by done. simpl. rewrite Hnet. simpl.
      by rewrite bool_decide_eq_false_2.
    + intros H64 Hlen. apply Hstep. unfold allocate_link, parse_network. fold name subnet eps.
      rewrite bool_decide_eq_true_2 by done. simpl. rewrite Hnet. simpl.
      rewrite bool_decide_eq_true_2 by done. simpl.
      by rewrite bool_decide_eq_false_2.
    + intros e0 e1 H64 Heps.
      assert (Hgo : allocate_link out link =
                let* _ := ensure (bool_decide (out !! endpoint_pair e0 = None))
                            DuplicateInterfaceUse
                            ("Interface reused: " +:+ ep_router e0 +:+ ":" +:+ ep_interface e0) in
                let* _ := ensure (bool_decide (out !! endpoint_pair e1 = None))
                            DuplicateInterfaceUse
                            ("Interface reused: " +:+ ep_router e1 +:+ ":" +:+ ep_interface e1) in
                let* a0 := addr_add (network_address net) 1 in
                let* a1 := addr_add (network_address net) 2 in
                Ok (<[endpoint_pair e1 := str_addr a1 +:+ "/64"]>
                      (<[endpoint_pair e0 := str_addr a0 +:+ "/64"]> out))).
      { unfold allocate_link, parse_network. fold name subnet eps.
        rewrite bool_decide_eq_true_2 by done. simpl. rewrite Hnet. simpl.
        rewrite bool_decide_eq_true_2 by done. simpl. rewrite Heps. simpl. done. }
      split.
      * intros [v Hv]%Hdom. apply Hstep. rewrite Hgo, Hv.
        by rewrite bool_decide_eq_false_2.
      * intros Hfree [v Hv]%Hdom. apply Hstep. rewrite Hgo, (Hout _ Hfree), lookup_empty.
        rewrite bool_decide_eq_true_2 by done. simpl. rewrite Hv.
        by rewrite bool_decide_eq_false_2.
Qed.

(** ** The loopback table as a whole *)

Lemma allocate_as_routers_Ok base rs : forall idx out out',
  allocate_as_routers base idx rs out = Ok out' ->
  (forall r, r ∉ rs -> out' !! r = out !! r) /\
  (forall r, r ∈ rs -> exists i,
     rs !! i = Some r /\
     out' !! r = Some (str_addr (base + idx + N.of_nat i) +:+ "/128") /\
     base + idx + N.of_nat i < 2 ^ 128).
Proof.
  induction rs as [|r0 rs IH]; intros idx out out' Hrun; simpl in Hrun.
  - injection Hrun as <-. split; [done|]. intros r Hr. by apply elem_of_nil in Hr.
  - apply bind_Ok in Hrun as (a & Ha & Hrun). unfold addr_add in Ha.
    destruct (N.ltb_spec (base + idx) (2 ^ 128)) as [Hlt|]; [|done]. injection Ha as <-.
    destruct (IH _ _ _ Hrun) as [Hout Hin]. split.
    + intros r [? ?]%not_elem_of_cons. rewrite Hout by done. by rewrite lookup_insert_ne.
    + intros r Hr. destruct (decide (r ∈ rs)) as [Hrs|Hrs].
      * destruct (Hin r Hrs) as (i & Hi & Hv & Hb). exists (S i). split; [done|].
        rewrite Hv. split; [do 3 f_equal|]; lia.
      * apply elem_of_cons in Hr as [->|?]; [|done]. exists 0%nat. split; [done|].
        rewrite Hout by done. rewrite lookup_insert_eq, N.add_0_r. done.
Qed.

Lemma allocate_as_Ok out asn asd out' :
  allocate_as out (asn, asd) = Ok out' ->
  exists pool, IPv6Network (as_loopbacks_pool asd) = Some pool /\ prefixlen pool = 64 /\
    as_routers_list asd <> [] /\
    allocate_as_routers (network_address pool) 1 (as_routers_list asd) out = Ok out'.
Proof.
  unfold allocate_as, parse_network. intros Hrun.
  destruct (IPv6Network (as_loopbacks_pool asd)) as [pool|]; [|done]. simpl in Hrun.
  apply bind_Ok in Hrun as (? & H64%ensure_Ok%bool_decide_eq_true & Hrun).
  apply bind_Ok in Hrun as (? & Hne%ensure_Ok%bool_decide_eq_true & Hrun).
  by exists pool.
Qed.

Lemma allocate_ases_Ok (l : list (string * ASData)) : forall out out',
  for_each allocate_as l out = Ok out' ->
  Forall (fun item => accepted_as item.2) l /\
  (forall r, r ∉ document_routers l -> out' !! r = out !! r) /\
  (forall r, r ∈ document_routers l -> exists asn asd pool i,
     (asn, asd) ∈ l /\ IPv6Network (as_loopbacks_pool asd) = Some pool /\
     prefixlen pool = 64 /\ as_routers_list asd !! i = Some r /\
     out' !! r = Some (str_addr (network_address pool + N.of_nat (S i)) +:+ "/128") /\
     network_address pool + N.of_nat (S i) < 2 ^ 128).
Proof.
  induction l as [|[asn0 asd0] l IH]; intros out out' Hrun.
  - injection Hrun as <-. split; [constructor|]. split; [done|].
    intros r Hr. by apply elem_of_nil in Hr.
  - rewrite for_each_cons in Hrun. apply bind_Ok in Hrun as (out1 & Hstep & Hrun).
    apply allocate_as_Ok in Hstep as (pool & Hpool & H64 & Hne & Hstep).
    apply allocate_as_routers_Ok in Hstep as [Hout1 Hin1].
    destruct (IH _ _ Hrun) as (Hacc & Hout & Hin).
    unfold document_routers. simpl. fold (document_routers l).
    split; [constructor; [by exists pool|done]|]. split.
    + intros r [? ?]%not_elem_of_app. rewrite Hout by done. by apply Hout1.
    + intros r Hr. destruct (decide (r ∈ document_routers l)) as [Hl|Hl].
      * destruct (Hin r Hl) as (asn & asd & pool' & i & Hmem & ?).
        exists asn, asd, pool', i. split; [by apply elem_of_cons; right|done].
      * apply elem_of_app in Hr as [Hr|?]; [|done].
        destruct (Hin1 r Hr) as (i & Hi & Hv & Hb).
        exists asn0, asd0, pool, i. split; [by apply elem_of_cons; left|].
        rewrite Hout by done. rewrite Hv.
        repeat (split; [done|]). split; [do 3 f_equal|]; lia.
Qed.

(** X7.  When [allocate_loopbacks] returns a table, every AS of the document
    had a pool that parses as a /64 and a non-empty router list; the keys of
    the table are exactly the router names the ASes list; and the value at a
    name is the /128 at [pool base + i] for a 1-based position [i] of the name
    in the router list of one of the ASes, an address that fits 128 bits. *)
Theorem loopback_table_contents intent out :
  allocate_loopbacks intent = Ok out ->
  Forall (fun item => accepted_as item.2) (ases intent) /\
  (forall r, is_Some (out !! r) <-> r ∈ document_routers (ases intent)) /\
  (forall r lb, out !! r = Some lb ->
     exists asn asd pool i,
       (asn, asd) ∈ ases intent /\ IPv6Network (as_loopbacks_pool asd) = Some pool /\
       prefixlen pool = 64 /\ as_routers_list asd !! i = Some r /\
       lb = str_addr (network_address pool + N.of_nat (S i)) +:+ "/128" /\
       network_address pool + N.of_nat (S i) < 2 ^ 128).
Proof.
  intros Hrun. destruct (allocate_ases_Ok _ _ _ Hrun) as (Hacc & Hout & Hin).
  assert (Hkeys : forall r, is_Some (out !! r) -> r ∈ document_routers (ases intent)).
  { intros r [v Hv]. destruct (decide (r ∈ document_routers (ases intent))); [done|].
    rewrite Hout in Hv by done. by rewrite lookup_empty in Hv. }
  split; [done|]. split.
  - intros r. split; [apply Hkeys|].
    intros Hr. destruct (Hin r Hr) as (? & ? & ? & ? & _ & _ & _ & _ & Hv & _).
    by rewrite Hv.
  - intros r lb Hv. destruct (Hin r (Hkeys r (mk_is_Some _ _ Hv)))
      as (asn & asd & pool & i & Hmem & Hpool & H64 & Hi & Hv' & Hb).
    exists asn, asd, pool, i. rewrite Hv in Hv'. injection Hv' as ->. done.
Qed.

(** ** The run as a whole *)

Lemma write_configs_run o intent loopbacks link_ips adj rs : forall fs fs' res,
  write_configs o intent loopbacks link_ips adj rs fs = (fs', res) ->
  exists cfgs,
    Forall2 (fun r cfg => build_router_config o intent r loopbacks link_ips adj = Ok cfg)
            (take (length cfgs) rs) cfgs /\
    fs' = fs ++ zip_with config_file rs cfgs /\
    match res with
    | Ok _ => length cfgs = length rs
    | Err e => exists r, rs !! length cfgs = Some r /\
                         build_router_config o intent r loopbacks link_ips adj = Err e
    end.
Proof.
  induction rs as [|r rs IH]; intros fs fs' res Hrun; simpl in Hrun.
  - injection Hrun as <- <-. exists []. simpl. rewrite app_nil_r.
    split; [constructor|done].
  - destruct (build_router_config o intent r loopbacks link_ips adj) as [cfg|e] eqn:Hcfg.
    + destruct (IH _ _ _ Hrun) as (cfgs & Hall & -> & Hres).
      exists (cfg :: cfgs). simpl. split; [by constructor|].
      split; [by rewrite <- app_assoc|].
      destruct res as [u|e]; [by f_equal|done].
    + injection Hrun as <- <-. exists []. simpl. rewrite app_nil_r.
      split; [constructor|]. split; [done|]. by exists r.
Qed.

(** X8.  What a run of [main] leaves.  Either an allocation stage failed:
    the run ends with its exception and no file was written.  Or the three
    tables were built and the routers were taken in the order of
    [intent["routers"]]: the files written are [<router>.cfg] for the first
    routers of that order, each holding the configuration generated for the
    router; the run ends without exception exactly when there is one file
    per router, and otherwise with the exception raised for the first router
    without a file. *)
Theorem main_outcome o intent fs res :
  main o intent = (fs, res) ->
  (fs = [] /\ exists e, res = Err e /\
     (allocate_loopbacks intent = Err e \/
      (exists loopbacks, allocate_loopbacks intent = Ok loopbacks) /\
      allocate_link_ips intent = Err e)) \/
  (exists loopbacks link_ips adj cfgs,
     allocate_loopbacks intent = Ok loopbacks /\
     allocate_link_ips intent = Ok link_ips /\
     adjacency intent = Ok adj /\
     Forall2 (fun r cfg => build_router_config o intent r loopbacks link_ips adj = Ok cfg)
             (take (length cfgs) (map fst (routers intent))) cfgs /\
     fs = zip_with config_file (map fst (routers intent)) cfgs /\
     match res with
     | Ok _ => length cfgs = length (routers intent)
     | Err e => exists r, map fst (routers intent) !! length cfgs = Some r /\
                          build_router_config o intent r loopbacks link_ips adj = Err e
     end).
Proof.
  unfold main. intros Hrun.
  destruct (allocate_loopbacks intent) as [loopbacks|e] eqn:Hlb;
    [|injection Hrun as <- <-; left; eauto].
  destruct (allocate_link_ips intent) as [link_ips|e] eqn:Hips;
    [|injection Hrun as <- <-; left; split; [done|]; exists e; eauto].
  destruct (adjacency_Ok intent (allocate_link_ips_Ok _ _ Hips)) as (adj & Hadj).
  rewrite Hadj in Hrun. right.
  apply write_configs_run in Hrun as (cfgs & Hall & -> & Hres).
  exists loopbacks, link_ips, adj, cfgs. repeat (split; [done|]).
  destruct res; [by rewrite length_map in Hres|done].
Qed.

(** ** The neighbors of a BGP block *)

(** The eBGP loop keeps one peer per address and misses no inter-AS link. *)
Lemma ebgp_loop_full intent rname link_ips ls : forall peers0 lines0 peers lines,
  for_each (ebgp_step intent rname link_ips) ls (peers0, lines0) = Ok (peers, lines) ->
  NoDup (map peer_address peers0) ->
  NoDup (map peer_address peers) /\
  (forall a, a ∈ map peer_address peers0 -> a ∈ map peer_address peers) /\
  (forall link, link ∈ inter_as_links ls ->
     exists other ip, other_endpoint link rname = Ok other /\
       link_ips !! endpoint_pair other = Some ip /\
       ip_no_prefix ip ∈ map peer_address peers).
Proof.
  induction ls as [|link ls IH]; intros peers0 lines0 peers lines Hrun Hnd.
  - injection Hrun as <- <-. split; [done|]. split; [done|].
    intros link Hin. by apply elem_of_nil in Hin.
  - rewrite for_each_cons in Hrun. apply bind_Ok in Hrun as ([peers1 lines1] & Hstep & Hrun).
    unfold ebgp_step in Hstep. unfold inter_as_links. rewrite filter_cons.
    fold (inter_as_links ls).
    destruct (decide (l_type link = Some "inter_as")) as [Ht|Ht].
    2: { rewrite bool_decide_eq_true_2 in Hstep by done. injection Hstep as <- <-.
         by apply (IH _ _ _ _ Hrun). }
    rewrite bool_decide_eq_false_2 in Hstep by (intros ?; done).
    apply bind_Ok in Hstep as (other & Hother & Hstep).
    apply bind_Ok in Hstep as (pr & Hpr & Hstep).
    apply bind_Ok in Hstep as (peer_asn & Hasn & Hstep).
    apply bind_Ok in Hstep as (ip & Hip%key_Ok & Hstep).
    fold peer_address in Hstep.
    destruct (decide (ip_no_prefix ip ∈ map peer_address peers0)) as [Hold|Hnew].
    + rewrite bool_decide_eq_true_2 in Hstep by done. injection Hstep as <- <-.
      destruct (IH _ _ _ _ Hrun Hnd) as (Hnd' & Hmono & Hall).
      split; [done|]. split; [done|].
      intros l0 [->|Hin]%elem_of_cons; [|by apply Hall].
      exists other, ip. split; [done|]. split; [done|]. by apply Hmono.
    + rewrite bool_decide_eq_false_2 in Hstep by done. injection Hstep as <- <-.
      destruct (IH _ _ _ _ Hrun) as (Hnd' & Hmono & Hall).
      { rewrite map_app. apply NoDup_app. split; [done|]. split; [|apply NoDup_singleton].
        intros a Ha [->|[]%elem_of_nil]%elem_of_cons. done. }
      split; [done|]. split.
      * intros a Ha. apply Hmono. rewrite map_app. apply elem_of_app. by left.
      * intros l0 [->|Hin]%elem_of_cons; [|by apply Hall].
        exists other, ip. split; [done|]. split; [done|]. apply Hmono.
        rewrite map_app. apply elem_of_app. right. apply elem_of_cons. by left.
Qed.

(** [build_bgp_inv], with what the eBGP loop guarantees of its peers. *)
Lemma build_bgp_inv_full o intent rname loopbacks link_ips adj lines :
  bgp_is_required intent = true ->
  build_bgp o intent rname loopbacks link_ips adj = Ok lines ->
  exists r my_asn border ibgp_peers ebgp_peers lb subnets lbs relmap,
    dict_get (routers intent) rname = Ok r /\
    py_int (r_as r) = Ok my_asn /\
    has_ebgp_neighbor intent rname = Ok border /\
    loopbacks !! rname = Some lb /\
    ibgp_peers_of intent rname my_asn loopbacks ibgp_peers /\
    Forall (fun p => exists link, link ∈ adj_get adj rname /\
                       ebgp_peer_of intent rname link_ips link p) ebgp_peers /\
    NoDup (map peer_address ebgp_peers) /\
    (forall link, link ∈ inter_as_links (adj_get adj rname) ->
       exists other ip, other_endpoint link rname = Ok other /\
         link_ips !! endpoint_pair other = Some ip /\
         ip_no_prefix ip ∈ map peer_address ebgp_peers) /\
    Forall2 (fun link s => l_subnet_v6 link = Some s)
            (inter_as_links (adj_get adj rname)) subnets /\
    (border = true ->
       loopbacks_for_as intent loopbacks (pretty my_asn) = Ok lbs /\
       get_interas_relationship_for_router intent rname adj = Ok relmap) /\
    lines = bgp_block o intent r my_asn border ibgp_peers ebgp_peers lb subnets lbs relmap.
Proof.
  intros Hreq Hrun. unfold build_bgp in Hrun. rewrite Hreq in Hrun. simpl in Hrun.
  apply bind_Ok in Hrun as (b & Hb%key_Ok & Hrun).
  apply bind_Ok in Hrun as (r & Hr & Hrun).
  apply bind_Ok in Hrun as (my_asn & Hasn & Hrun).
  apply bind_Ok in Hrun as ([ibgp_peers lines1] & Hibgp & Hrun).
  apply bind_Ok in Hrun as ([ebgp_peers lines2] & Hebgp & Hrun).
  apply bind_Ok in Hrun as (border & Hborder & Hrun).
  apply bind_Ok in Hrun as (lb & Hlb%key_Ok & Hrun).
  apply bind_Ok in Hrun as (lines3 & Hnet & Hrun).
  apply bind_Ok in Hrun as (lines4 & Hcd & Hrun).
  assert (Hi : ibgp_peers_of intent rname my_asn loopbacks ibgp_peers /\
               lines1 = bgp_head my_asn (r_router_id r)
                        ++ concat (map (ibgp_neighbor my_asn) ibgp_peers)).
  { unfold ibgp_peers_of. destruct (ibgp_full_mesh b) eqn:Hmode.
    - apply bind_Ok in Hibgp as (asdata & Hasd & Hibgp).
      apply bind_Ok in Hibgp as (rs & Hrs%key_Ok & Hibgp).
      apply ibgp_loop in Hibgp as (new & -> & -> & Hnew). simpl.
      split; [|done]. exists b. rewrite Hmode. split; [done|]. by exists asdata, rs.
    - injection Hibgp as <- <-. split; [|done]. exists b. by rewrite Hmode. }
  destruct Hi as [Hi ->].
  destruct (ebgp_loop_full _ _ _ _ _ _ _ _ Hebgp (NoDup_nil_2 : NoDup (map peer_address [])))
    as (Hnd & _ & Hall).
  apply ebgp_loop in Hebgp as (new & -> & -> & Hnew). simpl in Hnew, Hnd, Hall.
  apply interas_network_loop in Hnet as (subnets & -> & Hsub).
  destruct border.
  - apply bind_Ok in Hcd as (lbs & Hlbs & Hcd). injection Hcd as <-.
    apply bind_Ok in Hrun as (lbs' & Hlbs' & Hrun).
    rewrite Hlbs in Hlbs'. injection Hlbs' as <-.
    rewrite !foldl_set_add in Hrun. simpl in Hrun.
    rewrite prefix_list_loop in Hrun.
    apply bind_Ok in Hrun as (relmap & Hrel & Hrun). injection Hrun as <-.
    exists r, my_asn, true, ibgp_peers, new, lb, subnets, lbs, relmap.
    repeat (split; [done|]).
    unfold bgp_block, bgp_tail, self_prefixes, community_lines, pl_self_baseline, closing.
    rewrite <- !app_assoc. reflexivity.
  - injection Hcd as <-. injection Hrun as <-.
    exists r, my_asn, false, ibgp_peers, new, lb, subnets, [], ∅.
    repeat (split; [done|]).
    unfold bgp_block, bgp_tail, closing.
    rewrite <- !app_assoc. reflexivity.
Qed.

Lemma activate_of_ibgp border peers :
  List.filter is_activate (concat (map (ibgp_activate border) peers)) =
  map activate_line peers.
Proof.
  induction peers as [|p peers IH]; [done|].
  change (concat (map (ibgp_activate border) (p :: peers)))
    with (ibgp_activate border p ++ concat (map (ibgp_activate border) peers)).
  rewrite List.filter_app, IH. unfold ibgp_activate, is_activate.
  rewrite !List.filter_app.
  rewrite (filter_all _ [_ +:+ _ +:+ " activate"]) by lines_test.
  rewrite (filter_none _ [_ +:+ _ +:+ " send-community"]) by lines_test.
  destruct border; [rewrite (filter_none _ [_ +:+ _ +:+ " next-hop-self"]) by lines_test|];
    done.
Qed.

Lemma activate_of_ebgp (peers : list (string * Z * string)) :
  List.filter is_activate (concat (map ebgp_activate peers)) =
  map activate_line (map peer_address peers).
Proof.
  induction peers as [|p peers IH]; [done|].
  change (concat (map ebgp_activate (p :: peers)))
    with ([activate_line (peer_address p)] ++ [send_community_line (peer_address p)]
          ++ concat (map ebgp_activate peers)).
  rewrite !List.filter_app, IH. unfold is_activate, activate_line, send_community_line.
  rewrite (filter_all _ [_ +:+ _ +:+ " activate"]) by lines_test.
  rewrite (filter_none _ [_ +:+ _ +:+ " send-community"]) by lines_test.
  done.
Qed.

Lemma send_community_of_ibgp border peers :
  List.filter is_send_community (concat (map (ibgp_activate border) peers)) =
  map send_community_line peers.
Proof.
  induction peers as [|p peers IH]; [done|].
  change (concat (map (ibgp_activate border) (p :: peers)))
    with (ibgp_activate border p ++ concat (map (ibgp_activate border) peers)).
  rewrite List.filter_app, IH. unfold ibgp_activate, is_send_community.
  rewrite !List.filter_app.
  rewrite (filter_none _ [_ +:+ _ +:+ " activate"]) by lines_test.
  rewrite (filter_all _ [_ +:+ _ +:+ " send-community"]) by lines_test.
  destruct border; [rewrite (filter_none _ [_ +:+ _ +:+ " next-hop-self"]) by lines_test|];
    done.
Qed.

Lemma send_community_of_ebgp (peers : list (string * Z * string)) :
  List.filter is_send_community (concat (map ebgp_activate peers)) =
  map send_community_line (map peer_address peers).
Proof.
  induction peers as [|p peers IH]; [done|].
  change (concat (map ebgp_activate (p :: peers)))
    with ([activate_line (peer_address p)] ++ [send_community_line (peer_address p)]
          ++ concat (map ebgp_activate peers)).
  rewrite !List.filter_app, IH. unfold is_send_community, activate_line, send_community_line.
  rewrite (filter_none _ [_ +:+ _ +:+ " activate"]) by lines_test.
  rewrite (filter_all _ [_ +:+ _ +:+ " send-community"]) by lines_test.
  done.
Qed.

Lemma neighbor_statements_of_block o intent r my_asn border ibgp_peers ebgp_peers lb subnets
    lbs relmap :
  List.filter is_neighbor_statement
    (bgp_block o intent r my_asn border ibgp_peers ebgp_peers lb subnets lbs relmap) =
  concat (map (ibgp_neighbor my_asn) ibgp_peers) ++ map ebgp_neighbor ebgp_peers.
Proof.
  unfold bgp_block, bgp_tail. destruct border; rewrite !List.filter_app;
    unfold is_neighbor_statement; filter_parts; by rewrite ?app_nil_l, ?app_nil_r.
Qed.

Lemma activate_of_block o intent r my_asn border ibgp_peers ebgp_peers lb subnets lbs relmap :
  List.filter is_activate
    (bgp_block o intent r my_asn border ibgp_peers ebgp_peers lb subnets lbs relmap) =
  map activate_line (ibgp_peers ++ map peer_address ebgp_peers).
Proof.
  unfold bgp_block, bgp_tail. destruct border; rewrite !List.filter_app;
    rewrite activate_of_ibgp, activate_of_ebgp; unfold is_activate; filter_parts;
    by rewrite ?app_nil_l, ?app_nil_r, ?map_app.
Qed.

Lemma send_community_of_block o intent r my_asn border ibgp_peers ebgp_peers lb subnets lbs
    relmap :
  List.filter is_send_community
    (bgp_block o intent r my_asn border ibgp_peers ebgp_peers lb subnets lbs relmap) =
  map send_community_line (ibgp_peers ++ map peer_address ebgp_peers).
Proof.
  unfold bgp_block, bgp_tail. destruct border; rewrite !List.filter_app;
    rewrite send_community_of_ibgp, send_community_of_ebgp; unfold is_send_community;
    filter_parts; by rewrite ?app_nil_l, ?app_nil_r, ?map_app.
Qed.

(** X9.  In a block built with BGP required, the [neighbor] statements at
    the level of [router bgp] are the [remote-as] and [update-source
    Loopback0] pair of each iBGP peer, in the order of the router list of the
    AS, followed by one [remote-as] per exterior peer; and the address family
    activates exactly the neighbors declared, each once and in that order,
    and gives each of them [send-community]. *)
Theorem neighbors_declared_and_activated o intent rname loopbacks link_ips adj lines :
  bgp_is_required intent = true ->
  build_bgp o intent rname loopbacks link_ips adj = Ok lines ->
  exists my_asn ibgp_peers ebgp_peers,
    ibgp_peers_of intent rname my_asn loopbacks ibgp_peers /\
    Forall (fun p => exists link, link ∈ adj_get adj rname /\
                       ebgp_peer_of intent rname link_ips link p) ebgp_peers /\
    List.filter is_neighbor_statement lines =
      concat (map (ibgp_neighbor my_asn) ibgp_peers) ++ map ebgp_neighbor ebgp_peers /\
    List.filter is_activate lines =
      map activate_line (ibgp_peers ++ map peer_address ebgp_peers) /\
    List.filter is_send_community lines =
      map send_community_line (ibgp_peers ++ map peer_address ebgp_peers).
Proof.
  intros Hreq Hrun.
  destruct (build_bgp_inv _ _ _ _ _ _ _ Hreq Hrun)
    as (r & my_asn & border & ibgp_peers & ebgp_peers & lb & subnets & lbs & relmap
        & _ & _ & _ & _ & Hibgp & Hebgp & _ & _ & ->).
  exists my_asn, ibgp_peers, ebgp_peers. split; [done|]. split; [done|].
  split; [apply neighbor_statements_of_block|].
  split; [apply activate_of_block|apply send_community_of_block].
Qed.

(** X10.  The exterior neighbors of a block are declared once per address:
    the [remote-as] statements that follow the iBGP pairs carry pairwise
    distinct addresses, each is the address of the far end of an inter-AS
    link of the adjacency list with the AS number of the router at that end,
    and every inter-AS link of the adjacency list has the address of its far
    end among them, so a second link to an address already met adds no
    statement. *)
Theorem exterior_neighbors_once_per_address o intent rname loopbacks link_ips adj lines :
  bgp_is_required intent = true ->
  build_bgp o intent rname loopbacks link_ips adj = Ok lines ->
  exists my_asn ibgp_peers ebgp_peers,
    List.filter is_neighbor_statement lines =
      concat (map (ibgp_neighbor my_asn) ibgp_peers) ++ map ebgp_neighbor ebgp_peers /\
    NoDup (map peer_address ebgp_peers) /\
    Forall (fun p => exists link, link ∈ adj_get adj rname /\
                       ebgp_peer_of intent rname link_ips link p) ebgp_peers /\
    (forall link, link ∈ inter_as_links (adj_get adj rname) ->
       exists other ip, other_endpoint link rname = Ok other /\
         link_ips !! endpoint_pair other = Some ip /\
         ip_no_prefix ip ∈ map peer_address ebgp_peers).
Proof.
  intros Hreq Hrun.
  destruct (build_bgp_inv_full _ _ _ _ _ _ _ Hreq Hrun)
    as (r & my_asn & border & ibgp_peers & ebgp_peers & lb & subnets & lbs & relmap
        & _ & _ & _ & _ & _ & Hebgp & Hnd & Hall & _ & _ & ->).
  exists my_asn, ibgp_peers, ebgp_peers.
  split; [apply neighbor_statements_of_block|done].
Qed.

(** ** Policies of a border router *)

Ltac in_list := repeat first [apply list_elem_of_here | apply list_elem_of_further].

(** X11.  On a border router the block ends with the route-map
    declarations, then the attachments, then the closing lines; the
    attachments are all the [route-map ... in] and [... out] lines of the
    block; every route-map an attachment names is declared by a
    [route-map ... permit 10] line of the declarations; and the prefix list
    and the community lists that the declarations refer to are defined
    before them. *)
Theorem border_policies_are_declared o intent rname loopbacks link_ips adj lines :
  bgp_is_required intent = true ->
  has_ebgp_neighbor intent rname = Ok true ->
  build_bgp o intent rname loopbacks link_ips adj = Ok lines ->
  exists my_asn pre atts,
    lines = pre ++ route_map_lines my_asn ++ atts ++ closing /\
    List.filter is_route_map_attachment lines = atts /\
    Forall (fun l => exists ip m dir,
              l = "  neighbor " +:+ ip +:+ " route-map " +:+ m +:+ dir /\
              (dir = " out" \/ dir = " in") /\
              ("route-map " +:+ m +:+ " permit 10") ∈ route_map_lines my_asn) atts /\
    pl_self_baseline ∈ pre /\
    ("ip community-list standard COMM-SELF permit " +:+ (pretty my_asn +:+ ":50")) ∈ pre /\
    ("ip community-list standard COMM-CLIENT permit " +:+ (pretty my_asn +:+ ":100")) ∈ pre.
Proof.
  intros Hreq Hborder Hrun.
  destruct (build_bgp_inv _ _ _ _ _ _ _ Hreq Hrun)
    as (r & my_asn & border & ibgp_peers & ebgp_peers & lb & subnets & lbs & relmap
        & _ & _ & Hb & _ & _ & _ & _ & _ & ->).
  rewrite Hborder in Hb. injection Hb as <-.
  set (before :=
         bgp_head my_asn (r_router_id r)
         ++ concat (map (ibgp_neighbor my_asn) ibgp_peers)
         ++ map ebgp_neighbor ebgp_peers
         ++ [" !"; " address-family ipv6 unicast"]
         ++ concat (map (ibgp_activate true) ibgp_peers)
         ++ concat (map ebgp_activate ebgp_peers)
         ++ [network_line lb]
         ++ map network_line subnets
         ++ map network_line (sorted (set_iter o (intra_as_prefixes_for_as intent (pretty my_asn))))
         ++ map network_line (sorted lbs)).
  exists my_asn,
    ((before ++ community_lines my_asn)
     ++ [pl_self_baseline]
     ++ pl_self_entries 10 (sorted (set_iter o (self_prefixes o intent (pretty my_asn) lbs)))
     ++ ["!"]),
    (concat (map (attach_route_maps relmap) ebgp_peers)).
  split; [|split; [|split; [|split; [|split]]]].
  - unfold before, bgp_block, bgp_tail. rewrite <- !app_assoc. reflexivity.
  - apply route_maps_of_block.
  - apply Forall_concat_map. intros [[ip asn] pr]. rewrite attach_route_maps_eq.
    unfold route_map_lines_for, route_maps_of, route_map_lines. simpl.
    destruct (bool_decide _); [|destruct (bool_decide _)]; simpl;
      (constructor; [|constructor; [|constructor]]).
    + exists ip, "RM-OUT-CLIENT", " out". split; [done|]. split; [by left|]. in_list.
    + exists ip, "RM-IN-CLIENT", " in". split; [done|]. split; [by right|]. in_list.
    + exists ip, "RM-OUT-PEERPROV", " out". split; [done|]. split; [by left|]. in_list.
    + exists ip, "RM-IN-PROV", " in". split; [done|]. split; [by right|]. in_list.
    + exists ip, "RM-OUT-PEERPROV", " out". split; [done|]. split; [by left|]. in_list.
    + exists ip, "RM-IN-PEER", " in". split; [done|]. split; [by right|]. in_list.
  - apply elem_of_app. right. in_list.
  - apply elem_of_app. left. apply elem_of_app. right. unfold community_lines. in_list.
  - apply elem_of_app. left. apply elem_of_app. right. unfold community_lines. in_list.
Qed.

(** X12.  On a border router the prefixes that PL-SELF permits are exactly
    the prefixes of the [network] statements that follow the router's own
    loopback and the subnets of its inter-AS links: the intra-AS subnets and
    the loopbacks of the AS.  The subnet of an inter-AS link is announced by
    a [network] statement and is permitted by PL-SELF only if it is also one
    of those. *)
Theorem pl_self_permits_as_prefixes o intent rname loopbacks link_ips adj lines :
  bgp_is_required intent = true ->
  has_ebgp_neighbor intent rname = Ok true ->
  build_bgp o intent rname loopbacks link_ips adj = Ok lines ->
  exists lb subnets own pfxs,
    loopbacks !! rname = Some lb /\
    Forall2 (fun link s => l_subnet_v6 link = Some s)
            (inter_as_links (adj_get adj rname)) subnets /\
    List.filter is_network_line lines = map network_line ([lb] ++ subnets ++ own) /\
    List.filter is_pl_self lines = pl_self_baseline :: pl_self_entries 10 pfxs /\
    forall p, p ∈ pfxs <-> p ∈ own.
Proof.
  intros Hreq Hborder Hrun.
  destruct (build_bgp_inv _ _ _ _ _ _ _ Hreq Hrun)
    as (r & my_asn & border & ibgp_peers & ebgp_peers & lb & subnets & lbs & relmap
        & _ & _ & Hb & Hlb & _ & _ & Hsub & _ & ->).
  rewrite Hborder in Hb. injection Hb as <-.
  exists lb, subnets,
    (sorted (set_iter o (intra_as_prefixes_for_as intent (pretty my_asn))) ++ sorted lbs),
    (sorted (set_iter o (self_prefixes o intent (pretty my_asn) lbs))).
  split; [done|]. split; [done|]. split; [apply network_lines_of_block|].
  split; [apply pl_self_of_block|].
  intros p. unfold self_prefixes.
  rewrite elem_of_sorted, elem_of_set_iter, !elem_of_app, !elem_of_sorted. tauto.
Qed.

(** ** The block of a router that is not border *)

Lemma elem_of_incident rname link x :
  x ∈ incident rname link -> x = link /\ on_link rname link.
Proof.
  unfold incident, on_link. induction (default [] (l_endpoints link)) as [|ep eps IH]; simpl.
  - intros Hin. by apply elem_of_nil in Hin.
  - destruct (decide (ep_router ep = rname)) as [Heq|Hne].
    + rewrite bool_decide_eq_true_2 by done. simpl.
      intros [->|Hin]%elem_of_cons.
      * split; [done|]. apply elem_of_cons. by left.
      * destruct (IH Hin) as [-> ?]. split; [done|]. apply elem_of_cons. by right.
    + rewrite bool_decide_eq_false_2 by done. simpl. intros Hin.
      destruct (IH Hin) as [-> ?]. split; [done|]. apply elem_of_cons. by right.
Qed.

(** The links of an adjacency list are links of the document on the router. *)
Lemma elem_of_adjacency intent adj rname link :
  adjacency intent = Ok adj -> link ∈ adj_get adj rname ->
  link ∈ links intent /\ on_link rname link.
Proof.
  intros Hadj. rewrite (adjacency_spec _ _ _ Hadj).
  intros (l0 & Hl0 & Hin)%list_elem_of_In%in_flat_map.
  apply list_elem_of_In, elem_of_incident in Hin as [-> ?].
  by apply list_elem_of_In in Hl0.
Qed.

(** X13.  In a run, the block of a router that is on no inter-AS link is
    fixed by its iBGP peers alone: the header, the [remote-as] and
    [update-source] pair of each peer, the address family with each peer
    activated and given [send-community] and no [next-hop-self], the
    [network] statement of the router's own loopback, and the closing lines.
    It declares no exterior neighbor, no prefix list, no community list and
    no route-map. *)
Theorem non_border_block o intent rname loopbacks link_ips adj lines :
  bgp_is_required intent = true ->
  allocate_link_ips intent = Ok link_ips ->
  adjacency intent = Ok adj ->
  ~ has_inter_as_link intent rname ->
  build_bgp o intent rname loopbacks link_ips adj = Ok lines ->
  exists r my_asn ibgp_peers lb,
    dict_get (routers intent) rname = Ok r /\
    py_int (r_as r) = Ok my_asn /\
    loopbacks !! rname = Some lb /\
    ibgp_peers_of intent rname my_asn loopbacks ibgp_peers /\
    lines = bgp_head my_asn (r_router_id r)
            ++ concat (map (ibgp_neighbor my_asn) ibgp_peers)
            ++ [" !"; " address-family ipv6 unicast"]
            ++ concat (map (ibgp_activate false) ibgp_peers)
            ++ [network_line lb]
            ++ closing.
Proof.
  intros Hreq Hips Hadj Hnot Hrun.
  destruct (build_bgp_inv _ _ _ _ _ _ _ Hreq Hrun)
    as (r & my_asn & border & ibgp_peers & ebgp_peers & lb & subnets & lbs & relmap
        & Hr & Hasn & Hb & Hlb & Hibgp & Hebgp & Hsub & _ & ->).
  destruct (has_ebgp_neighbor_in_spec rname _ (allocate_link_ips_Ok _ _ Hips))
    as (b & Hb' & Hiff).
  unfold has_ebgp_neighbor in Hb. rewrite Hb' in Hb. injection Hb as <-.
  assert (b = false) as -> by (destruct b; [destruct Hnot; by apply Hiff|done]).
  assert (Hnone : forall link, link ∈ adj_get adj rname -> l_type link <> Some "inter_as").
  { intros link Hin Ht. destruct (elem_of_adjacency _ _ _ _ Hadj Hin) as [Hl Hon].
    apply Hnot. by exists link. }
  assert (ebgp_peers = []) as ->.
  { destruct ebgp_peers as [|p ps]; [done|].
    apply Forall_cons in Hebgp as [(link & Hin & Ht & _) _]. by destruct (Hnone link Hin). }
  assert (inter_as_links (adj_get adj rname) = []) as Hinter.
  { destruct (inter_as_links (adj_get adj rname)) as [|x xs] eqn:E; [done|].
    assert (Hx : x ∈ inter_as_links (adj_get adj rname)) by (rewrite E; apply list_elem_of_here).
    apply list_elem_of_filter in Hx as [Ht Hin]. by destruct (Hnone x Hin). }
  rewrite Hinter in Hsub. apply Forall2_nil_inv_l in Hsub as ->.
  exists r, my_asn, ibgp_peers, lb. repeat (split; [done|]).
  unfold bgp_block, bgp_tail. simpl. by rewrite ?app_nil_r.
Qed.

Lemma incident_elem rname link : on_link rname link -> link ∈ incident rname link.
Proof.
  unfold incident, on_link. induction (default [] (l_endpoints link)) as [|ep eps IH]; simpl.
  - intros Hin. by apply elem_of_nil in Hin.
  - destruct (decide (ep_router ep = rname)) as [Heq|Hne].
    + rewrite bool_decide_eq_true_2 by done. intros _. apply list_elem_of_here.
    + rewrite bool_decide_eq_false_2 by done. simpl.
      intros [?|Hin]%elem_of_cons; [congruence|]. by apply IH.
Qed.

(** A link of the document on the router is in its adjacency list. *)
Lemma adjacency_elem intent adj rname link :
  adjacency intent = Ok adj -> link ∈ links intent -> on_link rname link ->
  link ∈ adj_get adj rname.
Proof.
  intros Hadj Hlink Hon. rewrite (adjacency_spec _ _ _ Hadj).
  apply list_elem_of_In, in_flat_map. exists link.
  split; apply list_elem_of_In; [done|by apply incident_elem].
Qed.

Lemma route_maps_of_block_any o intent r my_asn border ibgp_peers ebgp_peers lb subnets lbs
    relmap :
  List.filter is_route_map_attachment
    (bgp_block o intent r my_asn border ibgp_peers ebgp_peers lb subnets lbs relmap) =
  if border then concat (map (attach_route_maps relmap) ebgp_peers) else [].
Proof.
  unfold bgp_block, bgp_tail. destruct border; rewrite !List.filter_app; filter_parts;
    by rewrite ?app_nil_l, ?app_nil_r.
Qed.

(** X14.  In a run, the two ways the script finds out whether a router
    faces another AS agree: [has_ebgp_neighbor], which walks the links of
    the document and decides on the policy objects and on [next-hop-self],
    returns [True] exactly when the loop over the adjacency list declared at
    least one exterior neighbor.  So the prefix list, the community lists and
    the route-maps are generated exactly in the blocks that have an
    exterior neighbor to attach them to. *)
Theorem border_iff_exterior_neighbor o intent rname loopbacks link_ips adj lines :
  bgp_is_required intent = true ->
  allocate_link_ips intent = Ok link_ips ->
  adjacency intent = Ok adj ->
  build_bgp o intent rname loopbacks link_ips adj = Ok lines ->
  exists border my_asn ibgp_peers ebgp_peers,
    has_ebgp_neighbor intent rname = Ok border /\
    List.filter is_neighbor_statement lines =
      concat (map (ibgp_neighbor my_asn) ibgp_peers) ++ map ebgp_neighbor ebgp_peers /\
    (border = true <-> ebgp_peers <> []) /\
    (pl_self_baseline ∈ lines <-> ebgp_peers <> []) /\
    (List.filter is_route_map_attachment lines <> [] <-> ebgp_peers <> []).
Proof.
  intros Hreq Hips Hadj Hrun.
  destruct (build_bgp_inv_full _ _ _ _ _ _ _ Hreq Hrun)
    as (r & my_asn & border & ibgp_peers & ebgp_peers & lb & subnets & lbs & relmap
        & _ & _ & Hb & _ & _ & Hebgp & _ & Hall & _ & _ & ->).
  destruct (has_ebgp_neighbor_in_spec rname _ (allocate_link_ips_Ok _ _ Hips))
    as (b & Hb' & Hiff).
  unfold has_ebgp_neighbor in Hb. rewrite Hb' in Hb. injection Hb as <-.
  assert (Hborder : b = true <-> ebgp_peers <> []).
  { rewrite Hiff. split.
    - intros (link & Hlink & Ht & Hon) ->.
      destruct (Hall link) as (other & ip & _ & _ & Hin).
      + apply list_elem_of_filter. split; [done|]. by eapply adjacency_elem.
      + by apply elem_of_nil in Hin.
    - intros Hne. destruct ebgp_peers as [|p ps]; [done|].
      apply Forall_cons in Hebgp as [(link & Hin & Ht & _) _].
      destruct (elem_of_adjacency _ _ _ _ Hadj Hin) as [Hlink Hon]. by exists link. }
  exists b, my_asn, ibgp_peers, ebgp_peers. split; [done|].
  split; [apply neighbor_statements_of_block|]. split; [done|]. split.
  - rewrite <- Hborder. split.
    + intros Hin. destruct b; [done|].
      assert (Hnone : List.filter is_pl_self
                (bgp_block o intent r my_asn false ibgp_peers ebgp_peers lb subnets lbs relmap)
              = []).
      { unfold bgp_block, bgp_tail. rewrite !List.filter_app. filter_parts.
        by rewrite ?app_nil_l, ?app_nil_r. }
      apply filter_nil_Forall in Hnone. rewrite Forall_forall in Hnone.
      by specialize (Hnone _ Hin).
    + intros ->. unfold bgp_block, bgp_tail. rewrite !elem_of_app.
      do 8 right. right. right. right. left. apply list_elem_of_here.
  - rewrite route_maps_of_block_any. split.
    + intros Hne ->. by destruct b.
    + intros Hne. pose proof (proj2 Hborder Hne) as ->.
      destruct ebgp_peers as [|p ps]; [by destruct Hne|]. simpl.
      destruct (attach_route_maps_cases relmap p) as (om & im & ->). done.
Qed.

(** ** The content of the interface blocks *)

Lemma interface_loop_full rname asdata link_ips ls : forall lines0 lines,
  for_each (interface_step rname asdata link_ips) ls lines0 = Ok lines ->
  exists blocks,
    lines = lines0 ++ concat (map (fun blk => blk ++ ["exit"; "!"]) blocks) /\
    Forall2 (block_of_link rname asdata link_ips) ls blocks.
Proof.
  induction ls as [|link ls IH]; intros lines0 lines Hrun.
  - injection Hrun as <-. exists []. rewrite app_nil_r. split; [done|]. constructor.
  - rewrite for_each_cons in Hrun. apply bind_Ok in Hrun as (lines1 & Hstep & Hrun).
    apply IH in Hrun as (blocks & -> & Hblocks).
    unfold interface_step in Hstep.
    apply bind_Ok in Hstep as (ep & Hep & Hstep).
    apply bind_Ok in Hstep as (ip & Hip%key_Ok & Hstep).
    apply bind_Ok in Hstep as (lines2 & Higp & Hstep). injection Hstep as <-.
    assert (Hbody : exists igp,
              (if bool_decide (l_type link = Some "intra_as")
               then igp_iface_lines asdata link = Ok igp else igp = []) /\
              lines2 = lines0 ++ ["interface " +:+ ep_interface ep; " no ip address";
                                  " ipv6 enable"; " ipv6 address " +:+ ip] ++ igp).
    { destruct (bool_decide (l_type link = Some "intra_as")).
      - apply bind_Ok in Higp as (igp & Higp & Hl). injection Hl as <-.
        exists igp. split; [done|]. by rewrite <- app_assoc.
      - injection Higp as <-. exists []. split; [done|]. by rewrite app_nil_r. }
    destruct Hbody as (igp & Higp' & ->).
    exists (interface_block (ep_interface ep) ip igp :: blocks). split.
    + unfold interface_block. simpl. rewrite <- ?app_assoc. simpl.
      rewrite <- ?app_assoc. done.
    + constructor; [|done]. by exists ep, ip, igp.
Qed.

Lemma block_of_link_shape rname asdata link_ips link blk :
  block_of_link rname asdata link_ips link blk ->
  exists hd body, blk = hd :: body ++ [" no shutdown"] /\
                  is_interface hd = true /\ Forall indented body.
Proof.
  intros (ep & ip & igp & _ & _ & Higp & ->).
  exists ("interface " +:+ ep_interface ep),
    ([" no ip address"; " ipv6 enable"; " ipv6 address " +:+ ip] ++ igp).
  split; [unfold interface_block; by rewrite <- app_assoc|]. split; [done|].
  apply Forall_app_2; [unfold indented; repeat constructor|].
  destruct (bool_decide _); [by eapply igp_iface_lines_indented|subst; constructor].
Qed.

(** X15.  The interface blocks of a generated configuration, line by line.
    The block of Loopback0 holds the loopback of the router from the
    loopback table, without [ipv6 enable], and the IGP lines of its AS.  The
    block of each link of the adjacency list holds [ipv6 enable], the
    address the link table holds for the interface of the router on that
    link, and the IGP lines of the AS when the link is of kind [intra_as]:
    an interface on a link of any other kind carries no IGP line. *)
Theorem interface_blocks_content o intent rname loopbacks link_ips adj lines :
  router_config_lines o intent rname loopbacks link_ips adj = Ok lines ->
  exists r asdata lb igp0 phys,
    dict_get (routers intent) rname = Ok r /\
    dict_get_scalar (ases intent) (r_as r) = Ok asdata /\
    loopbacks !! rname = Some lb /\
    igp_iface_lines asdata Loopback0_link = Ok igp0 /\
    interface_blocks lines = loopback_block lb igp0 :: phys /\
    Forall2 (block_of_link rname asdata link_ips) (adj_get adj rname) phys.
Proof.
  unfold router_config_lines. intros Hrun.
  apply bind_Ok in Hrun as (r & Hr & Hrun).
  apply bind_Ok in Hrun as (asdata & Hasd & Hrun).
  apply bind_Ok in Hrun as (lb & Hlb%key_Ok & Hrun).
  apply bind_Ok in Hrun as (igp & Higp & Hrun).
  apply bind_Ok in Hrun as (lines1 & Hifs & Hrun).
  apply bind_Ok in Hrun as (glob & Hglob & Hrun).
  apply bind_Ok in Hrun as (bgp & Hbgp & Hrun). injection Hrun as <-.
  apply interface_loop_full in Hifs as (phys & -> & Hphys).
  pose proof (igp_iface_lines_indented _ _ _ Higp) as Hind.
  apply igp_global_no_interface in Hglob.
  apply build_bgp_no_interface in Hbgp.
  exists r, asdata, lb, igp, phys. repeat (split; [done|]). split; [|done].
  assert (Hshape : Forall (fun blk => exists hd body, blk = hd :: body ++ [" no shutdown"] /\
                              is_interface hd = true /\ Forall indented body)
                          (loopback_block lb igp :: phys)).
  { constructor.
    - exists "interface Loopback0", ([" no ip address"; " ipv6 address " +:+ lb] ++ igp).
      split; [unfold loopback_block; by rewrite <- app_assoc|]. split; [done|].
      apply Forall_app_2; [|done]. unfold indented. repeat constructor.
    - clear -Hphys. induction Hphys as [|link blk ls blocks Hblk _ IH]; constructor; [|done].
      by eapply block_of_link_shape. }
  unfold interface_blocks.
  transitivity (interface_blocks_from None
    (["!"; "hostname " +:+ rname; "!"; "no ip domain-lookup"; "ipv6 unicast-routing"; "!"]
     ++ concat (map (fun blk => blk ++ ["exit"; "!"]) (loopback_block lb igp :: phys))
     ++ (glob ++ bgp ++ ["!"]))).
  { f_equal. unfold loopback_block. simpl. rewrite <- ?app_assoc. simpl.
    rewrite <- ?app_assoc. done. }
  rewrite scan_outside by (repeat constructor).
  rewrite scan_blocks by done.
  rewrite <- (app_nil_r (glob ++ bgp ++ ["!"])), scan_outside.
  - simpl. by rewrite app_nil_r.
  - repeat apply Forall_app_2; try done. repeat constructor.
Qed.

(** ** The two IGP generators *)


(** ** Addresses without their length *)

Lemma before_slash_no_slash a : has_slash a = false -> before_slash a = a.
Proof.
  induction a as [|c a IH]; simpl; [done|].
  intros [Hc Ha]%orb_false_elim. rewrite Hc. by rewrite IH.
Qed.

Lemma before_slash_app a rest :
  has_slash a = false -> before_slash (a +:+ String "/" rest) = a.
Proof.
  induction a as [|c a IH]; [done|]. simpl.
  intros [Hc Ha]%orb_false_elim.
  change (before_slash (String c (a +:+ String "/" rest)) = String c a).
  simpl. rewrite Hc. by rewrite IH.
Qed.

(** X17.  [ip_no_prefix] keeps the text before the first slash, stripped:
    on an address followed by a slash and anything, and on an address
    without slash, it returns the address stripped.  So an entry
    [str(addr) + "/128"] of the loopback table, or [str(addr) + "/64"] of
    the link table, is read back as [str(addr)] stripped. *)
Theorem ip_no_prefix_drops_length a len :
  has_slash a = false ->
  ip_no_prefix (a +:+ "/" +:+ len) = strip a /\ ip_no_prefix a = strip a.
Proof.
  intros Ha. unfold ip_no_prefix. split.
  - change ("/" +:+ len) with (String "/" len). by rewrite before_slash_app.
  - by rewrite before_slash_no_slash.
Qed.

(** ** Documents on which the run completes *)

Lemma bind_succeeds {A B} (m : result A) (k : A -> result B) :
  (exists a, m = Ok a) -> (forall a, exists b, k a = Ok b) -> exists b, bind m k = Ok b.
Proof. intros [a ->] Hk. apply Hk. Qed.

(** A loop whose body succeeds on every element, whatever the state,
    succeeds. *)
Lemma for_each_succeeds {A S} (body : S -> A -> result S) (l : list A) : forall acc,
  (forall acc x, x ∈ l -> exists acc', body acc x = Ok acc') ->
  exists acc', for_each body l acc = Ok acc'.
Proof.
  induction l as [|x l IH]; intros acc Hbody; [by exists acc|].
  rewrite for_each_cons. apply bind_succeeds.
  - apply Hbody, list_elem_of_here.
  - intros acc1. apply IH. intros acc2 y Hy. by apply Hbody, list_elem_of_further.
Qed.

Lemma dict_get_elem {A} (d : list (string * A)) k v : dict_get d k = Ok v -> (k, v) ∈ d.
Proof.
  unfold dict_get. intros Hget%key_Ok.
  destruct (List.find _ d) as [[k' v']|] eqn:E; [|done]. injection Hget as <-.
  apply find_some in E as [Hin Hk%bool_decide_eq_true]. simpl in Hk. subst k'.
  by apply list_elem_of_In.
Qed.

Lemma dict_get_succeeds {A} (d : list (string * A)) k :
  k ∈ map fst d -> exists v, dict_get d k = Ok v.
Proof.
  unfold dict_get. intros Hk.
  destruct (List.find (fun p => bool_decide (p.1 = k)) d) as [[k' v']|] eqn:E; [by eexists|].
  apply list_elem_of_fmap in Hk as ([k' v'] & -> & Hin).
  apply list_elem_of_In in Hin.
  pose proof (find_none _ _ E _ Hin) as Hno. simpl in Hno.
  by rewrite bool_decide_eq_true_2 in Hno.
Qed.

(** The routers an AS of the document lists are routers of the document. *)
Lemma as_routers_in_document intent asn asdata rs r :
  dict_get (ases intent) asn = Ok asdata -> as_routers asdata = Some rs -> r ∈ rs ->
  r ∈ document_routers (ases intent).
Proof.
  intros Hasd%dict_get_elem Hrs Hr. unfold document_routers.
  apply list_elem_of_In, in_concat. exists (as_routers_list asdata). split.
  - apply in_map_iff. exists (asn, asdata). split; [done|]. by apply list_elem_of_In.
  - unfold as_routers_list. rewrite Hrs. by apply list_elem_of_In.
Qed.

(** On a link with two endpoints, a router at one end finds its endpoint
    and the other one, both among the two. *)
Lemma endpoints_on_link link rname :
  valid_link link -> on_link rname link ->
  exists mine other,
    get_endpoint_for_router link rname = Ok mine /\
    other_endpoint link rname = Ok other /\
    ep_router mine = rname /\
    mine ∈ default [] (l_endpoints link) /\ other ∈ default [] (l_endpoints link).
Proof.
  intros (s & net & e0 & e1 & _ & _ & _ & _ & Heps) Hon.
  unfold on_link, get_endpoint_for_router, other_endpoint in *. rewrite Heps in *. simpl in *.
  destruct (decide (ep_router e0 = rname)) as [H0|H0].
  - rewrite !bool_decide_eq_true_2 by done. exists e0, e1.
    repeat (split; [done|]). split; in_list.
  - rewrite !bool_decide_eq_false_2 by done. simpl.
    assert (H1 : ep_router e1 = rname).
    { apply elem_of_cons in Hon as [?|Hon]; [congruence|].
      apply elem_of_cons in Hon as [?|Hon]; [done|]. by apply elem_of_nil in Hon. }
    rewrite !bool_decide_eq_true_2 by done. exists e1, e0.
    repeat (split; [done|]). split; in_list.
Qed.

Lemma igp_iface_lines_succeeds asdata link :
  supported_igp (as_igp asdata) -> cost_ok link ->
  exists ls, igp_iface_lines asdata link = Ok ls.
Proof.
  unfold igp_iface_lines. intros [Ht|[Ht|(Ht & [pid Hpid] & [area Harea])]] Hcost;
    rewrite Ht; simpl; [eauto|eauto|].
  rewrite Hpid, Harea. simpl. destruct (l_ospf_cost link) as [c|] eqn:Hc; [|eauto].
  destruct (Hcost c Hc) as [z ->]. simpl. eauto.
Qed.

Lemma igp_global_succeeds asdata rid :
  supported_igp (as_igp asdata) -> exists ls, igp_global asdata rid = Ok ls.
Proof.
  unfold igp_global. intros [Ht|[Ht|(Ht & [pid Hpid] & _)]]; rewrite Ht; simpl; [eauto|eauto|].
  rewrite Hpid. simpl. eauto.
Qed.

Section Run.
Context (o : SetOrder) (intent : Intent).
Context (loopbacks : gmap string string) (link_ips : gmap (string * string) string).
Context (adj : gmap string (list Link)).
Hypothesis Hwf : well_formed intent.
Hypothesis Hloopbacks : allocate_loopbacks intent = Ok loopbacks.
Hypothesis Hlink_ips : allocate_link_ips intent = Ok link_ips.
Hypothesis Hadjacency : adjacency intent = Ok adj.

Lemma run_loopback r : r ∈ document_routers (ases intent) -> is_Some (loopbacks !! r).
Proof.
  intros Hr. destruct (allocate_ases_Ok _ _ _ Hloopbacks) as (_ & _ & Hin).
  destruct (Hin r Hr) as (? & ? & ? & ? & _ & _ & _ & _ & -> & _). eauto.
Qed.

Lemma run_link_ip link ep :
  link ∈ links intent -> ep ∈ default [] (l_endpoints link) ->
  is_Some (link_ips !! (ep_router ep, ep_interface ep)).
Proof.
  intros Hlink Hep. destruct Hwf as (_ & Hval & Hsh & _).
  destruct (allocate_links_valid _ ∅ Hval Hsh) as (out & Hrun & _ & Hdom & _); [done|].
  unfold allocate_link_ips in Hlink_ips. rewrite Hlink_ips in Hrun. injection Hrun as <-.
  apply Hdom. apply list_elem_of_In, in_concat. exists (endpoint_pairs link). split.
  - apply in_map. by apply list_elem_of_In.
  - apply list_elem_of_In. unfold endpoint_pairs.
    apply (list_elem_of_fmap_2 endpoint_pair) in Hep. exact Hep.
Qed.

Lemma run_adjacent rname link :
  link ∈ adj_get adj rname ->
  link ∈ links intent /\ valid_link link /\ cost_ok link /\
  exists mine other,
    get_endpoint_for_router link rname = Ok mine /\
    other_endpoint link rname = Ok other /\
    ep_router mine = rname /\
    is_Some (link_ips !! (rname, ep_interface mine)) /\
    is_Some (link_ips !! (ep_router other, ep_interface other)) /\
    ep_router other ∈ map fst (routers intent).
Proof.
  intros Hin. destruct (elem_of_adjacency _ _ _ _ Hadjacency Hin) as [Hlink Hon].
  destruct Hwf as (_ & Hval & _ & Hcost & Hrouters & _).
  rewrite Forall_forall in Hval, Hcost.
  split; [done|]. split; [by apply Hval|]. split; [by apply Hcost|].
  destruct (endpoints_on_link link rname (Hval _ Hlink) Hon)
    as (mine & other & Hm & Ho & Hr & Hmi & Hoi).
  exists mine, other. repeat (split; [done|]). split; [|split].
  - rewrite <- Hr. by apply run_link_ip with link.
  - by apply run_link_ip with link.
  - by apply Hrouters with link.
Qed.

Lemma run_as_loopbacks asn asdata rs r :
  dict_get (ases intent) asn = Ok asdata -> as_routers asdata = Some rs -> r ∈ rs ->
  exists lb, key (loopbacks !! r) = Ok lb.
Proof.
  intros Hasd Hrs Hr.
  destruct (run_loopback r (as_routers_in_document _ _ _ _ _ Hasd Hrs Hr)) as [lb ->].
  by exists lb.
Qed.

Lemma run_loopbacks_for_as asn asdata :
  dict_get (ases intent) asn = Ok asdata -> is_Some (as_routers asdata) ->
  exists lbs, loopbacks_for_as intent loopbacks asn = Ok lbs.
Proof.
  intros Hasd [rs Hrs]. unfold loopbacks_for_as. rewrite Hasd. simpl. rewrite Hrs. simpl.
  apply for_each_succeeds. intros out r Hr. apply bind_succeeds; [|eauto].
  by eapply run_as_loopbacks.
Qed.

Lemma run_relationships rname :
  exists relmap, get_interas_relationship_for_router intent rname adj = Ok relmap.
Proof.
  unfold get_interas_relationship_for_router. apply for_each_succeeds.
  intros rel link Hlink. unfold relationship_step.
  destruct (bool_decide (l_type link <> Some "inter_as")); [eauto|].
  destruct (run_adjacent _ _ Hlink) as (_ & _ & _ & mine & other & _ & -> & _). simpl. eauto.
Qed.

Lemma run_router_ok rname :
  rname ∈ map fst (routers intent) -> router_ok intent rname.
Proof.
  destruct Hwf as (_ & _ & _ & _ & _ & Hrs). rewrite Forall_forall in Hrs. apply Hrs.
Qed.

Lemma run_build_bgp rname :
  router_ok intent rname ->
  exists lines, build_bgp o intent rname loopbacks link_ips adj = Ok lines.
Proof.
  intros (r & asdata & Hr & _ & _ & Hdoc & Hbgp). unfold build_bgp.
  destruct (bgp_is_required intent) eqn:Hreq; simpl; [|eauto].
  destruct (Hbgp eq_refl) as (my_asn & asd & Hasn & Hasd & Hrs).
  assert (Hb : exists b, bgp intent = Some b).
  { unfold bgp_is_required in Hreq. destruct (bgp intent); [eauto|done]. }
  destruct Hb as [b ->]. simpl. rewrite Hr. simpl. rewrite Hasn. simpl.
  apply bind_succeeds.
  { destruct (ibgp_full_mesh b); [|eauto]. rewrite Hasd. simpl.
    destruct Hrs as [rs Hrs]. rewrite Hrs. simpl.
    apply for_each_succeeds. intros [ps ls] peer Hpeer. unfold ibgp_step.
    destruct (bool_decide (peer = rname)); [eauto|].
    apply bind_succeeds; [by eapply run_as_loopbacks|eauto]. }
  intros [ibgp_peers lines1]. apply bind_succeeds.
  { apply for_each_succeeds. intros [ps ls] link Hlink. unfold ebgp_step.
    destruct (bool_decide (l_type link <> Some "inter_as")); [eauto|].
    destruct (run_adjacent _ _ Hlink)
      as (_ & _ & _ & mine & other & _ & -> & _ & _ & [ip Hip] & Hpeer).
    simpl. destruct (run_router_ok _ Hpeer) as (pr & _ & -> & _ & _ & _ & Hpbgp).
    simpl. destruct (Hpbgp Hreq) as (peer_asn & _ & -> & _). simpl.
    rewrite Hip. simpl. destruct (bool_decide _); eauto. }
  intros [ebgp_peers lines2]. apply bind_succeeds.
  { destruct Hwf as (_ & Hval & _).
    destruct (has_ebgp_neighbor_in_spec rname _ Hval) as (border & Hborder & _). eauto. }
  intros border. apply bind_succeeds.
  { destruct (run_loopback _ Hdoc) as [lb ->]. simpl. eauto. }
  intros lb. apply bind_succeeds.
  { apply for_each_succeeds. intros ls link Hlink. unfold interas_network_step.
    destruct (bool_decide (l_type link = Some "inter_as")); [|eauto].
    destruct (run_adjacent _ _ Hlink) as (_ & (s & ? & ? & ? & -> & _) & _). simpl. eauto. }
  intros lines3. destruct border; [|simpl; eauto].
  apply bind_succeeds.
  { apply bind_succeeds; [by eapply run_loopbacks_for_as|eauto]. }
  intros lines4. apply bind_succeeds; [by eapply run_loopbacks_for_as|].
  intros lbs. destruct (foldl prefix_list_step _ _) as [seq lines5].
  apply bind_succeeds; [apply run_relationships|eauto].
Qed.

Lemma run_router_config rname :
  rname ∈ map fst (routers intent) ->
  exists cfg, build_router_config o intent rname loopbacks link_ips adj = Ok cfg.
Proof.
  intros Hin. pose proof (run_router_ok _ Hin) as Hok.
  destruct (run_build_bgp _ Hok) as [bgp_lines Hbgp].
  destruct Hok as (r & asdata & Hr & Hasd & Higp & Hdoc & _).
  unfold build_router_config, router_config_lines. rewrite Hr. simpl. rewrite Hasd. simpl.
  destruct (run_loopback _ Hdoc) as [lb ->]. simpl.
  apply bind_succeeds; [|eauto]. apply bind_succeeds.
  { apply igp_iface_lines_succeeds; [done|]. intros c Hc. discriminate Hc. }
  intros igp0. apply bind_succeeds.
  { apply for_each_succeeds. intros ls link Hlink. unfold interface_step.
    destruct (run_adjacent _ _ Hlink)
      as (_ & _ & Hcost & mine & other & -> & _ & _ & [ip Hip] & _).
    simpl. rewrite Hip. simpl. apply bind_succeeds; [|eauto].
    destruct (bool_decide (l_type link = Some "intra_as")); [|eauto].
    apply bind_succeeds; [by apply igp_iface_lines_succeeds|eauto]. }
  intros lines1. apply bind_succeeds; [by apply igp_global_succeeds|].
  intros glob. rewrite Hbgp. simpl. eauto.
Qed.

Lemma run_write_configs rs : forall fs,
  (forall r, r ∈ rs -> r ∈ map fst (routers intent)) ->
  exists cfgs,
    length cfgs = length rs /\
    Forall2 (fun r cfg => build_router_config o intent r loopbacks link_ips adj = Ok cfg)
            rs cfgs /\
    write_configs o intent loopbacks link_ips adj rs fs =
    (fs ++ zip_with config_file rs cfgs, Ok tt).
Proof.
  induction rs as [|r rs IH]; intros fs Hrs.
  - exists []. simpl. rewrite app_nil_r. split; [done|]. split; [constructor|done].
  - destruct (run_router_config r (Hrs r (list_elem_of_here _ _))) as [cfg Hcfg].
    destruct (IH (fs ++ [config_file r cfg])) as (cfgs & Hlen & Hall & Hrun).
    { intros r' Hr'. by apply Hrs, list_elem_of_further. }
    exists (cfg :: cfgs). simpl. rewrite Hcfg. split; [by f_equal|].
    split; [by constructor|]. unfold config_file in Hrun at 1. rewrite Hrun.
    by rewrite <- app_assoc.
Qed.

End Run.

(** X18.  On a well-formed document the run completes: both allocations
    succeed, the adjacency is built, the configuration of every router of
    [intent["routers"]] is generated, and the run ends without exception
    after writing one file per router, in the order of the document. *)
Theorem well_formed_run_completes o intent :
  well_formed intent ->
  exists loopbacks link_ips adj cfgs,
    allocate_loopbacks intent = Ok loopbacks /\
    allocate_link_ips intent = Ok link_ips /\
    adjacency intent = Ok adj /\
    Forall2 (fun r cfg => build_router_config o intent r loopbacks link_ips adj = Ok cfg)
            (map fst (routers intent)) cfgs /\
    main o intent = (zip_with config_file (map fst (routers intent)) cfgs, Ok tt).
Proof.
  intros Hwf. pose proof Hwf as (Hases & Hval & Hsh & _).
  destruct (allocate_ases_ok _ ∅ Hases) as [loopbacks Hlb].
  destruct (allocate_links_valid _ ∅ Hval Hsh) as (link_ips & Hips & _); [done|].
  destruct (adjacency_Ok intent Hval) as [adj Hadj].
  destruct (run_write_configs o intent loopbacks link_ips adj Hwf Hlb Hips Hadj
              (map fst (routers intent)) []) as (cfgs & _ & Hall & Hrun); [done|].
  exists loopbacks, link_ips, adj, cfgs. repeat (split; [done|]).
  unfold main. unfold allocate_loopbacks in Hlb. unfold allocate_link_ips in Hips.
  fold (allocate_loopbacks intent) in Hlb. fold (allocate_link_ips intent) in Hips.
  by rewrite Hlb, Hips, Hadj, Hrun.
Qed.

End Properties.

(** * Properties of the deployment *)

Section DeployProperties.
Import DeployTelnet.
Context `{PyLib} `{PyText}.

(** ** The lines kept of a file *)

Lemma clean_step_sendable lines raw :
  clean_step lines raw =
  lines ++ (if sendable (rstrip raw) then [rstrip raw] else []).
Proof.
  unfold clean_step, sendable.
  destruct (bool_decide (strip (rstrip raw) = "")); simpl; [by rewrite app_nil_r|].
  destruct (startswith (strip (rstrip raw)) "!"); simpl; [by rewrite app_nil_r|].
  destruct (contains "boot-start-marker" (rstrip raw)); simpl; [by rewrite app_nil_r|].
  destruct (contains "boot-end-marker" (rstrip raw)); simpl; [by rewrite app_nil_r|].
  destruct (bool_decide (strip (rstrip raw) = "end")); simpl; [by rewrite app_nil_r|].
  destruct (bool_decide (strip (rstrip raw) = "conf terminal")); simpl;
    [by rewrite app_nil_r|].
  destruct (bool_decide (strip (rstrip raw) = "configure terminal")); simpl;
    [by rewrite app_nil_r|done].
Qed.

Lemma clean_loop raws : forall lines,
  foldl clean_step lines raws = lines ++ List.filter sendable (map rstrip raws).
Proof.
  induction raws as [|raw raws IH]; intros lines; simpl; [by rewrite app_nil_r|].
  rewrite IH, clean_step_sendable, <- app_assoc.
  by destruct (sendable (rstrip raw)).
Qed.

Lemma count_occ_filter_kept (P : string -> bool) l x :
  P x = true -> count_occ String.eq_dec (List.filter P l) x = count_occ String.eq_dec l x.
Proof.
  intros Hx. induction l as [|y l IH]; simpl; [done|].
  destruct (String.eq_dec y x) as [->|Hne].
  - rewrite Hx. simpl. rewrite IH. by destruct (String.eq_dec x x).
  - destruct (P y); simpl; [by destruct (String.eq_dec y x)|done].
Qed.

(** X19.  [clean_lines_for_cli] returns the lines of the text, each
    stripped on the right, that are worth typing, in the order of the text:
    a line is dropped when it is blank or a comment once stripped, when it
    holds a boot marker, or when once stripped it reads [end],
    [conf terminal] or [configure terminal]; nothing else is dropped, and a
    line kept is kept as often as the text has it: no repetition is
    removed. *)
Theorem clean_lines_keeps_sendable cfg_text :
  clean_lines_for_cli cfg_text = List.filter sendable (map rstrip (splitlines cfg_text)) /\
  Forall (fun line => strip line <> "" /\ startswith (strip line) "!" = false /\
                      strip line <> "end" /\ strip line <> "conf terminal" /\
                      strip line <> "configure terminal")
         (clean_lines_for_cli cfg_text) /\
  forall line, sendable line = true ->
    count_occ String.eq_dec (clean_lines_for_cli cfg_text) line =
    count_occ String.eq_dec (map rstrip (splitlines cfg_text)) line.
Proof.
  assert (Heq : clean_lines_for_cli cfg_text =
                List.filter sendable (map rstrip (splitlines cfg_text)))
    by (unfold clean_lines_for_cli; by rewrite clean_loop).
  split; [done|]. rewrite Heq. split.
  - apply Forall_forall. intros line [_ Hs]%list_elem_of_In%filter_In.
    unfold sendable in Hs.
    repeat (apply andb_prop in Hs as [Hs ?]).
    repeat match goal with
           | Hn : negb (bool_decide _) = true |- _ =>
               apply negb_true_iff, bool_decide_eq_false in Hn
           | Hn : negb _ = true |- _ => apply negb_true_iff in Hn
           end.
    done.
  - intros line Hline. by apply count_occ_filter_kept.
Qed.

(** ** One session *)

Lemma send_loop lines : forall t,
  foldl send_step t lines =
  t ++ flat_map (fun line => [Send (line +:+ crlf); Sleep 50]) lines.
Proof.
  induction lines as [|line lines IH]; intros t; simpl; [by rewrite app_nil_r|].
  rewrite IH. unfold send_step. by rewrite <- app_assoc.
Qed.

Lemma port_of_table r port : port_of r = Some port -> r ∈ map fst ROUTER_TELNET_PORTS.
Proof.
  unfold port_of. destruct (List.find _ _) as [[k v]|] eqn:E; [|done]. intros _.
  apply find_some in E as [Hin Hk%bool_decide_eq_true]. simpl in Hk. subst k.
  apply list_elem_of_In, in_map_iff. by exists (r, v).
Qed.

Lemma table_port_of r : r ∈ map fst ROUTER_TELNET_PORTS -> is_Some (port_of r).
Proof.
  intros Hin. simpl in Hin.
  repeat (apply elem_of_cons in Hin as [->|Hin]; [by eexists|]).
  by apply elem_of_nil in Hin.
Qed.

(** The names of the table are plain file names: the path of the file of a
    router is the directory, a slash and the name. *)
Lemma table_path r port :
  port_of r = Some port -> path_join CONFIG_DIR (r +:+ ".cfg") = config_path r.
Proof.
  intros Hin%port_of_table. simpl in Hin.
  repeat (apply elem_of_cons in Hin as [->|Hin]; [reflexivity|]).
  by apply elem_of_nil in Hin.
Qed.

Lemma deploy_router_cases w r t :
  deploy_router w r t =
  match port_of r with
  | None => (t, RaisedKeyError)
  | Some port =>
      match files w !! config_path r with
      | None => (t ++ [Print ("[SKIP] Fichier manquant: " +:+ config_path r)], Returned)
      | Some cfg_text =>
          if accepts w port then (t ++ session_events r port cfg_text, Returned)
          else (t ++ [Print ("[INFO] Connexion Telnet à " +:+ r +:+ " sur "
                             +:+ HOST +:+ ":" +:+ pretty port +:+ " ...")], RaisedOSError)
      end
  end.
Proof.
  unfold deploy_router. fold (port_of r).
  destruct (port_of r) as [port|] eqn:Hport; [|done].
  rewrite (table_path _ _ Hport).
  destruct (files w !! config_path r) as [cfg_text|]; [|done].
  destruct (accepts w port); simpl; [|done].
  rewrite send_loop. unfold session_events. f_equal.
  rewrite <- !app_assoc. reflexivity.
Qed.

Lemma sent_app t1 t2 : sent (t1 ++ t2) = sent t1 ++ sent t2.
Proof. apply flat_map_app. Qed.

Lemma connections_app t1 t2 : connections (t1 ++ t2) = connections t1 ++ connections t2.
Proof. apply flat_map_app. Qed.

Lemma sent_lines lines :
  sent (flat_map (fun line => [Send (line +:+ crlf); Sleep 50]) lines) =
  map (fun line => line +:+ crlf) lines.
Proof. induction lines as [|l lines IH]; simpl; [done|]. by rewrite <- IH. Qed.

Lemma connections_lines lines :
  connections (flat_map (fun line => [Send (line +:+ crlf); Sleep 50]) lines) = [].
Proof. induction lines as [|l lines IH]; simpl; done. Qed.

Lemma sent_session r port cfg_text :
  sent (session_events r port cfg_text) = session_data cfg_text.
Proof.
  unfold session_events, session_data. rewrite !sent_app, sent_lines. reflexivity.
Qed.

Lemma connections_session r port cfg_text :
  connections (session_events r port cfg_text) = [(HOST, port)].
Proof.
  unfold session_events. rewrite !connections_app, connections_lines. reflexivity.
Qed.

(** X20.  One call of [deploy_router].  A name missing from the port table
    raises [KeyError] before anything is printed, read or opened.  A router
    whose file is missing is skipped with a message: no connection is
    opened.  A router whose port does not answer raises after the
    announcement, nothing being typed.  Otherwise the call opens one
    connection, to the port of the router on [HOST], types the way into
    configuration mode, then the lines kept of the file, each followed by
    CR LF, then the way out and [wr mem], closes the connection and reports;
    none of the lines typed in between is blank, a comment, [end],
    [conf terminal] or [configure terminal]. *)
Theorem deploy_router_session w r t :
  (port_of r = None -> deploy_router w r t = (t, RaisedKeyError)) /\
  (forall port, port_of r = Some port ->
     (files w !! config_path r = None ->
        exists report, deploy_router w r t = (t ++ [Print report], Returned)) /\
     (forall cfg_text, files w !! config_path r = Some cfg_text ->
        (accepts w port = false ->
           exists report, deploy_router w r t = (t ++ [Print report], RaisedOSError)) /\
        (accepts w port = true ->
           exists session before,
             deploy_router w r t = (t ++ session, Returned) /\
             connections session = [(HOST, port)] /\
             sent session =
               [crlf; "enable" +:+ crlf; "conf t" +:+ crlf]
               ++ map (fun line => line +:+ crlf) (clean_lines_for_cli cfg_text)
               ++ [crlf; "end" +:+ crlf; "wr mem" +:+ crlf; crlf] /\
             Forall (fun line => sendable line = true) (clean_lines_for_cli cfg_text) /\
             session = before ++ [Close; Print ("[OK] " +:+ r +:+ " déployé via Telnet.")]))).
Proof.
  rewrite deploy_router_cases. split; [by intros ->|].
  intros port ->. split; [intros ->; eauto|].
  intros cfg_text ->. split; [intros ->; eauto|]. intros ->.
  eexists (session_events r port cfg_text), _.
  split; [done|]. split; [apply connections_session|]. split; [apply sent_session|].
  split.
  - unfold clean_lines_for_cli. rewrite clean_loop. simpl.
    apply Forall_forall. by intros line [_ Hs]%list_elem_of_In%filter_In.
  - unfold session_events.
    change [Send crlf; Sleep 300; Send ("end" +:+ crlf); Sleep 1000;
            Send ("wr mem" +:+ crlf); Sleep 2000; Send crlf; Close;
            Print ("[OK] " +:+ r +:+ " déployé via Telnet.")]
      with ([Send crlf; Sleep 300; Send ("end" +:+ crlf); Sleep 1000;
             Send ("wr mem" +:+ crlf); Sleep 2000; Send crlf]
            ++ [Close; Print ("[OK] " +:+ r +:+ " déployé via Telnet.")]).
    rewrite !app_assoc. reflexivity.
Qed.

(** ** The whole deployment *)

Lemma deploy_routers_run w names : forall t,
  Forall (fun r => is_Some (port_of r)) names ->
  exists k,
    (k <= length names)%nat /\
    let served := List.filter (has_file w) (take k names) in
    Forall (fun r => answers w r = true) served /\
    sent (deploy_routers w names t).1 = sent t ++ flat_map (session_of w) served /\
    connections (deploy_routers w names t).1 = connections t ++ map endpoint_of served /\
    match (deploy_routers w names t).2 with
    | Returned => k = length names
    | RaisedOSError =>
        exists r, names !! k = Some r /\ has_file w r = true /\ answers w r = false
    | RaisedKeyError => False
    end.
Proof.
  induction names as [|r names IH]; intros t Hnames.
  - exists 0%nat. simpl. rewrite !app_nil_r. repeat (split; [done|]). done.
  - apply Forall_cons in Hnames as [[port Hport] Hnames]. simpl.
    rewrite deploy_router_cases, Hport.
    destruct (files w !! config_path r) as [cfg_text|] eqn:Hfile.
    + destruct (accepts w port) eqn:Hacc.
      * destruct (IH (t ++ session_events r port cfg_text) Hnames)
          as (k & Hk & Hans & Hsent & Hconn & Hend).
        exists (S k). split; [simpl; lia|]. simpl.
        assert (Hf : has_file w r = true)
          by (unfold has_file; rewrite Hfile; by apply bool_decide_eq_true_2).
        rewrite Hf. split; [|split; [|split]].
        -- constructor; [|done]. unfold answers. by rewrite Hport.
        -- rewrite Hsent, sent_app, sent_session. simpl. unfold session_of at 2.
           rewrite Hfile. simpl. by rewrite <- app_assoc.
        -- rewrite Hconn, connections_app, connections_session. simpl.
           unfold endpoint_of at 2. rewrite Hport. simpl. by rewrite <- app_assoc.
        -- destruct (deploy_routers w names _).2; [by f_equal|done|done].
      * exists 0%nat. simpl. rewrite sent_app, connections_app. simpl.
        rewrite !app_nil_r. split; [lia|]. repeat (split; [done|]).
        exists r. split; [done|]. split.
        -- unfold has_file. rewrite Hfile. by apply bool_decide_eq_true_2.
        -- unfold answers. by rewrite Hport.
    + destruct (IH (t ++ [Print ("[SKIP] Fichier manquant: " +:+ config_path r)]) Hnames)
        as (k & Hk & Hans & Hsent & Hconn & Hend).
      exists (S k). split; [simpl; lia|]. simpl.
      assert (Hf : has_file w r = false).
      { unfold has_file. rewrite Hfile. apply bool_decide_eq_false_2. by intros [? ?]. }
      rewrite Hf. split; [done|]. split; [|split].
      * rewrite Hsent, sent_app. simpl. by rewrite app_nil_r.
      * rewrite Hconn, connections_app. simpl. by rewrite app_nil_r.
      * destruct (deploy_routers w names _).2; [by f_equal|done|done].
Qed.

(** X21.  A run of [main].  The routers are visited in the order of the
    port table; a router without file is passed over; the sessions of the
    others take place one after the other, each on the port of its router,
    until a port does not answer: what the run types is the sessions of the
    routers served, in order, and nothing else.  The run never raises
    [KeyError]; it returns when every router of the table was visited, and it
    stops with the [OSError] of the first router that has a file and whose
    port does not answer, the routers after it being left as they were. *)
Theorem main_visits_in_table_order w :
  let names := map fst ROUTER_TELNET_PORTS in
  exists k,
    (k <= length names)%nat /\
    let served := List.filter (has_file w) (take k names) in
    Forall (fun r => answers w r = true) served /\
    sent (main w).1 = flat_map (session_of w) served /\
    connections (main w).1 = map endpoint_of served /\
    match (main w).2 with
    | Returned => k = length names
    | RaisedOSError =>
        exists r, names !! k = Some r /\ has_file w r = true /\ answers w r = false
    | RaisedKeyError => False
    end.
Proof.
  intros names. unfold main. fold names.
  apply (deploy_routers_run w names []).
  apply Forall_forall. intros r Hr. by apply table_port_of.
Qed.

End DeployProperties.

(** * Sample runs *)

(** ** Where the script departs from the design document *)

(** C2, counterexample.  On [Partial.intent] the run aborts with
    [UnsupportedIGPType] at R2 after it has written R1.cfg. *)
Lemma partial_output_counterexample :
  main insertion_order Partial.intent =
    ([("R1.cfg", Partial.cfg_R1)],
     Err (SystemExit UnsupportedIGPType "[ERROR] Unsupported IGP type: isis"))
  /\ Partial.cfg_R1 <> ""
  /\ ~ writes_nothing_on_abort insertion_order Partial.intent.
Proof.
  assert (Hrun : main insertion_order Partial.intent =
                 ([("R1.cfg", Partial.cfg_R1)],
                  Err (SystemExit UnsupportedIGPType "[ERROR] Unsupported IGP type: isis")))
    by (vm_compute; reflexivity).
  split; [exact Hrun|]. split; [by vm_compute|].
  intros Hclaim. by specialize (Hclaim _ _ Hrun).
Qed.


(** C7.  On [SelfLoop.intent], whose single link claims the pair
    (R1, Gi1/0) at both ends, the allocation raises no
    [DuplicateInterfaceUse]: it returns a table whose only entry maps the
    pair to [subnet base + 2], so endpoint 0 does not hold
    [subnet base + 1]. *)
Theorem same_interface_twice_not_rejected :
  exists out, allocate_link_ips SelfLoop.intent = Ok out /\
    map_to_list out = [(("R1", "Gi1/0"), "2001:100:1::2/64")].
Proof. eexists. split; [reflexivity|]. vm_compute. reflexivity. Qed.

(** ** The scenario of the design document *)

(** R2 is a border router, R1 is not. *)
Example scenario_border :
  has_ebgp_neighbor Scenario.intent "R2" = Ok true /\
  has_ebgp_neighbor Scenario.intent "R1" = Ok false.
Proof. split; reflexivity. Qed.

(** The prefix list of R2: [sorted] puts the /64 first, the digit 1 being
    below the colon. *)
Example scenario_pl_self :
  List.filter is_pl_self Scenario.bgp_R2 =
  ["ipv6 prefix-list PL-SELF seq 5 deny ::/0";
   "ipv6 prefix-list PL-SELF seq 10 permit 2001:100:1::/64";
   "ipv6 prefix-list PL-SELF seq 20 permit 2001:100::1/128";
   "ipv6 prefix-list PL-SELF seq 30 permit 2001:100::2/128"].
Proof. vm_compute. reflexivity. Qed.

Example scenario_networks :
  List.filter is_network_line Scenario.bgp_R2 =
  ["  network 2001:100::2/128";
   "  network 2001:ffff:1::/64";
   "  network 2001:100:1::/64";
   "  network 2001:100::1/128";
   "  network 2001:100::2/128"].
Proof. vm_compute. reflexivity. Qed.

Example scenario_route_maps :
  List.filter is_route_map_attachment Scenario.bgp_R2 =
  ["  neighbor 2001:ffff:1::2 route-map RM-OUT-PEERPROV out";
   "  neighbor 2001:ffff:1::2 route-map RM-IN-PROV in"].
Proof. vm_compute. reflexivity. Qed.

Example scenario_next_hop_self :
  List.filter is_next_hop_self Scenario.bgp_R2 = ["  neighbor 2001:100::1 next-hop-self"].
Proof. vm_compute. reflexivity. Qed.

(** R1 gets no policy object and no next-hop rewriting. *)
Example scenario_R1 :
  build_bgp insertion_order Scenario.intent "R1" Scenario.loopbacks Scenario.link_ips
            Scenario.adj =
  Ok ["router bgp 100";
      " bgp router-id 1.1.1.1";
      " bgp log-neighbor-changes";
      " no bgp default ipv4-unicast";
      " neighbor 2001:100::2 remote-as 100";
      " neighbor 2001:100::2 update-source Loopback0";
      " !";
      " address-family ipv6 unicast";
      "  neighbor 2001:100::2 activate";
      "  neighbor 2001:100::2 send-community";
      "  network 2001:100::1/128";
      " exit-address-family";
      "exit";
      "!"].
Proof. vm_compute. reflexivity. Qed.

(** The two enumerations of sets differ, the output does not. *)
Example scenario_set_orders :
  set_iter reverse_order ["a"; "b"] <> set_iter insertion_order ["a"; "b"] /\
  build_bgp reverse_order Scenario.intent "R2" Scenario.loopbacks Scenario.link_ips
            Scenario.adj = Ok Scenario.bgp_R2.
Proof. split; [by vm_compute|]. vm_compute. reflexivity. Qed.

(** ** The theorems at work *)

(** The tables of a sample document are those its run builds. *)
Lemma loopbacks_of_run intent :
  (exists t, allocate_loopbacks intent = Ok t) ->
  allocate_loopbacks intent = Ok (Sample.loopbacks_of intent).
Proof. intros [t Ht]. unfold Sample.loopbacks_of. by rewrite Ht. Qed.

Lemma link_ips_of_run intent :
  (exists t, allocate_link_ips intent = Ok t) ->
  allocate_link_ips intent = Ok (Sample.link_ips_of intent).
Proof. intros [t Ht]. unfold Sample.link_ips_of. by rewrite Ht. Qed.

Lemma pl_self_enumerates_self_set_witness :
  exists r my_asn lbs pfxs,
    dict_get (routers Scenario.intent) "R2" = Ok r /\
    py_int (r_as r) = Ok my_asn /\
    as_loopbacks Scenario.intent Scenario.loopbacks (pretty my_asn) lbs /\
    List.filter is_pl_self Scenario.bgp_R2 =
      "ipv6 prefix-list PL-SELF seq 5 deny ::/0"
      :: imap (fun k pfx => "ipv6 prefix-list PL-SELF seq "
                            +:+ pretty (10 * (N.of_nat k + 1)) +:+ " permit " +:+ pfx) pfxs /\
    Sorted String.le pfxs /\ NoDup pfxs /\
    forall p, p ∈ pfxs <-> p ∈ lbs \/ intra_as_subnet Scenario.intent (pretty my_asn) p.
Proof.
  apply (pl_self_enumerates_self_set insertion_order Scenario.intent "R2"
           Scenario.loopbacks Scenario.link_ips Scenario.adj Scenario.bgp_R2).
  - reflexivity.
  - vm_compute. reflexivity.
  - vm_compute. reflexivity.
Defined.

Lemma abort_before_or_during_output_witness :
  main insertion_order BadPool.intent =
    ([], Err (SystemExit InvalidPrefixLength
                "[ERROR] AS 200 loopback pool must be /64, got /48"))
  /\ main insertion_order SharedInterface.intent =
       ([], Err (SystemExit DuplicateInterfaceUse "[ERROR] Interface reused: R1:Gi1/0"))
  /\ main insertion_order Partial.intent =
       (zip_with config_file ["R1"] [Partial.cfg_R1], Err (unsupported_igp "isis")).
Proof.
  split; [|split].
  - apply (abort_before_or_during_output insertion_order BadPool.intent).
    vm_compute. reflexivity.
  - apply (proj1 (proj2 (abort_before_or_during_output insertion_order
                           SharedInterface.intent))
             (Sample.loopbacks_of SharedInterface.intent)).
    + apply loopbacks_of_run. eexists. reflexivity.
    + vm_compute. reflexivity.
  - destruct (proj2 (proj2 (abort_before_or_during_output insertion_order Partial.intent))
                (Sample.loopbacks_of Partial.intent) (Sample.link_ips_of Partial.intent))
      as (adj & Hadj & _ & Hprefix & Hunsupported).
    + apply loopbacks_of_run. eexists. reflexivity.
    + apply link_ips_of_run. eexists. reflexivity.
    + assert (adj = Sample.adj_of Partial.intent) as ->
        by (unfold Sample.adj_of; by rewrite Hadj).
      apply (Hprefix ["R1"] [Partial.cfg_R1] "R2" []).
      * reflexivity.
      * constructor; [vm_compute; reflexivity | constructor].
      * apply (Hunsupported "R2" (Sample.router "200" "2.2.2.2")
                 (Sample.as_data "2001:200::/64" ["R2"] Partial.isis) "2001:200::1/128");
          by vm_compute.
Defined.





Lemma every_interface_block_no_shutdown_witness :
  exists lo phys,
    interface_blocks Scenario.lines_R2 = lo :: phys /\
    head lo = Some "interface Loopback0" /\
    Forall2 (fun link blk =>
               exists ep, get_endpoint_for_router link "R2" = Ok ep /\
                          head blk = Some ("interface " +:+ ep_interface ep))
            (adj_get Scenario.adj "R2") phys /\
    Forall (fun blk => " no shutdown" ∈ blk) (lo :: phys).
Proof.
  apply (every_interface_block_no_shutdown insertion_order Scenario.intent "R2"
           Scenario.loopbacks Scenario.link_ips Scenario.adj Scenario.lines_R2).
  vm_compute. reflexivity.
Defined.

Lemma allocate_link_ips_same_endpoint_witness :
  let ep := {| ep_router := "R1"; ep_interface := "Gi1/0" |} in
  let base := 42540508444386655338040395001726238720 in
  exists out_pre out,
    for_each allocate_link [Sample.link "intra_as" (Some (JInt 100)) "2001:100:2::/64"
                              "R1" "Gi2/0" "R2" "Gi2/0" None] ∅ = Ok out_pre /\
    out_pre !! endpoint_pair ep = None /\
    allocate_link out_pre SelfLoop.loop =
      Ok (<[endpoint_pair ep := str_addr (base + 2) +:+ "/64"]>
            (<[endpoint_pair ep := str_addr (base + 1) +:+ "/64"]> out_pre)) /\
    allocate_link_ips SelfLoop.intent2 = Ok out /\
    out !! endpoint_pair ep = Some (str_addr (base + 2) +:+ "/64").
Proof.
  apply (allocate_link_ips_same_endpoint SelfLoop.intent2
           [Sample.link "intra_as" (Some (JInt 100)) "2001:100:2::/64"
              "R1" "Gi2/0" "R2" "Gi2/0" None]
           SelfLoop.loop [] "2001:100:1::/64"
           {| network_address := 42540508444386655338040395001726238720; prefixlen := 64 |}
           {| ep_router := "R1"; ep_interface := "Gi1/0" |}).
  - reflexivity.
  - reflexivity.
  - discriminate.
  - vm_compute. reflexivity.
  - reflexivity.
  - reflexivity.
  - repeat constructor.
    exists "2001:100:2::/64",
      {| network_address := 42540508444387864263860009630900944896; prefixlen := 64 |},
      {| ep_router := "R1"; ep_interface := "Gi2/0" |},
      {| ep_router := "R2"; ep_interface := "Gi2/0" |}.
    split; [reflexivity|]. split; [discriminate|]. split; [vm_compute; reflexivity|].
    split; reflexivity.
  - simpl. split; [|split; [|exact I]].
    + apply Forall_forall. compute_done.
    + apply Forall_forall. compute_done.
Defined.

(** ** The further theorems at work *)

Lemma adj_of_run intent :
  (exists t, adjacency intent = Ok t) ->
  adjacency intent = Ok (Sample.adj_of intent).
Proof. intros [t Ht]. unfold Sample.adj_of. by rewrite Ht. Qed.

Lemma adjacency_lists_incident_links_witness :
  adj_get Scenario.adj "R2" = flat_map (incident "R2") (links Scenario.intent) /\
  (Scenario.adj !! "R2" = None <->
   forall link, link ∈ links Scenario.intent -> ~ on_link "R2" link).
Proof.
  apply (adjacency_lists_incident_links Scenario.intent Scenario.adj).
  apply adj_of_run. eexists. reflexivity.
Defined.

Lemma endpoint_lookups_agree_witness :
  let link := Sample.link "inter_as" None "2001:ffff:1::/64" "R2" "Gi2/0" "R3" "Gi2/0"
                (Some "provider") in
  get_endpoint_for_router link "R3" = Ok {| ep_router := "R3"; ep_interface := "Gi2/0" |} /\
  other_endpoint link "R3" = Ok {| ep_router := "R2"; ep_interface := "Gi2/0" |}.
Proof.
  apply (proj1 (proj2 (endpoint_lookups_agree
           (Sample.link "inter_as" None "2001:ffff:1::/64" "R2" "Gi2/0" "R3" "Gi2/0"
              (Some "provider"))
           "R3" {| ep_router := "R2"; ep_interface := "Gi2/0" |}
           {| ep_router := "R3"; ep_interface := "Gi2/0" |} eq_refl))).
  - discriminate.
  - reflexivity.
Defined.

Lemma link_table_contents_witness :
  is_Some (Scenario.link_ips !! ("R3", "Gi2/0")) <->
  ("R3", "Gi2/0") ∈ concat (map endpoint_pairs (links Scenario.intent)).
Proof.
  apply (proj1 (link_table_contents Scenario.intent Scenario.link_ips
                  (link_ips_of_run Scenario.intent (ex_intro _ _ eq_refl)))).
Defined.

Lemma link_allocation_first_refusal_witness :
  allocate_link_ips SharedInterface.intent =
  Err (SystemExit DuplicateInterfaceUse "[ERROR] Interface reused: R1:Gi1/0").
Proof.
  pose proof (link_allocation_first_refusal SharedInterface.intent
    [Sample.link "intra_as" (Some (JInt 100)) "2001:100:1::/64" "R1" "Gi1/0" "R2" "Gi1/0" None]
    (Sample.link "intra_as" (Some (JInt 100)) "2001:100:2::/64" "R3" "Gi1/0" "R1" "Gi1/0" None)
    []) as Hthm.
  destruct Hthm as (_ & _ & Hnet).
  - reflexivity.
  - constructor; [|constructor].
    exists "2001:100:1::/64",
      {| network_address := 42540508444386655338040395001726238720; prefixlen := 64 |},
      {| ep_router := "R1"; ep_interface := "Gi1/0" |},
      {| ep_router := "R2"; ep_interface := "Gi1/0" |}.
    split; [reflexivity|]. split; [discriminate|]. split; [vm_compute; reflexivity|].
    split; reflexivity.
  - split; [|exact I]. intros p _ Hin. by apply elem_of_nil in Hin.
  - destruct (Hnet {| network_address := 42540508444387864263860009630900944896;
                      prefixlen := 64 |}) as (_ & _ & Hdup).
    + discriminate.
    + vm_compute. reflexivity.
    + apply (Hdup {| ep_router := "R3"; ep_interface := "Gi1/0" |}
                  {| ep_router := "R1"; ep_interface := "Gi1/0" |}).
      * reflexivity.
      * reflexivity.
      * compute_done.
      * compute_done.
Defined.

Lemma loopback_table_contents_witness :
  is_Some (Scenario.loopbacks !! "R3") <-> "R3" ∈ document_routers (ases Scenario.intent).
Proof.
  apply (proj1 (proj2 (loopback_table_contents Scenario.intent Scenario.loopbacks
                         (loopbacks_of_run Scenario.intent (ex_intro _ _ eq_refl))))).
Defined.

Lemma main_outcome_witness :
  let fs := [("R1.cfg", Partial.cfg_R1)] in
  let res : result unit :=
    Err (SystemExit UnsupportedIGPType "[ERROR] Unsupported IGP type: isis") in
  (fs = [] /\ exists e, res = Err e /\
     (allocate_loopbacks Partial.intent = Err e \/
      (exists loopbacks, allocate_loopbacks Partial.intent = Ok loopbacks) /\
      allocate_link_ips Partial.intent = Err e)) \/
  (exists loopbacks link_ips adj cfgs,
     allocate_loopbacks Partial.intent = Ok loopbacks /\
     allocate_link_ips Partial.intent = Ok link_ips /\
     adjacency Partial.intent = Ok adj /\
     Forall2 (fun r cfg => build_router_config insertion_order Partial.intent r
                             loopbacks link_ips adj = Ok cfg)
             (take (length cfgs) (map fst (routers Partial.intent))) cfgs /\
     fs = zip_with config_file (map fst (routers Partial.intent)) cfgs /\
     match res with
     | Ok _ => length cfgs = length (routers Partial.intent)
     | Err e => exists r, map fst (routers Partial.intent) !! length cfgs = Some r /\
                          build_router_config insertion_order Partial.intent r
                            loopbacks link_ips adj = Err e
     end).
Proof.
  apply (main_outcome insertion_order Partial.intent).
  vm_compute. reflexivity.
Defined.

Lemma neighbors_declared_and_activated_witness :
  exists my_asn ibgp_peers ebgp_peers,
    ibgp_peers_of Scenario.intent "R2" my_asn Scenario.loopbacks ibgp_peers /\
    Forall (fun p => exists link, link ∈ adj_get Scenario.adj "R2" /\
                       ebgp_peer_of Scenario.intent "R2" Scenario.link_ips link p)
           ebgp_peers /\
    List.filter is_neighbor_statement Scenario.bgp_R2 =
      concat (map (ibgp_neighbor my_asn) ibgp_peers) ++ map ebgp_neighbor ebgp_peers /\
    List.filter is_activate Scenario.bgp_R2 =
      map activate_line (ibgp_peers ++ map peer_address ebgp_peers) /\
    List.filter is_send_community Scenario.bgp_R2 =
      map send_community_line (ibgp_peers ++ map peer_address ebgp_peers).
Proof.
  apply (neighbors_declared_and_activated insertion_order Scenario.intent "R2"
           Scenario.loopbacks Scenario.link_ips Scenario.adj Scenario.bgp_R2).
  - reflexivity.
  - vm_compute. reflexivity.
Defined.

Lemma exterior_neighbors_once_per_address_witness :
  exists my_asn ibgp_peers ebgp_peers,
    List.filter is_neighbor_statement Parallel.bgp_R2 =
      concat (map (ibgp_neighbor my_asn) ibgp_peers) ++ map ebgp_neighbor ebgp_peers /\
    NoDup (map peer_address ebgp_peers) /\
    Forall (fun p => exists link, link ∈ adj_get Parallel.adj "R2" /\
                       ebgp_peer_of Parallel.intent "R2" Parallel.link_ips link p)
           ebgp_peers /\
    (forall link, link ∈ inter_as_links (adj_get Parallel.adj "R2") ->
       exists other ip, other_endpoint link "R2" = Ok other /\
         Parallel.link_ips !! endpoint_pair other = Some ip /\
         ip_no_prefix ip ∈ map peer_address ebgp_peers).
Proof.
  apply (exterior_neighbors_once_per_address insertion_order Parallel.intent "R2"
           Parallel.loopbacks Parallel.link_ips Parallel.adj Parallel.bgp_R2).
  - reflexivity.
  - vm_compute. reflexivity.
Defined.

Lemma border_policies_are_declared_witness :
  exists my_asn pre atts,
    Scenario.bgp_R2 = pre ++ route_map_lines my_asn ++ atts ++ closing /\
    List.filter is_route_map_attachment Scenario.bgp_R2 = atts /\
    Forall (fun l => exists ip m dir,
              l = "  neighbor " +:+ ip +:+ " route-map " +:+ m +:+ dir /\
              (dir = " out" \/ dir = " in") /\
              ("route-map " +:+ m +:+ " permit 10") ∈ route_map_lines my_asn) atts /\
    pl_self_baseline ∈ pre /\
    ("ip community-list standard COMM-SELF permit " +:+ (pretty my_asn +:+ ":50")) ∈ pre /\
    ("ip community-list standard COMM-CLIENT permit " +:+ (pretty my_asn +:+ ":100")) ∈ pre.
Proof.
  apply (border_policies_are_declared insertion_order Scenario.intent "R2"
           Scenario.loopbacks Scenario.link_ips Scenario.adj Scenario.bgp_R2).
  - reflexivity.
  - vm_compute. reflexivity.
  - vm_compute. reflexivity.
Defined.

Lemma pl_self_permits_as_prefixes_witness :
  exists lb subnets own pfxs,
    Scenario.loopbacks !! "R2" = Some lb /\
    Forall2 (fun link s => l_subnet_v6 link = Some s)
            (inter_as_links (adj_get Scenario.adj "R2")) subnets /\
    List.filter is_network_line Scenario.bgp_R2 = map network_line ([lb] ++ subnets ++ own) /\
    List.filter is_pl_self Scenario.bgp_R2 = pl_self_baseline :: pl_self_entries 10 pfxs /\
    forall p, p ∈ pfxs <-> p ∈ own.
Proof.
  apply (pl_self_permits_as_prefixes insertion_order Scenario.intent "R2"
           Scenario.loopbacks Scenario.link_ips Scenario.adj Scenario.bgp_R2).
  - reflexivity.
  - vm_compute. reflexivity.
  - vm_compute. reflexivity.
Defined.

(** R1 is on the intra-AS link only. *)
Lemma scenario_R1_interior : ~ has_inter_as_link Scenario.intent "R1".
Proof.
  intros (link & Hin & Ht & Hon). simpl in Hin.
  apply elem_of_cons in Hin as [->|Hin]; [discriminate Ht|].
  apply elem_of_cons in Hin as [->|Hin]; [|by apply elem_of_nil in Hin].
  unfold on_link in Hon. simpl in Hon.
  apply elem_of_cons in Hon as [?|Hon]; [done|].
  apply elem_of_cons in Hon as [?|Hon]; [done|]. by apply elem_of_nil in Hon.
Qed.

Lemma non_border_block_witness :
  exists r my_asn ibgp_peers lb,
    dict_get (routers Scenario.intent) "R1" = Ok r /\
    py_int (r_as r) = Ok my_asn /\
    Scenario.loopbacks !! "R1" = Some lb /\
    ibgp_peers_of Scenario.intent "R1" my_asn Scenario.loopbacks ibgp_peers /\
    ScenarioR1.bgp_R1 =
      bgp_head my_asn (r_router_id r)
      ++ concat (map (ibgp_neighbor my_asn) ibgp_peers)
      ++ [" !"; " address-family ipv6 unicast"]
      ++ concat (map (ibgp_activate false) ibgp_peers)
      ++ [network_line lb]
      ++ closing.
Proof.
  apply (non_border_block insertion_order Scenario.intent "R1"
           Scenario.loopbacks Scenario.link_ips Scenario.adj ScenarioR1.bgp_R1).
  - reflexivity.
  - apply link_ips_of_run. eexists. reflexivity.
  - apply adj_of_run. eexists. reflexivity.
  - exact scenario_R1_interior.
  - vm_compute. reflexivity.
Defined.

Lemma interface_blocks_content_witness :
  exists r asdata lb igp0 phys,
    dict_get (routers Scenario.intent) "R2" = Ok r /\
    dict_get_scalar (ases Scenario.intent) (r_as r) = Ok asdata /\
    Scenario.loopbacks !! "R2" = Some lb /\
    igp_iface_lines asdata Loopback0_link = Ok igp0 /\
    interface_blocks Scenario.lines_R2 = loopback_block lb igp0 :: phys /\
    Forall2 (block_of_link "R2" asdata Scenario.link_ips) (adj_get Scenario.adj "R2") phys.
Proof.
  apply (interface_blocks_content insertion_order Scenario.intent "R2"
           Scenario.loopbacks Scenario.link_ips Scenario.adj Scenario.lines_R2).
  vm_compute. reflexivity.
Defined.

Lemma ip_no_prefix_drops_length_witness :
  ip_no_prefix ("2001:100::1" +:+ "/" +:+ "128") = strip "2001:100::1" /\
  ip_no_prefix "2001:100::1" = strip "2001:100::1".
Proof. apply (ip_no_prefix_drops_length "2001:100::1" "128"). reflexivity. Defined.

(** The scenario of the design document is well formed. *)
Lemma scenario_well_formed : well_formed Scenario.intent.
Proof.
  assert (Has : forall pool rs, rs <> [] -> N.of_nat (length rs) < 2 ^ 64 ->
            (exists n, IPv6Network pool = Some n /\ prefixlen n = 64) ->
            valid_as (Sample.as_data pool rs Sample.ospf)).
  { intros pool rs Hne Hlen (n & Hn & H64). by exists n. }
  assert (Hlink : forall ty asn subnet r0 i0 r1 i1 rel, subnet <> "" ->
            (exists n, IPv6Network subnet = Some n /\ prefixlen n = 64) ->
            valid_link (Sample.link ty asn subnet r0 i0 r1 i1 rel)).
  { intros ty asn subnet r0 i0 r1 i1 rel Hne (n & Hn & H64).
    by exists subnet, n, {| ep_router := r0; ep_interface := i0 |},
              {| ep_router := r1; ep_interface := i1 |}. }
  assert (Hrouter : forall rname asn rid rs pool my_asn,
            dict_get (routers Scenario.intent) rname = Ok (Sample.router asn rid) ->
            dict_get (ases Scenario.intent) asn = Ok (Sample.as_data pool rs Sample.ospf) ->
            rname ∈ document_routers (ases Scenario.intent) ->
            py_int (JStr asn) = Ok my_asn -> pretty my_asn = asn ->
            router_ok Scenario.intent rname).
  { intros rname asn rid rs pool my_asn Hr Hasd Hdoc Hint Hpretty.
    exists (Sample.router asn rid), (Sample.as_data pool rs Sample.ospf).
    split; [done|]. split; [done|]. split.
    - right. right. split; [done|]. split; by eexists.
    - split; [done|]. intros _. exists my_asn, (Sample.as_data pool rs Sample.ospf).
      split; [done|]. rewrite Hpretty. split; [done|]. by eexists. }
  split; [|split; [|split; [|split; [|split]]]].
  - constructor; [|constructor; [|constructor]]; apply Has; try discriminate;
      try (vm_compute; reflexivity); eexists; (split; [vm_compute; reflexivity|reflexivity]).
  - constructor; [|constructor; [|constructor]]; apply Hlink; try discriminate;
      eexists; (split; [vm_compute; reflexivity|reflexivity]).
  - split; [|split; [|exact I]]; intros p Hp Hin; simpl in Hin.
    + unfold endpoint_pairs in Hp, Hin. simpl in Hp, Hin.
      apply elem_of_cons in Hp as [->|Hp]; [revert Hin; compute_done|].
      apply elem_of_cons in Hp as [->|Hp]; [revert Hin; compute_done|].
      by apply elem_of_nil in Hp.
    + by apply elem_of_nil in Hin.
  - constructor; [|constructor; [|constructor]]; intros c Hc; discriminate Hc.
  - intros link ep Hmem Hep. simpl in Hmem.
    apply elem_of_cons in Hmem as [->|Hmem].
    { simpl in Hep. apply elem_of_cons in Hep as [->|Hep]; [compute_done|].
      apply elem_of_cons in Hep as [->|Hep]; [compute_done|]. by apply elem_of_nil in Hep. }
    apply elem_of_cons in Hmem as [->|Hmem]; [|by apply elem_of_nil in Hmem].
    simpl in Hep. apply elem_of_cons in Hep as [->|Hep]; [compute_done|].
    apply elem_of_cons in Hep as [->|Hep]; [compute_done|]. by apply elem_of_nil in Hep.
  - constructor; [|constructor; [|constructor; [|constructor]]].
    + apply (Hrouter "R1" "100" "1.1.1.1" ["R1"; "R2"] "2001:100::/64" 100%Z);
        first [reflexivity | compute_done | (vm_compute; reflexivity)].
    + apply (Hrouter "R2" "100" "2.2.2.2" ["R1"; "R2"] "2001:100::/64" 100%Z);
        first [reflexivity | compute_done | (vm_compute; reflexivity)].
    + apply (Hrouter "R3" "200" "3.3.3.3" ["R3"] "2001:200::/64" 200%Z);
        first [reflexivity | compute_done | (vm_compute; reflexivity)].
Qed.

Lemma well_formed_run_completes_witness :
  exists loopbacks link_ips adj cfgs,
    allocate_loopbacks Scenario.intent = Ok loopbacks /\
    allocate_link_ips Scenario.intent = Ok link_ips /\
    adjacency Scenario.intent = Ok adj /\
    Forall2 (fun r cfg => build_router_config insertion_order Scenario.intent r
                            loopbacks link_ips adj = Ok cfg)
            (map fst (routers Scenario.intent)) cfgs /\
    main insertion_order Scenario.intent =
      (zip_with config_file (map fst (routers Scenario.intent)) cfgs, Ok tt).
Proof.
  apply (well_formed_run_completes insertion_order Scenario.intent).
  exact scenario_well_formed.
Defined.

(** ** A deployment *)

(** What is typed into R1 for the configuration generated in the scenario:
    the separators are not typed, nor the [ !] inside [router bgp]. *)
Example workstation_lines :
  DeployTelnet.clean_lines_for_cli ScenarioR1.cfg_R1 =
  ["hostname R1"; "no ip domain-lookup"; "ipv6 unicast-routing";
   "interface Loopback0"; " no ip address"; " ipv6 address 2001:100::1/128";
   " ipv6 ospf 1 area 0"; " no shutdown"; "exit";
   "interface Gi1/0"; " no ip address"; " ipv6 enable";
   " ipv6 address 2001:100:1::1/64"; " ipv6 ospf 1 area 0"; " no shutdown"; "exit";
   "ipv6 router ospf 1"; " router-id 1.1.1.1"; "exit";
   "router bgp 100"; " bgp router-id 1.1.1.1"; " bgp log-neighbor-changes";
   " no bgp default ipv4-unicast"; " neighbor 2001:100::2 remote-as 100";
   " neighbor 2001:100::2 update-source Loopback0"; " address-family ipv6 unicast";
   "  neighbor 2001:100::2 activate"; "  neighbor 2001:100::2 send-community";
   "  network 2001:100::1/128"; " exit-address-family"; "exit"].
Proof. vm_compute. reflexivity. Qed.

(** With every console up the run returns after the session of R1, the only
    router with a file; with the console of R1 down it stops there. *)
Example workstation_runs :
  (DeployTelnet.main Workstation.world).2 = DeployTelnet.Returned /\
  sent (DeployTelnet.main Workstation.world).1 = session_data ScenarioR1.cfg_R1 /\
  connections (DeployTelnet.main Workstation.world).1 = [("localhost", 5005%Z)] /\
  DeployTelnet.main Workstation.world_down =
    ([DeployTelnet.Print "[INFO] Connexion Telnet à R1 sur localhost:5005 ..."],
     DeployTelnet.RaisedOSError).
Proof. repeat split; vm_compute; reflexivity. Qed.

Lemma deploy_router_session_witness :
  exists session before,
    DeployTelnet.deploy_router Workstation.world "R1" [] =
      ([] ++ session, DeployTelnet.Returned) /\
    connections session = [(DeployTelnet.HOST, 5005%Z)] /\
    sent session =
      [DeployTelnet.crlf; "enable" +:+ DeployTelnet.crlf; "conf t" +:+ DeployTelnet.crlf]
      ++ map (fun line => line +:+ DeployTelnet.crlf)
             (DeployTelnet.clean_lines_for_cli ScenarioR1.cfg_R1)
      ++ [DeployTelnet.crlf; "end" +:+ DeployTelnet.crlf; "wr mem" +:+ DeployTelnet.crlf;
          DeployTelnet.crlf] /\
    Forall (fun line => sendable line = true)
           (DeployTelnet.clean_lines_for_cli ScenarioR1.cfg_R1) /\
    session = before ++ [DeployTelnet.Close;
                         DeployTelnet.Print ("[OK] " +:+ "R1" +:+ " déployé via Telnet.")].
Proof.
  apply (proj2 (proj2 (proj2 (deploy_router_session Workstation.world "R1" [])
                         5005%Z eq_refl)
                  ScenarioR1.cfg_R1 eq_refl)
           eq_refl).
Defined.

Lemma border_iff_exterior_neighbor_witness :
  exists border my_asn ibgp_peers ebgp_peers,
    has_ebgp_neighbor Scenario.intent "R2" = Ok border /\
    List.filter is_neighbor_statement Scenario.bgp_R2 =
      concat (map (ibgp_neighbor my_asn) ibgp_peers) ++ map ebgp_neighbor ebgp_peers /\
    (border = true <-> ebgp_peers <> []) /\
    (pl_self_baseline ∈ Scenario.bgp_R2 <-> ebgp_peers <> []) /\
    (List.filter is_route_map_attachment Scenario.bgp_R2 <> [] <-> ebgp_peers <> []).
Proof.
  apply (border_iff_exterior_neighbor insertion_order Scenario.intent "R2"
           Scenario.loopbacks Scenario.link_ips Scenario.adj Scenario.bgp_R2).
  - reflexivity.
  - apply link_ips_of_run. eexists. reflexivity.
  - apply adj_of_run. eexists. reflexivity.
  - vm_compute. reflexivity.
Defined.
